(** * Gatekeeper: the GK per-flow decision engine and the LLS front end

    A shallow embedding of [gk/main.c] and of the request front end of
    [lls/main.c].  Machine integers are mathematical integers with the
    wrap-around of their C type written out; the time-stamp counter, the
    log, the packet buffers handed to the NIC helpers and the LLS mailbox
    live in an explicit [world] threaded through a small state monad. *)

From stdpp Require Import gmap list strings.
From Stdlib Require Import ZArith Lia.

Local Open Scope Z_scope.

(** ** Machine integers *)

Definition u8 (x : Z) : Z := x mod 2 ^ 8.
Definition u16 (x : Z) : Z := x mod 2 ^ 16.
Definition u32 (x : Z) : Z := x mod 2 ^ 32.
Definition u64 (x : Z) : Z := x mod 2 ^ 64.

(** Conversion to [int] (two's complement, 32 bits). *)
Definition s32 (x : Z) : Z := (x + 2 ^ 31) mod 2 ^ 32 - 2 ^ 31.

Definition is_u8 (x : Z) : Prop := 0 <= x < 2 ^ 8.
Definition is_u64 (x : Z) : Prop := 0 <= x < 2 ^ 64.

Definition INT_MAX : Z := 2 ^ 31 - 1.

(** [__builtin_clzl] on a 64-bit word: the bits are scanned from the most
    significant one down.  The C builtin is undefined at zero; the scan
    yields the word size there. *)
Fixpoint clz_from (n : nat) (x : Z) : Z :=
  match n with
  | O => 0
  | S k => if Z.testbit x (Z.of_nat k) then 0 else 1 + clz_from k x
  end.

Definition builtin_clzl (x : Z) : Z := clz_from 64 x.

(** [integer_log_base_2]: [(8 * sizeof(uint64_t) - 1) - clz], returned as
    a [uint8_t]. *)
Definition integer_log_base_2 (delta_time : Z) : Z :=
  u8 (u64 ((8 * 8 - 1) - builtin_clzl delta_time)).

(** ** Packets, flows and interfaces *)

(** [struct ip_flow]: the protocol (an EtherType) and the address pair.
    Addresses are the integers of the family's width. *)
Record ip_flow := IpFlow { proto : Z; f_src : Z; f_dst : Z }.

#[global] Instance ip_flow_eq_dec : EqDecision ip_flow.
Proof. solve_decision. Defined.

#[global] Instance ip_flow_countable : Countable ip_flow :=
  inj_countable' (fun k => (proto k, f_src k, f_dst k))
                 (fun t => IpFlow t.1.1 t.1.2 t.2)
                 (fun k => match k with IpFlow _ _ _ => eq_refl end).

(** [struct rte_mbuf], reduced to what this code reads: the length of the
    data, the RSS hash computed by the NIC and the ICMPv6 type byte found
    behind the Ethernet and IPv6 headers.  [mbuf_id] tells buffers apart. *)
Record rte_mbuf := Mbuf {
  mbuf_id : nat;
  data_len : Z;
  hash_rss : Z;
  icmpv6_type : Z
}.

(** [struct ipacket], filled in by [extract_packet_info]. *)
Record ipacket := Ipacket {
  flow : ip_flow;
  len : Z;
  next_hdr : Z;
  pkt : rte_mbuf
}.

(** [struct gatekeeper_if], reduced to the IPv6 addresses [pkt_is_nd]
    compares against. *)
Record gatekeeper_if := GatekeeperIf {
  ll_ip6_addr : Z;
  ip6_addr : Z;
  ip6_mc_addr : Z;
  ll_ip6_mc_addr : Z
}.

Record net_config := NetConfig {
  front : gatekeeper_if;
  back : gatekeeper_if;
  back_iface_enabled : bool
}.

Inductive iface_ref := Front | Back.

Definition iface_of (net : net_config) (i : iface_ref) : gatekeeper_if :=
  match i with Front => front net | Back => back net end.

(** ** Requests to the LLS block *)

Inductive lls_cache_ref := Arp_cache | Nd_cache.

Record lls_hold := LlsHold { cb : nat; arg : nat; hold_lcore_id : Z }.

Inductive lls_request :=
| LLS_REQ_HOLD (cache : lls_cache_ref) (ip_be : Z) (hold : lls_hold)
| LLS_REQ_PUT (cache : lls_cache_ref) (ip_be : Z) (lcore_id : Z)
| LLS_REQ_ND (nd_pkt : rte_mbuf) (iface : iface_ref).

(** The process-global [lls_conf]: the network configuration it points to
    and the content of its request mailbox, oldest request first. *)
Record lls_config := LlsConfig {
  net : net_config;
  requests : list lls_request
}.

(** ** The world outside the flow tables *)

Inductive event :=
| Log (msg : string)
| Encapsulate (p : rte_mbuf) (dscp : Z)
| Pktmbuf_free (p : rte_mbuf)
| Tx_burst (sent : list rte_mbuf).

(** [tsc] gives the successive readings of the time-stamp counter and
    [ticks] counts the readings made so far; [trace] lists the calls made
    to the logger, to [encapsulate], to [rte_pktmbuf_free] and to
    [rte_eth_tx_burst], oldest first. *)
Record world := World {
  tsc : nat -> Z;
  ticks : nat;
  trace : list event;
  lls_conf : lls_config
}.

Definition M (A : Type) : Type := world -> A * world.

#[global] Instance M_ret : MRet M := fun A a w => (a, w).
#[global] Instance M_bind : MBind M :=
  fun A B f m w => let '(a, w') := m w in f a w'.

Definition emit (e : event) : M unit :=
  fun w => (tt, World (tsc w) (ticks w) (trace w ++ [e]) (lls_conf w)).

Definition RTE_LOG (msg : string) : M unit := emit (Log msg).

Definition rte_pktmbuf_free (p : rte_mbuf) : M unit := emit (Pktmbuf_free p).

(** [rte_rdtsc] returns a [uint64_t]. *)
Definition rte_rdtsc : M Z :=
  fun w => (u64 (tsc w (ticks w)),
            World (tsc w) (S (ticks w)) (trace w) (lls_conf w)).

(** ** Flow entries *)

Definition START_PRIORITY : Z := 38.
Definition START_ALLOWANCE : Z := 8.
Definition PRIORITY_GRANTED : Z := 1.
Definition PRIORITY_RENEW_CAP : Z := 2.
Definition PRIORITY_MAX : Z := 63.
Definition GK_CMD_BURST_SIZE : nat := 32.

Inductive gk_flow_state := GK_REQUEST | GK_GRANTED | GK_DECLINED.

(** The member [u.request] of [struct flow_entry]. *)
Record request_t := RequestT {
  last_packet_seen_at : Z;   (* uint64_t *)
  last_priority : Z;         (* uint8_t *)
  allowance : Z;             (* uint8_t *)
  grantor_id : Z             (* int *)
}.

(** The member [u.granted]. *)
Record granted_t := GrantedT {
  cap_expire_at : Z;         (* uint64_t *)
  budget_renew_at : Z;       (* uint64_t *)
  tx_rate_kb_cycle : Z;      (* int *)
  budget_byte : Z;           (* int *)
  g_grantor_id : Z;          (* int *)
  send_next_renewal_at : Z;  (* uint64_t *)
  renewal_step_cycle : Z     (* uint64_t *)
}.

(** The member [u.declined]. *)
Record declined_t := DeclinedT {
  expire_at : Z              (* uint64_t *)
}.

(** The union [u] together with the [state] field that discriminates it:
    the code always writes [state] and the matching member together. *)
Inductive flow_union :=
| Request (r : request_t)
| Granted (g : granted_t)
| Declined (d : declined_t).

Record flow_entry := FlowEntry {
  fe_flow : ip_flow;
  u : flow_union
}.

Definition state (fe : flow_entry) : gk_flow_state :=
  match u fe with
  | Request _ => GK_REQUEST
  | Granted _ => GK_GRANTED
  | Declined _ => GK_DECLINED
  end.

(** Reading a member of the union.  Every function below is entered under
    the tag of the member it reads; under another tag the storage is that
    of a zeroed entry. *)
Definition u_request (fe : flow_entry) : request_t :=
  match u fe with Request r => r | _ => RequestT 0 0 0 0 end.

Definition u_granted (fe : flow_entry) : granted_t :=
  match u fe with Granted g => g | _ => GrantedT 0 0 0 0 0 0 0 end.

Definition u_declined (fe : flow_entry) : declined_t :=
  match u fe with Declined d => d | _ => DeclinedT 0 end.

Definition set_request (fe : flow_entry) (r : request_t) : flow_entry :=
  FlowEntry (fe_flow fe) (Request r).

Definition set_granted (fe : flow_entry) (g : granted_t) : flow_entry :=
  FlowEntry (fe_flow fe) (Granted g).

Definition set_declined (fe : flow_entry) (d : declined_t) : flow_entry :=
  FlowEntry (fe_flow fe) (Declined d).

(** ** Policies and commands *)

(** [struct ggu_policy]: the flow, and the decision with its parameters
    (the [state] field and the member of [params.u] it selects).
    [Decision_other] stands for every state value the switch of
    [add_ggu_policy] sends to its default branch. *)
Inductive ggu_decision :=
| Decision_granted
    (tx_rate_kb_sec cap_expire_sec next_renewal_ms renewal_step_ms : Z)
| Decision_declined (expire_sec : Z)
| Decision_other (raw_state : Z).

Record ggu_policy := GguPolicy {
  policy_flow : ip_flow;
  decision : ggu_decision
}.

Inductive gk_cmd_entry :=
| GGU_POLICY_ADD (ggu : ggu_policy)
| Cmd_other (op : Z).

(** ** The DPDK hash table

    [rte_hash] maps a key to a slot number below the number of entries
    the table was created with; the slot number indexes the dense array
    of flow entries.  The signature passed by the [_with_hash] variants
    only selects the bucket and does not appear here. *)
Record rte_hash := RteHash {
  h_entries : nat;
  h_keys : gmap ip_flow nat
}.

Definition ENOENT : Z := 2.
Definition ENOSPC : Z := 28.

Definition slot_free (h : rte_hash) (i : nat) : bool :=
  bool_decide (i ∉ (map_img (h_keys h) : gset nat)).

Definition free_slot (h : rte_hash) : option nat :=
  List.find (slot_free h) (seq 0 (h_entries h)).

Definition rte_hash_lookup_with_hash
    (h : rte_hash) (key : ip_flow) (sig : Z) : Z :=
  match h_keys h !! key with
  | Some i => Z.of_nat i
  | None => - ENOENT
  end.

Definition rte_hash_add_key_with_hash
    (h : rte_hash) (key : ip_flow) (sig : Z) : rte_hash * Z :=
  match h_keys h !! key with
  | Some i => (h, Z.of_nat i)
  | None =>
      match free_slot h with
      | Some i => (RteHash (h_entries h) (<[key := i]> (h_keys h)), Z.of_nat i)
      | None => (h, - ENOSPC)
      end
  end.

(** [struct gk_instance]; [mb] is the content of the mailbox, oldest
    command first. *)
Record gk_instance := GkInstance {
  ip_flow_hash_table : rte_hash;
  ip_flow_entry_table : list flow_entry;
  mb : list gk_cmd_entry;
  rx_queue_front : Z;
  tx_queue_back : Z
}.

Definition set_tables (inst : gk_instance)
    (h : rte_hash) (t : list flow_entry) : gk_instance :=
  GkInstance h t (mb inst) (rx_queue_front inst) (tx_queue_back inst).

Definition set_mb (inst : gk_instance) (q : list gk_cmd_entry) : gk_instance :=
  GkInstance (ip_flow_hash_table inst) (ip_flow_entry_table inst) q
             (rx_queue_front inst) (tx_queue_back inst).

(** [struct rte_eth_rss_conf] as kept in [gk_conf->rss_conf]:
    [reta_conf idx shift] is [reta_conf[idx].reta[shift]]. *)
Record rss_config := RssConfig {
  reta_size : Z;
  reta_conf : Z -> Z -> Z
}.

Definition RTE_RETA_GROUP_SIZE : Z := 64.

(** [struct gk_config]; [num_lcores] is the length of [instances], which
    [gk_stage1] allocates with exactly that many elements. *)
Record gk_config := GkConfig {
  instances : list gk_instance;
  rss_conf : rss_config
}.

Definition num_lcores (gk_conf : gk_config) : Z :=
  Z.of_nat (length (instances gk_conf)).

(** The address [&gk_conf->instances[block_idx].mb]. *)
Inductive mailbox_ptr :=
| Null_mailbox
| Instance_mailbox (block_idx : Z).

Section Gatekeeper.

(** The clock conversion constants ([uint64_t] globals set at start-up). *)
Variables picosec_per_cycle cycles_per_sec cycles_per_ms : Z.

(** The status [encapsulate] returns for a packet and a DSCP value. *)
Variable encapsulate_status : rte_mbuf -> Z -> Z.

(** What the header parser finds in a buffer: the flow, the length and
    the next header, or nothing for a frame that is neither IPv4 nor
    IPv6. *)
Variable parse_headers : rte_mbuf -> option (ip_flow * Z * Z).

(** The RSS hash of a flow, as the NIC computes it. *)
Variable rss_ip_flow_hf : ip_flow -> Z.

(** Whether ARP, respectively ND, is enabled on an interface (the
    [iface_enabled] members of the two caches). *)
Variables iface_arp_enabled iface_nd_enabled :
  net_config -> gatekeeper_if -> Z.

Variable ND_NEIGH_PKT_MIN_LEN : Z.
Variable MAILBOX_MAX_ENTRIES : nat.

(** *** The LLS front end ([lls/main.c]) *)

Definition ETHER_TYPE_IPv6 : Z := 0x86DD.
Definition IPPROTO_ICMPV6 : Z := 58.
Definition ND_NEIGHBOR_SOLICITATION : Z := 135.
Definition ND_NEIGHBOR_ADVERTISEMENT : Z := 136.

Definition arp_enabled (c : lls_config) : bool :=
  negb (iface_arp_enabled (net c) (front (net c)) =? 0)
  || negb (iface_arp_enabled (net c) (back (net c)) =? 0).

Definition nd_enabled (c : lls_config) : bool :=
  negb (iface_nd_enabled (net c) (front (net c)) =? 0)
  || negb (iface_nd_enabled (net c) (back (net c)) =? 0).

(** Modelled from the spec: [lls_req] is not part of the sources at hand.
    It copies the request into the LLS mailbox, a bounded queue whose
    [enqueue] returns ok or full; ok is 0 and full is taken to be -1. *)
Definition lls_req (req : lls_request) : M Z :=
  fun w =>
    let c := lls_conf w in
    if (length (requests c) <? MAILBOX_MAX_ENTRIES)%nat
    then (0, World (tsc w) (ticks w) (trace w)
                   (LlsConfig (net c) (requests c ++ [req])))
    else (-1, w).

Definition get_lls_conf : M lls_config := fun w => (lls_conf w, w).

Definition hold_arp (cb arg : nat) (ip_be : Z) (lcore_id : Z) : M Z :=
  c ← get_lls_conf;
  if arp_enabled c then
    lls_req (LLS_REQ_HOLD Arp_cache ip_be (LlsHold cb arg lcore_id))
  else
    RTE_LOG "lls: lcore called hold_arp but ARP service is not enabled";;
    mret (-1).

Definition put_arp (ip_be : Z) (lcore_id : Z) : M Z :=
  c ← get_lls_conf;
  if arp_enabled c then
    lls_req (LLS_REQ_PUT Arp_cache ip_be lcore_id)
  else
    RTE_LOG "lls: lcore called put_arp but ARP service is not enabled";;
    mret (-1).

Definition hold_nd (cb arg : nat) (ip_be : Z) (lcore_id : Z) : M Z :=
  c ← get_lls_conf;
  if nd_enabled c then
    lls_req (LLS_REQ_HOLD Nd_cache ip_be (LlsHold cb arg lcore_id))
  else
    RTE_LOG "lls: lcore called hold_nd but ND service is not enabled";;
    mret (-1).

Definition put_nd (ip_be : Z) (lcore_id : Z) : M Z :=
  c ← get_lls_conf;
  if nd_enabled c then
    lls_req (LLS_REQ_PUT Nd_cache ip_be lcore_id)
  else
    RTE_LOG "lls: lcore called put_nd but ND service is not enabled";;
    mret (-1).

Definition submit_nd (p : rte_mbuf) (iface : iface_ref) : M Z :=
  c ← get_lls_conf;
  if nd_enabled c then
    lls_req (LLS_REQ_ND p iface)
  else
    RTE_LOG "lls: submit_nd invoked but ND service is not enabled";;
    mret (-1).

Definition pkt_is_nd (packet : ipacket) (iface : gatekeeper_if) : bool :=
  if (len packet <? ND_NEIGH_PKT_MIN_LEN)
     || negb (proto (flow packet) =? ETHER_TYPE_IPv6)
     || negb (next_hdr packet =? IPPROTO_ICMPV6)
  then false
  else
    ((icmpv6_type (pkt packet) =? ND_NEIGHBOR_SOLICITATION)
     || (icmpv6_type (pkt packet) =? ND_NEIGHBOR_ADVERTISEMENT))
    && ((f_dst (flow packet) =? ll_ip6_addr iface)
        || (f_dst (flow packet) =? ip6_addr iface)
        || (f_dst (flow packet) =? ip6_mc_addr iface)
        || (f_dst (flow packet) =? ll_ip6_mc_addr iface)).

(** *** The per-packet state machine ([gk/main.c]) *)

Definition priority_from_delta_time (present past : Z) : M Z :=
  if present <? past then
    RTE_LOG "gk: the present time smaller than the past time!";;
    mret 0
  else
    let delta_time := u64 (u64 (present - past) * picosec_per_cycle) in
    if delta_time <? 1 then mret 0
    else mret (integer_log_base_2 delta_time).

Definition initialize_flow_entry (fl : ip_flow) : M flow_entry :=
  now ← rte_rdtsc;
  mret (FlowEntry fl
          (Request (RequestT now START_PRIORITY (START_ALLOWANCE - 1) 0))).

Definition reinitialize_flow_entry (fe : flow_entry) (now : Z) : flow_entry :=
  set_request fe (RequestT now START_PRIORITY (START_ALLOWANCE - 1) 0).

Definition drop_packet (p : rte_mbuf) : M Z :=
  rte_pktmbuf_free p;; mret 0.

(** Modelled from the spec: [encapsulate] is not part of the sources at
    hand.  It prepends the outer header and writes the DSCP into it; the
    call is recorded in the trace and its status comes from
    [encapsulate_status]. *)
Definition encapsulate (p : rte_mbuf) (priority : Z) : M Z :=
  emit (Encapsulate p priority);; mret (encapsulate_status p priority).

(** Lines 217-224 of [gk_process_request]: the allowance rule.  The result
    is the updated request block and the priority the packet is sent
    with. *)
Definition allowance_rule (priority : Z) (r : request_t) : request_t * Z :=
  if (priority <? last_priority r) && (0 <? allowance r) then
    (RequestT (last_packet_seen_at r) (last_priority r)
              (u8 (allowance r - 1)) (grantor_id r),
     last_priority r)
  else
    (RequestT (last_packet_seen_at r) priority
              (START_ALLOWANCE - 1) (grantor_id r),
     priority).

(** Lines 231-233: the adjustment of the priority for the DSCP field, in
    [uint8_t] arithmetic. *)
Definition dscp_of_priority (priority : Z) : Z :=
  let priority := u8 (priority + 3) in
  if PRIORITY_MAX <? priority then PRIORITY_MAX else priority.

(** [gk_process_request] returns its status together with the entry as
    the call leaves it. *)
Definition gk_process_request (fe : flow_entry) (packet : ipacket)
    : M (Z * flow_entry) :=
  now ← rte_rdtsc;
  priority ← priority_from_delta_time now
               (last_packet_seen_at (u_request fe));
  let r := u_request fe in
  let r := RequestT now (last_priority r) (allowance r) (grantor_id r) in
  let '(r, priority) := allowance_rule priority r in
  let fe := set_request fe r in
  let priority := dscp_of_priority priority in
  ret ← encapsulate (pkt packet) priority;
  if ret <? 0 then mret (ret, fe) else mret (0, fe).

Definition cycle_from_second (time : Z) : Z := u64 (cycles_per_sec * time).

(** The budget is an [int]: its arithmetic is written with the
    two's-complement wrap-around [s32]; [data_len] is a [uint16_t],
    promoted to [int] in the comparison and in the subtraction. *)
Definition gk_process_granted (fe : flow_entry) (packet : ipacket)
    : M (Z * flow_entry) :=
  now ← rte_rdtsc;
  let p := pkt packet in
  if cap_expire_at (u_granted fe) <=? now then
    gk_process_request (reinitialize_flow_entry fe now) packet
  else
    let g := u_granted fe in
    let g :=
      if budget_renew_at g <=? now then
        GrantedT (cap_expire_at g) (u64 (now + cycle_from_second 1))
                 (tx_rate_kb_cycle g) (s32 (tx_rate_kb_cycle g * 1024))
                 (g_grantor_id g) (send_next_renewal_at g)
                 (renewal_step_cycle g)
      else g in
    if budget_byte g <? data_len p then
      ret ← drop_packet p;
      mret (ret, set_granted fe g)
    else
      let g :=
        GrantedT (cap_expire_at g) (budget_renew_at g) (tx_rate_kb_cycle g)
                 (s32 (budget_byte g - data_len p))
                 (g_grantor_id g) (send_next_renewal_at g)
                 (renewal_step_cycle g) in
      let renew_cap := send_next_renewal_at g <=? now in
      let '(g, priority) :=
        if renew_cap then
          (GrantedT (cap_expire_at g) (budget_renew_at g)
                    (tx_rate_kb_cycle g) (budget_byte g) (g_grantor_id g)
                    (u64 (now + renewal_step_cycle g))
                    (renewal_step_cycle g),
           PRIORITY_RENEW_CAP)
        else (g, PRIORITY_GRANTED) in
      ret ← encapsulate p priority;
      if ret <? 0 then mret (ret, set_granted fe g)
      else mret (0, set_granted fe g).

Definition gk_process_declined (fe : flow_entry) (packet : ipacket)
    : M (Z * flow_entry) :=
  now ← rte_rdtsc;
  if expire_at (u_declined fe) <=? now then
    gk_process_request (reinitialize_flow_entry fe now) packet
  else
    ret ← drop_packet (pkt packet);
    mret (ret, fe).

(** *** Policy intake *)

(** The flow entry a policy applies to: found, or created in REQUEST state.
    [None] when the hash table rejects the new key. *)
Definition policy_flow_entry (fl : ip_flow) (inst : gk_instance)
    : M (option (gk_instance * nat)) :=
  let rss_hash_val := rss_ip_flow_hf fl in
  let ret :=
    rte_hash_lookup_with_hash (ip_flow_hash_table inst) fl rss_hash_val in
  if ret <? 0 then
    let '(h, ret) :=
      rte_hash_add_key_with_hash (ip_flow_hash_table inst) fl rss_hash_val in
    if ret <? 0 then
      RTE_LOG "The GK block failed to add new key to hash table!";;
      mret None
    else
      fe ← initialize_flow_entry fl;
      mret (Some (set_tables inst h
                    (<[Z.to_nat ret := fe]> (ip_flow_entry_table inst)),
                  Z.to_nat ret))
  else mret (Some (inst, Z.to_nat ret)).

(** The switch of [add_ggu_policy] on the state of the policy. *)
Definition apply_decision (now : Z) (d : ggu_decision) (fe : flow_entry)
    : M flow_entry :=
  match d with
  | Decision_granted tx_rate_kb_sec cap_expire_sec
                     next_renewal_ms renewal_step_ms =>
      let tx_rate := s32 tx_rate_kb_sec in
      mret (set_granted fe
              (GrantedT (u64 (now + u64 (cap_expire_sec * cycles_per_sec)))
                        (u64 (now + cycle_from_second 1))
                        tx_rate
                        (s32 (tx_rate * 1024))
                        (g_grantor_id (u_granted fe))
                        (u64 (now + u64 (next_renewal_ms * cycles_per_ms)))
                        (u64 (renewal_step_ms * cycles_per_ms))))
  | Decision_declined expire_sec =>
      mret (set_declined fe
              (DeclinedT (u64 (now + u64 (expire_sec * cycles_per_sec)))))
  | Decision_other _ =>
      RTE_LOG "gk: unknown flow state!";;
      mret fe
  end.

(** An index returned by the hash table lies inside the entry array, which
    has as many elements as the table has entries; outside of it nothing
    is written here. *)
Definition add_ggu_policy (policy : ggu_policy) (inst : gk_instance)
    : M gk_instance :=
  now ← rte_rdtsc;
  found ← policy_flow_entry (policy_flow policy) inst;
  match found with
  | None => mret inst
  | Some (inst, idx) =>
      match ip_flow_entry_table inst !! idx with
      | None => mret inst
      | Some fe =>
          fe ← apply_decision now (decision policy) fe;
          mret (set_tables inst (ip_flow_hash_table inst)
                  (<[idx := fe]> (ip_flow_entry_table inst)))
      end
  end.

Definition process_gk_cmd (entry : gk_cmd_entry) (inst : gk_instance)
    : M gk_instance :=
  match entry with
  | GGU_POLICY_ADD ggu => add_ggu_policy ggu inst
  | Cmd_other _ =>
      RTE_LOG "gk: unknown command operation";;
      mret inst
  end.

(** *** The worker loop *)

(** Modelled from the spec: [extract_packet_info] is not part of the
    sources at hand.  It returns the flow key, the next header, the
    length and a reference to the buffer, or an error for a frame that is
    neither IPv4 nor IPv6. *)
Definition extract_packet_info (p : rte_mbuf) : option ipacket :=
  match parse_headers p with
  | Some (fl, l, nh) => Some (Ipacket fl l nh p)
  | None => None
  end.

(** Modelled from the spec: [mb_dequeue_burst] is not part of the sources
    at hand.  It returns up to [max] commands in FIFO order and removes
    them from the mailbox. *)
Definition mb_dequeue_burst (q : list gk_cmd_entry) (max : nat)
    : list gk_cmd_entry * list gk_cmd_entry :=
  (take max q, drop max q).

(** The body of the loop over the received burst, for one buffer.  The
    second component is the buffer when it is appended to [tx_bufs]. *)
Definition gk_process_rx (netc : net_config) (inst : gk_instance)
    (p : rte_mbuf) : M (gk_instance * option rte_mbuf) :=
  match extract_packet_info p with
  | None =>
      drop_packet p;; mret (inst, None)
  | Some packet =>
      if pkt_is_nd packet (front netc) then
        r ← submit_nd p Front;
        (if r =? -1 then drop_packet p;; mret tt else mret tt);;
        mret (inst, None)
      else
        found ←
          (let ret :=
             rte_hash_lookup_with_hash (ip_flow_hash_table inst)
               (flow packet) (hash_rss p) in
           if ret <? 0 then
             let '(h, ret) :=
               rte_hash_add_key_with_hash (ip_flow_hash_table inst)
                 (flow packet) (hash_rss p) in
             if ret <? 0 then
               RTE_LOG "The GK block failed to add new key to hash table!";;
               rte_pktmbuf_free p;;
               mret None
             else
               fe ← initialize_flow_entry (flow packet);
               mret (Some (set_tables inst h
                             (<[Z.to_nat ret := fe]>
                                (ip_flow_entry_table inst)),
                           Z.to_nat ret))
           else mret (Some (inst, Z.to_nat ret)));
        match found with
        | None => mret (inst, None)
        | Some (inst, idx) =>
            match ip_flow_entry_table inst !! idx with
            | None => mret (inst, None)
            | Some fe =>
                '(ret, fe) ←
                  match state fe with
                  | GK_REQUEST => gk_process_request fe packet
                  | GK_GRANTED => gk_process_granted fe packet
                  | GK_DECLINED => gk_process_declined fe packet
                  end;
                let inst :=
                  set_tables inst (ip_flow_hash_table inst)
                    (<[idx := fe]> (ip_flow_entry_table inst)) in
                if ret <? 0 then
                  rte_pktmbuf_free p;; mret (inst, None)
                else mret (inst, Some p)
            end
        end
  end.

Fixpoint gk_process_rx_burst (netc : net_config) (inst : gk_instance)
    (rx_bufs tx_bufs : list rte_mbuf) : M (gk_instance * list rte_mbuf) :=
  match rx_bufs with
  | [] => mret (inst, tx_bufs)
  | p :: rest =>
      '(inst, sent) ← gk_process_rx netc inst p;
      gk_process_rx_burst netc inst rest
        (match sent with Some p => tx_bufs ++ [p] | None => tx_bufs end)
  end.

Fixpoint free_all (bufs : list rte_mbuf) : M unit :=
  match bufs with
  | [] => mret tt
  | p :: rest => rte_pktmbuf_free p;; free_all rest
  end.

Fixpoint process_gk_cmds (cmds : list gk_cmd_entry) (inst : gk_instance)
    : M gk_instance :=
  match cmds with
  | [] => mret inst
  | c :: rest =>
      inst ← process_gk_cmd c inst;
      process_gk_cmds rest inst
  end.

(** The part of a turn of the loop that deals with the received burst:
    the loop over [rx_bufs], the transmit burst and the release of the
    buffers the transmit queue did not take.  [tx_room] is the number of
    buffers the queue accepts from [rte_eth_tx_burst]. *)
Definition gk_forward_burst (netc : net_config)
    (rx_bufs : list rte_mbuf) (tx_room : nat) (inst : gk_instance)
    : M gk_instance :=
  '(inst, tx_bufs) ← gk_process_rx_burst netc inst rx_bufs [];
  let num_tx_succ := Nat.min tx_room (length tx_bufs) in
  emit (Tx_burst (take num_tx_succ tx_bufs));;
  free_all (drop num_tx_succ tx_bufs);;
  mret inst.

(** One turn of the [while] loop of [gk_proc]; [rx_bufs] is what
    [rte_eth_rx_burst] delivers.  On an empty burst the loop [continue]s.
    [mb_free_entry] gives the slot of a command back to the pool of the
    mailbox, of which only the queue is kept here. *)
Definition gk_proc_iteration (netc : net_config)
    (rx_bufs : list rte_mbuf) (tx_room : nat) (inst : gk_instance)
    : M gk_instance :=
  if (length rx_bufs =? 0)%nat then mret inst
  else
    inst ← gk_forward_burst netc rx_bufs tx_room inst;
    let '(gk_cmds, rest) := mb_dequeue_burst (mb inst) GK_CMD_BURST_SIZE in
    process_gk_cmds gk_cmds (set_mb inst rest).

(** *** The mailbox of the block responsible for a flow *)

Fixpoint find_block (insts : list gk_instance) (queue_id : Z) (i : Z) : Z :=
  match insts with
  | [] => -1
  | inst :: rest =>
      if rx_queue_front inst =? queue_id then i
      else find_block rest queue_id (i + 1)
  end.

(** [None] stands for the panic of [RTE_VERIFY]. *)
Definition get_responsible_gk_mailbox (fl : ip_flow) (gk_conf : gk_config)
    : M (option mailbox_ptr) :=
  let rss_hash_val := u32 (rss_ip_flow_hf fl) in
  if negb (reta_size (rss_conf gk_conf) =? 128) then mret None
  else
    let rss_hash_val := Z.land rss_hash_val 127 in
    let idx := rss_hash_val / RTE_RETA_GROUP_SIZE in
    let shift := rss_hash_val mod RTE_RETA_GROUP_SIZE in
    let queue_id := reta_conf (rss_conf gk_conf) idx shift in
    let block_idx := find_block (instances gk_conf) queue_id 0 in
    (if block_idx =? -1
     then RTE_LOG "gk: wrong RSS configuration for GK blocks!"
     else mret tt);;
    mret (Some (Instance_mailbox block_idx)).

(** ** Definitions in the words of the specification *)

(** The priority of a request as the specification defines it. *)
Definition spec_priority (now last_seen_at : Z) : Z :=
  if now <? last_seen_at then 0
  else
    let delta := u64 ((now - last_seen_at) * picosec_per_cycle) in
    if delta <? 1 then 0 else Z.log2 delta.


(** The invariant of a request block (its fields stay in the ranges the
    data model gives them). *)
Definition request_inv (r : request_t) : Prop :=
  0 <= last_priority r <= 63 /\ 0 <= allowance r <= 7.

(** The slots handed out by the hash table lie inside the array of flow
    entries, which [setup_gk_instance] allocates with [flow_ht_size]
    elements, the number of entries of the table. *)
Definition instance_wf (inst : gk_instance) : Prop :=
  (h_entries (ip_flow_hash_table inst)
     <= length (ip_flow_entry_table inst))%nat
  /\ forall k i, h_keys (ip_flow_hash_table inst) !! k = Some i ->
       (i < length (ip_flow_entry_table inst))%nat.

(** ** Sample data

    A flow, a packet of 100 bytes, a clock that advances by 1000 cycles
    per reading and one that stands still, and an instance with four
    slots and an empty flow table. *)

Definition sample_flow : ip_flow := IpFlow 0x0800 1 2.
Definition sample_mbuf : rte_mbuf := Mbuf 0 100 0 0.
Definition sample_packet : ipacket := Ipacket sample_flow 100 6 sample_mbuf.
Definition sample_if : gatekeeper_if := GatekeeperIf 0 0 0 0.
Definition sample_net : net_config := NetConfig sample_if sample_if true.

Definition sample_world : world :=
  World (fun n => 1000 * Z.of_nat (S n)) 0 [] (LlsConfig sample_net []).

Definition still_world : world :=
  World (fun _ => 5) 0 [] (LlsConfig sample_net []).

Definition sample_request : request_t := RequestT 0 10 7 0.
Definition sample_granted : granted_t := GrantedT 60000 0 10 8240 0 0 500.
Definition sample_declined : declined_t := DeclinedT 2000.

Definition sample_instance : gk_instance :=
  GkInstance (RteHash 4 ∅)
    (replicate 4 (FlowEntry (IpFlow 0 0 0) (Request (RequestT 0 0 0 0))))
    [] 0 0.

Definition sample_policy : ggu_policy :=
  GguPolicy sample_flow (Decision_declined 2).

Definition sample_status (p : rte_mbuf) (dscp : Z) : Z := 0.
Definition no_headers (p : rte_mbuf) : option (ip_flow * Z * Z) := None.
Definition sample_hf (fl : ip_flow) : Z := 77.
Definition never_enabled (n : net_config) (i : gatekeeper_if) : Z := 0.

(** ** The switch on the state, successive packets and successive turns *)

(** The switch of [gk_proc] on the state of the entry (lines 576-595). *)
Definition gk_process_entry (fe : flow_entry) (packet : ipacket)
    : M (Z * flow_entry) :=
  match state fe with
  | GK_REQUEST => gk_process_request fe packet
  | GK_GRANTED => gk_process_granted fe packet
  | GK_DECLINED => gk_process_declined fe packet
  end.

(** The packets of one flow, handled one after the other on its entry. *)
Fixpoint gk_process_entry_seq (fe : flow_entry) (packets : list ipacket)
    : M flow_entry :=
  match packets with
  | [] => mret fe
  | packet :: rest =>
      '(_, fe) ← gk_process_entry fe packet;
      gk_process_entry_seq fe rest
  end.

(** The [while] loop of [gk_proc] over the turns it makes before
    [exiting] is set: each turn has its received burst and the room of
    the transmit queue. *)
Fixpoint gk_proc_iterations (netc : net_config)
    (turns : list (list rte_mbuf * nat)) (inst : gk_instance)
    : M gk_instance :=
  match turns with
  | [] => mret inst
  | (rx_bufs, tx_room) :: rest =>
      inst ← gk_proc_iteration netc rx_bufs tx_room inst;
      gk_proc_iterations netc rest inst
  end.

(** The request block of an entry in REQUEST state is in its ranges. *)
Definition entry_inv (fe : flow_entry) : Prop :=
  match u fe with
  | Request r => request_inv r
  | _ => True
  end.

(** The calls to [encapsulate] recorded in a trace. *)
Fixpoint encapsulated (tr : list event) : list (rte_mbuf * Z) :=
  match tr with
  | [] => []
  | Encapsulate p dscp :: rest => (p, dscp) :: encapsulated rest
  | _ :: rest => encapsulated rest
  end.

(** The buffers released by [rte_pktmbuf_free] in a trace. *)
Fixpoint freed (tr : list event) : list rte_mbuf :=
  match tr with
  | [] => []
  | Pktmbuf_free p :: rest => p :: freed rest
  | _ :: rest => freed rest
  end.

(** The buffers the transmit queue took in a trace. *)
Fixpoint transmitted (tr : list event) : list rte_mbuf :=
  match tr with
  | [] => []
  | Tx_burst sent :: rest => sent ++ transmitted rest
  | _ :: rest => transmitted rest
  end.

(** No two flows of the hash table share a slot. *)
Definition slots_inj (h : rte_hash) : Prop :=
  forall k1 k2 i,
    h_keys h !! k1 = Some i -> h_keys h !! k2 = Some i -> k1 = k2.

(** The [n]-th reading of the clock from a world on. *)
Definition reading (w : world) (n : nat) : Z :=
  u64 (tsc w (ticks w + n)%nat).

(** The time stamp a request is compared with: the one stored in the
    block for the first packet, the reading of the previous packet for
    the others. *)
Definition seen_before (r : request_t) (w : world) (j : nat) : Z :=
  match j with
  | O => last_packet_seen_at r
  | S j' => reading w j'
  end.

(** The flow table of an instance is well formed: slots inside the array,
    no slot shared. *)
Definition table_inv (inst : gk_instance) : Prop :=
  instance_wf inst /\ slots_inj (ip_flow_hash_table inst).

(** From [a] to [b] the flow table has kept its size and every flow its
    slot. *)
Definition flow_table_extends (a b : gk_instance) : Prop :=
  h_entries (ip_flow_hash_table b) = h_entries (ip_flow_hash_table a)
  /\ length (ip_flow_entry_table b) = length (ip_flow_entry_table a)
  /\ forall k i,
       h_keys (ip_flow_hash_table a) !! k = Some i ->
       h_keys (ip_flow_hash_table b) !! k = Some i.

(** ** Start-up and shutdown of the GK blocks *)

(** [get_block_idx]: the index of the first element of [lcores] equal to
    [lcore_id]; [None] stands for [rte_panic].  [num_lcores] is the length
    of [lcores]. *)
Fixpoint get_block_idx_from (lcores : list Z) (lcore_id : Z) (i : Z)
    : option Z :=
  match lcores with
  | [] => None
  | c :: rest =>
      if c =? lcore_id then Some i
      else get_block_idx_from rest lcore_id (i + 1)
  end.

Definition get_block_idx (lcores : list Z) (lcore_id : Z) : option Z :=
  get_block_idx_from lcores lcore_id 0.

(** The storage of an instance while it is set up and torn down: the
    pointers to the hash table and to the array of entries may be null,
    and the mailbox may not be initialised. *)
Record gk_instance_mem := GkInstanceMem {
  hash_table_ptr : option rte_hash;
  entry_table_ptr : option (list flow_entry);
  mailbox_ring : option (list gk_cmd_entry)
}.

(** What is allocated and released, in the order of the calls; [block]
    is the index of the instance concerned. *)
Inductive mem_object :=
| Entry_table (block : nat)
| Instances_array
| Lcores_array
| Gk_conf_struct.

Inductive setup_call :=
| Rte_hash_create (block : nat) (entries : nat) (ok : bool)
| Rte_hash_free (block : nat)
| Rte_calloc (obj : mem_object) (n : nat) (ok : bool)
| Rte_free (obj : mem_object)
| Init_mailbox (block : nat) (ret : Z)
| Destroy_mailbox (block : nat).

(** An element of the array [rte_calloc] returns: zeroed storage, read as
    an entry under the first tag of the union. *)
Definition zero_flow_entry : flow_entry :=
  FlowEntry (IpFlow 0 0 0) (Request (RequestT 0 0 0 0)).

(** [setup_gk_instance] on the storage of the instance of [lcore_id].
    [hash_ok] and [calloc_ok] tell whether [rte_hash_create] and
    [rte_calloc] return a non-null pointer, [mailbox_ret] is what
    [init_mailbox] returns.  The name of the hash table always fits its
    buffer, so that the [RTE_VERIFY] on it holds. *)
Definition setup_gk_instance_at (block : nat) (flow_ht_size : nat)
    (hash_ok calloc_ok : bool) (mailbox_ret : Z) (m : gk_instance_mem)
    : Z * gk_instance_mem * list setup_call :=
  if negb hash_ok then
    (-1, GkInstanceMem None (entry_table_ptr m) (mailbox_ring m),
     [Rte_hash_create block flow_ht_size false])
  else
    let h := RteHash flow_ht_size ∅ in
    if negb calloc_ok then
      (-1, GkInstanceMem None None (mailbox_ring m),
       [Rte_hash_create block flow_ht_size true;
        Rte_calloc (Entry_table block) flow_ht_size false;
        Rte_hash_free block])
    else
      let t := replicate flow_ht_size zero_flow_entry in
      if mailbox_ret <? 0 then
        (mailbox_ret, GkInstanceMem None None (mailbox_ring m),
         [Rte_hash_create block flow_ht_size true;
          Rte_calloc (Entry_table block) flow_ht_size true;
          Init_mailbox block mailbox_ret;
          Rte_free (Entry_table block);
          Rte_hash_free block])
      else
        (0, GkInstanceMem (Some h) (Some t) (Some []),
         [Rte_hash_create block flow_ht_size true;
          Rte_calloc (Entry_table block) flow_ht_size true;
          Init_mailbox block mailbox_ret]).

Definition setup_gk_instance (lcores : list Z) (lcore_id : Z)
    (flow_ht_size : nat) (hash_ok calloc_ok : bool) (mailbox_ret : Z)
    (insts : list gk_instance_mem)
    : option (Z * list gk_instance_mem * list setup_call) :=
  match get_block_idx lcores lcore_id with
  | None => None
  | Some block_idx =>
      let block := Z.to_nat block_idx in
      match insts !! block with
      | None => None
      | Some m =>
          let '(ret, m', calls) :=
            setup_gk_instance_at block flow_ht_size hash_ok calloc_ok
              mailbox_ret m in
          Some (ret, <[block := m']> insts, calls)
      end
  end.

(** [cleanup_gk]: for every instance the hash table and the array of
    entries are released when their pointers are not null and
    [destroy_mailbox] is called; then the arrays and the configuration
    are released. *)
Fixpoint cleanup_instances (block : nat) (insts : list gk_instance_mem)
    : list setup_call :=
  match insts with
  | [] => []
  | m :: rest =>
      (match hash_table_ptr m with
       | Some _ => [Rte_hash_free block] | None => [] end)
      ++ (match entry_table_ptr m with
          | Some _ => [Rte_free (Entry_table block)] | None => [] end)
      ++ [Destroy_mailbox block]
      ++ cleanup_instances (S block) rest
  end.

Definition cleanup_gk (insts : list gk_instance_mem) : list setup_call :=
  cleanup_instances 0 insts
  ++ [Rte_free Instances_array; Rte_free Lcores_array;
      Rte_free Gk_conf_struct].

(** [rte_atomic32_dec_and_test]: the counter after the decrement, and
    whether it is 0. *)
Definition rte_atomic32_dec_and_test (v : Z) : bool * Z :=
  let v' := s32 (v - 1) in (v' =? 0, v').

(** [gk_conf_put] on the reference counter of the configuration: the
    status, the counter afterwards and the calls of the clean-up, if it
    runs. *)
Definition gk_conf_put (ref_cnt : Z) (insts : list gk_instance_mem)
    : Z * Z * list setup_call :=
  let '(zero, ref_cnt') := rte_atomic32_dec_and_test ref_cnt in
  if zero then (0, ref_cnt', cleanup_gk insts)
  else (0, ref_cnt', []).

(** The workers that put the configuration one after the other: the
    counter afterwards and the calls of the clean-ups that ran. *)
Fixpoint gk_conf_puts (n : nat) (ref_cnt : Z) (insts : list gk_instance_mem)
    : Z * list setup_call :=
  match n with
  | O => (ref_cnt, [])
  | S n' =>
      let '(_, ref_cnt', calls) := gk_conf_put ref_cnt insts in
      let '(ref_cnt'', calls') := gk_conf_puts n' ref_cnt' insts in
      (ref_cnt'', calls ++ calls')
  end.

(** The launch of the blocks: the calls to the staging functions with
    what they return, and the pops that undo them. *)
Inductive launch_call :=
| Launch_at_stage (stage : nat) (ret : Z)
| Pop_n_at_stage (stage : nat) (n : Z)
| Rte_atomic32_init
| Gk_conf_set_net
| Launch_log (msg : string).

(** The loop of [run_gk] over the lcores: [i] is the index reached.  The
    result is the status of the failing launch, if any, with the calls
    made. *)
Fixpoint launch_gk_procs (stage3_ret : Z -> Z) (lcores : list Z) (i : Z)
    : option Z * list launch_call :=
  match lcores with
  | [] => (None, [])
  | lcore :: rest =>
      let ret := stage3_ret lcore in
      if ret <? 0 then
        (Some ret, [Launch_at_stage 3 ret; Pop_n_at_stage 3 i])
      else
        let '(failed, calls) := launch_gk_procs stage3_ret rest (i + 1) in
        (failed, Launch_at_stage 3 ret :: calls)
  end.

(** [run_gk]: [None] for a null pointer, [gk_lcores] for the configuration
    with its array of lcores; [stage1_ret], [stage2_ret] and [stage3_ret]
    are what [net_launch_at_stage1], [launch_at_stage2] and
    [launch_at_stage3] (for an lcore) return. *)
Definition run_gk (net_conf : option net_config) (gk_lcores : option (list Z))
    (stage1_ret stage2_ret : Z) (stage3_ret : Z -> Z)
    : Z * list launch_call :=
  match net_conf, gk_lcores with
  | Some netc, Some lcores =>
      if negb (back_iface_enabled netc) then
        (-1, [Launch_log "gk: back interface is required"])
      else if (Z.of_nat (length lcores) <=? 0) then
        (0, [Gk_conf_set_net; Rte_atomic32_init])
      else if stage1_ret <? 0 then
        (stage1_ret, [Gk_conf_set_net; Launch_at_stage 1 stage1_ret])
      else if stage2_ret <? 0 then
        (stage2_ret,
         [Gk_conf_set_net;
          Launch_at_stage 1 stage1_ret; Launch_at_stage 2 stage2_ret;
          Pop_n_at_stage 1 1])
      else
        match launch_gk_procs stage3_ret lcores 0 with
        | (Some ret, calls) =>
            (ret,
             [Gk_conf_set_net;
              Launch_at_stage 1 stage1_ret; Launch_at_stage 2 stage2_ret]
             ++ calls ++ [Pop_n_at_stage 2 1; Pop_n_at_stage 1 1])
        | (None, calls) =>
            (0,
             [Gk_conf_set_net;
              Launch_at_stage 1 stage1_ret; Launch_at_stage 2 stage2_ret]
             ++ calls ++ [Rte_atomic32_init])
        end
  | _, _ => (-1, [])
  end.

(** What is left registered at a stage after a sequence of calls: one for
    each launch that succeeded, less what was popped. *)
Fixpoint registered (stage : nat) (calls : list launch_call) : Z :=
  match calls with
  | [] => 0
  | Launch_at_stage s ret :: rest =>
      (if (s =? stage)%nat && negb (ret <? 0) then 1 else 0)
      + registered stage rest
  | Pop_n_at_stage s n :: rest =>
      (if (s =? stage)%nat then - n else 0) + registered stage rest
  | _ :: rest => registered stage rest
  end.

(** The hash tables and arrays of entries a sequence of calls leaves
    allocated: one for each creation that succeeded, less one for each
    release. *)
Fixpoint allocated (calls : list setup_call) : Z :=
  match calls with
  | [] => 0
  | Rte_hash_create _ _ ok :: rest =>
      (if ok then 1 else 0) + allocated rest
  | Rte_calloc _ _ ok :: rest => (if ok then 1 else 0) + allocated rest
  | Rte_hash_free _ :: rest => -1 + allocated rest
  | Rte_free _ :: rest => -1 + allocated rest
  | _ :: rest => allocated rest
  end.

(** ** The LLS block: received frames, start-up and shutdown *)

(** The Ethernet header of a buffer (destination address and EtherType in
    host order) and the Ethernet addresses and cache timeouts of an
    interface, fields that the records above do not keep. *)
Variables eth_d_addr eth_ether_type : rte_mbuf -> Z.
Variables if_eth_addr if_eth_mc_addr if_ll_eth_mc_addr : gatekeeper_if -> Z.
Variables arp_cache_timeout_sec nd_cache_timeout_sec : gatekeeper_if -> Z.

(** [process_arp] and [process_nd] are not part of the sources at hand:
    they run in the world, where they send the replies and update the
    caches, and return a status; -1 leaves the buffer to the caller. *)
Variable process_arp : iface_ref -> Z -> rte_mbuf -> M Z.
Variable process_nd : iface_ref -> rte_mbuf -> M Z.

Definition ETHER_TYPE_ARP : Z := 0x0806.
Definition BROADCAST_ETHER_ADDR : Z := 0xFFFFFFFFFFFF.

(** What [process_pkts] did with a buffer: the call it made for it, with
    the status returned, if any. *)
Inductive lls_outcome :=
| Not_processed
| Arp_processed (ret : Z)
| Nd_processed (ret : Z).

(** The body of the loop of [process_pkts] for one buffer. *)
Definition process_pkt (c : lls_config) (ifr : iface_ref) (tx_queue : Z)
    (buf : rte_mbuf) : M lls_outcome :=
  let iface := iface_of (net c) ifr in
  if negb (eth_d_addr buf =? BROADCAST_ETHER_ADDR)
     && negb (eth_d_addr buf =? if_eth_mc_addr iface)
     && negb (eth_d_addr buf =? if_ll_eth_mc_addr iface)
     && negb (eth_d_addr buf =? if_eth_addr iface)
  then rte_pktmbuf_free buf;; mret Not_processed
  else
    let unexpected : M lls_outcome :=
      RTE_LOG "lls: interface should not be seeing a packet with this EtherType";;
      rte_pktmbuf_free buf;; mret Not_processed in
    if eth_ether_type buf =? ETHER_TYPE_ARP then
      ret ← process_arp ifr tx_queue buf;
      if ret =? -1 then rte_pktmbuf_free buf;; mret (Arp_processed ret)
      else mret (Arp_processed ret)
    else if eth_ether_type buf =? ETHER_TYPE_IPv6 then
      match ifr with
      | Back =>
          match extract_packet_info buf with
          | None => rte_pktmbuf_free buf;; mret Not_processed
          | Some packet =>
              if pkt_is_nd packet iface then
                ret ← process_nd ifr buf;
                if ret =? -1 then
                  rte_pktmbuf_free buf;; mret (Nd_processed ret)
                else mret (Nd_processed ret)
              else unexpected
          end
      | Front => unexpected
      end
    else unexpected.

(** The loop of [process_pkts] over a received burst; the result gives
    the outcome of every buffer, in the order of the burst. *)
Fixpoint process_pkts (c : lls_config) (ifr : iface_ref) (tx_queue : Z)
    (bufs : list rte_mbuf) : M (list lls_outcome) :=
  match bufs with
  | [] => mret []
  | buf :: rest =>
      o ← process_pkt c ifr tx_queue buf;
      os ← process_pkts c ifr tx_queue rest;
      mret (o :: os)
  end.

(** The buffer was handed to ARP or ND processing, which did not give it
    back. *)
Definition lls_keeps (o : lls_outcome) : bool :=
  match o with
  | Not_processed => false
  | Arp_processed ret | Nd_processed ret => negb (ret =? -1)
  end.

(** The destination address of the frame is the broadcast address or one
    of the addresses of the interface. *)
Definition for_this_interface (iface : gatekeeper_if) (buf : rte_mbuf)
    : bool :=
  (eth_d_addr buf =? BROADCAST_ETHER_ADDR)
  || (eth_d_addr buf =? if_eth_mc_addr iface)
  || (eth_d_addr buf =? if_ll_eth_mc_addr iface)
  || (eth_d_addr buf =? if_eth_addr iface).

(** A computation that only adds to the trace, and frees no buffer. *)
Definition frees_nothing {A : Type} (m : M A) : Prop :=
  forall w, exists ext, trace (m w).2 = trace w ++ ext /\ freed ext = [].

Inductive queue_type := QUEUE_TYPE_RX | QUEUE_TYPE_TX.

(** The queue identifiers of [struct lls_config] ([uint16_t]). *)
Record lls_queues := LlsQueues {
  lls_rx_queue_front : Z;
  lls_tx_queue_front : Z;
  lls_rx_queue_back : Z;
  lls_tx_queue_back : Z
}.

(** [assign_lls_queue_ids]; [get_queue_id] gives the queue of an
    interface, direction and lcore, or a negative status. *)
Definition assign_lls_queue_ids
    (get_queue_id : iface_ref -> queue_type -> Z -> Z)
    (back_enabled : bool) (lcore_id : Z) (q : lls_queues)
    : Z * lls_queues * list string :=
  let fail (ret : Z) (q : lls_queues) :=
    (ret, q, ["lls: cannot assign queues"]) in
  let ret := get_queue_id Front QUEUE_TYPE_RX lcore_id in
  if ret <? 0 then fail ret q else
  let q := LlsQueues (u16 ret) (lls_tx_queue_front q)
                     (lls_rx_queue_back q) (lls_tx_queue_back q) in
  let ret := get_queue_id Front QUEUE_TYPE_TX lcore_id in
  if ret <? 0 then fail ret q else
  let q := LlsQueues (lls_rx_queue_front q) (u16 ret)
                     (lls_rx_queue_back q) (lls_tx_queue_back q) in
  if back_enabled then
    let ret := get_queue_id Back QUEUE_TYPE_RX lcore_id in
    if ret <? 0 then fail ret q else
    let q := LlsQueues (lls_rx_queue_front q) (lls_tx_queue_front q)
                       (u16 ret) (lls_tx_queue_back q) in
    let ret := get_queue_id Back QUEUE_TYPE_TX lcore_id in
    if ret <? 0 then fail ret q else
    (0, LlsQueues (lls_rx_queue_front q) (lls_tx_queue_front q)
                  (lls_rx_queue_back q) (u16 ret), [])
  else (0, q, []).

(** The calls of the start-up and of the shutdown of the LLS block. *)
Inductive lls_setup_call :=
| Lls_stage (c : launch_call)
| Timer_init
| Timer_reset (ret : Z)
| Timer_stop
| Mailbox_init (ret : Z)
| Mailbox_destroy
| Lls_set_net
| Cache_init (cache : lls_cache_ref) (ret : Z)
| Cache_destroy (cache : lls_cache_ref)
| Set_timeout (cache : lls_cache_ref) (iface : iface_ref) (sec : Z).

(** The timeouts [run_lls] copies into a cache: for the interfaces on
    which the service is enabled. *)
Definition cache_timeouts (cache : lls_cache_ref) (netc : net_config)
    : list lls_setup_call :=
  let enabled :=
    match cache with
    | Arp_cache => iface_arp_enabled
    | Nd_cache => iface_nd_enabled
    end in
  let timeout :=
    match cache with
    | Arp_cache => arp_cache_timeout_sec
    | Nd_cache => nd_cache_timeout_sec
    end in
  (if negb (enabled netc (front netc) =? 0)
   then [Set_timeout cache Front (timeout (front netc))] else [])
  ++ (if negb (enabled netc (back netc) =? 0)
      then [Set_timeout cache Back (timeout (back netc))] else []).

(** [run_lls]: [None] stands for a null pointer; the other arguments are
    what the launches, [rte_timer_reset], [init_mailbox] and
    [lls_cache_init] return. *)
Definition run_lls (net_conf : option net_config) (conf_ok : bool)
    (stage1_ret stage2_ret stage3_ret timer_ret mailbox_ret : Z)
    (cache_ret : lls_cache_ref -> Z) : Z * list lls_setup_call :=
  match net_conf with
  | Some netc =>
      if negb conf_ok then (-1, []) else
      let c := LlsConfig netc [] in
      let s1 := [Lls_stage (Launch_at_stage 1 stage1_ret)] in
      if stage1_ret <? 0 then (stage1_ret, s1) else
      let pop1 := [Lls_stage (Pop_n_at_stage 1 1)] in
      let s2 := s1 ++ [Lls_stage (Launch_at_stage 2 stage2_ret)] in
      if stage2_ret <? 0 then (stage2_ret, s2 ++ pop1) else
      let pop2 := Lls_stage (Pop_n_at_stage 2 1) :: pop1 in
      let s3 := s2 ++ [Lls_stage (Launch_at_stage 3 stage3_ret)] in
      if stage3_ret <? 0 then (stage3_ret, s3 ++ pop2) else
      let pop3 := Lls_stage (Pop_n_at_stage 3 1) :: pop2 in
      let s4 := s3 ++ [Timer_init; Timer_reset timer_ret] in
      if timer_ret <? 0 then
        (timer_ret,
         s4 ++ Lls_stage (Launch_log "Cannot set LLS scan timer") :: pop3)
      else
      let stop := Timer_stop :: pop3 in
      let s5 := s4 ++ [Mailbox_init mailbox_ret] in
      if mailbox_ret <? 0 then (mailbox_ret, s5 ++ stop) else
      let requests := Mailbox_destroy :: stop in
      let s6 := s5 ++ [Lls_set_net] in
      let arp_part :=
        if arp_enabled c then
          if cache_ret Arp_cache <? 0 then
            inl (cache_ret Arp_cache,
                 [Cache_init Arp_cache (cache_ret Arp_cache);
                  Lls_stage (Launch_log "lls: ARP cache cannot be started")])
          else
            inr (Cache_init Arp_cache (cache_ret Arp_cache)
                 :: cache_timeouts Arp_cache netc)
        else inr [] in
      match arp_part with
      | inl (ret, calls) => (ret, s6 ++ calls ++ requests)
      | inr arp_calls =>
          let s7 := s6 ++ arp_calls in
          if nd_enabled c then
            if cache_ret Nd_cache <? 0 then
              (cache_ret Nd_cache,
               s7 ++ [Cache_init Nd_cache (cache_ret Nd_cache);
                      Lls_stage
                        (Launch_log "lls: ND cache cannot be started")]
                  ++ (if arp_enabled c then [Cache_destroy Arp_cache]
                      else [])
                  ++ requests)
            else
              (0, s7 ++ Cache_init Nd_cache (cache_ret Nd_cache)
                        :: cache_timeouts Nd_cache netc)
          else (0, s7)
      end
  | None => (-1, [])
  end.

(** [cleanup_lls], for a configuration whose network is [netc]. *)
Definition cleanup_lls (netc : net_config) : Z * list lls_setup_call :=
  let c := LlsConfig netc [] in
  (0,
   (if nd_enabled c then [Cache_destroy Nd_cache] else [])
   ++ (if arp_enabled c then [Cache_destroy Arp_cache] else [])
   ++ [Mailbox_destroy; Timer_stop]).

(** What a sequence of calls leaves held: the functions registered at a
    stage, the running timer, the mailbox, a cache. *)
Inductive lls_resource :=
| Held_stage (stage : nat)
| Held_timer
| Held_mailbox
| Held_cache (cache : lls_cache_ref).

Definition same_cache (a b : lls_cache_ref) : bool :=
  match a, b with
  | Arp_cache, Arp_cache | Nd_cache, Nd_cache => true
  | _, _ => false
  end.

Definition lls_holds (r : lls_resource) (call : lls_setup_call) : Z :=
  match r, call with
  | Held_stage s, Lls_stage c => registered s [c]
  | Held_timer, Timer_reset ret => if ret <? 0 then 0 else 1
  | Held_timer, Timer_stop => -1
  | Held_mailbox, Mailbox_init ret => if ret <? 0 then 0 else 1
  | Held_mailbox, Mailbox_destroy => -1
  | Held_cache a, Cache_init b ret =>
      if same_cache a b && negb (ret <? 0) then 1 else 0
  | Held_cache a, Cache_destroy b => if same_cache a b then -1 else 0
  | _, _ => 0
  end.

Fixpoint lls_held (r : lls_resource) (calls : list lls_setup_call) : Z :=
  match calls with
  | [] => 0
  | call :: rest => lls_holds r call + lls_held r rest
  end.

(** ** Stage 1 of the GK blocks *)

(** What [gk_stage1] leaves: its status, the storage of the instances,
    their queues ([rx_queue_front] and [tx_queue_back] of instance [i] are
    element [i] of [s1_queues]), the reference counter, the calls made
    and the messages it logs itself. *)
Record gk_stage1_result := Stage1Result {
  s1_ret : Z;
  s1_insts : list gk_instance_mem;
  s1_queues : list (Z * Z);
  s1_ref_cnt : Z;
  s1_calls : list setup_call;
  s1_logs : list string
}.

(** The loop of [gk_stage1] from index [i] on; [todo] are the lcores from
    [i] on.  [hash_ok], [calloc_ok] and [mailbox_ret] give what
    [rte_hash_create], [rte_calloc] and [init_mailbox] return in the
    iteration of an index.  [None] stands for [rte_panic]. *)
Fixpoint gk_stage1_loop
    (get_queue_id : iface_ref -> queue_type -> Z -> Z)
    (lcores : list Z) (flow_ht_size : nat)
    (hash_ok calloc_ok : nat -> bool) (mailbox_ret : nat -> Z)
    (i : nat) (todo : list Z) (ref_cnt : Z)
    (insts : list gk_instance_mem) (queues : list (Z * Z))
    : option gk_stage1_result :=
  match todo with
  | [] => Some (Stage1Result 0 insts queues ref_cnt [] [])
  | lcore :: rest =>
      let ret := get_queue_id Front QUEUE_TYPE_RX lcore in
      if ret <? 0 then
        Some (Stage1Result (-1) insts queues ref_cnt []
                ["gk: cannot assign an RX queue for the front interface"])
      else
      let queues := alter (fun q => (u16 ret, q.2)) i queues in
      let ret := get_queue_id Back QUEUE_TYPE_TX lcore in
      if ret <? 0 then
        Some (Stage1Result (-1) insts queues ref_cnt []
                ["gk: cannot assign a TX queue for the back interface"])
      else
      let queues := alter (fun q => (q.1, u16 ret)) i queues in
      match setup_gk_instance lcores lcore flow_ht_size
              (hash_ok i) (calloc_ok i) (mailbox_ret i) insts with
      | None => None
      | Some (ret, insts, calls) =>
          if ret <? 0 then
            let '(_, ref_cnt, calls') := gk_conf_put ref_cnt insts in
            Some (Stage1Result (-1) insts queues ref_cnt (calls ++ calls')
                    ["gk: failed to setup gk instances for GK block"])
          else
            match gk_stage1_loop get_queue_id lcores flow_ht_size
                    hash_ok calloc_ok mailbox_ret (S i) rest ref_cnt
                    insts queues with
            | None => None
            | Some r =>
                Some (Stage1Result (s1_ret r) (s1_insts r) (s1_queues r)
                        (s1_ref_cnt r) (calls ++ s1_calls r) (s1_logs r))
            end
      end
  end.

(** [gk_stage1]: [instances_ok] tells whether the [rte_calloc] of the
    array of instances returns a non-null pointer; the array is zeroed. *)
Definition gk_stage1
    (get_queue_id : iface_ref -> queue_type -> Z -> Z)
    (lcores : list Z) (flow_ht_size : nat) (instances_ok : bool)
    (hash_ok calloc_ok : nat -> bool) (mailbox_ret : nat -> Z)
    (ref_cnt : Z) : option gk_stage1_result :=
  let n := length lcores in
  if negb instances_ok then
    Some (Stage1Result (-1) [] [] ref_cnt
            [Rte_calloc Instances_array n false] [])
  else
    match gk_stage1_loop get_queue_id lcores flow_ht_size
            hash_ok calloc_ok mailbox_ret 0 lcores ref_cnt
            (replicate n (GkInstanceMem None None None))
            (replicate n (0, 0)) with
    | None => None
    | Some r =>
        Some (Stage1Result (s1_ret r) (s1_insts r) (s1_queues r)
                (s1_ref_cnt r)
                (Rte_calloc Instances_array n true :: s1_calls r)
                (s1_logs r))
    end.

(** Iteration [i] of [gk_stage1] meets no failure. *)
Definition stage1_step_ok
    (get_queue_id : iface_ref -> queue_type -> Z -> Z)
    (lcores : list Z) (hash_ok calloc_ok : nat -> bool)
    (mailbox_ret : nat -> Z) (i : nat) : Prop :=
  exists lcore,
    lcores !! i = Some lcore
    /\ 0 <= get_queue_id Front QUEUE_TYPE_RX lcore
    /\ 0 <= get_queue_id Back QUEUE_TYPE_TX lcore
    /\ hash_ok i = true /\ calloc_ok i = true /\ 0 <= mailbox_ret i.

(** ** Further sample data

    Headers that parse to the sample flow, a second flow, the queues
    and the lcores of a block. *)
Definition sample_headers (p : rte_mbuf) : option (ip_flow * Z * Z) :=
  Some (sample_flow, 100, 6).
Definition other_flow : ip_flow := IpFlow 0x0800 3 4.
Definition sample_queue_id (i : iface_ref) (t : queue_type) (lcore : Z)
    : Z :=
  lcore + 1.
Definition sample_lcores : list Z := [4; 5].

(** An ARP processing that sends the buffer back as a reply, an ND
    processing that hands every buffer back, and frames that are all
    broadcast, the first an ARP frame. *)
Definition sample_process_arp (i : iface_ref) (q : Z) (b : rte_mbuf)
    : M Z :=
  fun w =>
    (0, World (tsc w) (ticks w) (trace w ++ [Tx_burst [b]]) (lls_conf w)).
Definition sample_process_nd (i : iface_ref) (b : rte_mbuf) : M Z :=
  fun w => (-1, w).
Definition sample_d_addr (b : rte_mbuf) : Z := 0xFFFFFFFFFFFF.
Definition sample_ether_type (b : rte_mbuf) : Z :=
  if (mbuf_id b =? 0)%nat then 0x0806 else 0x0800.

(** Unfolding of the monad and of its primitive operations. *)
Ltac run :=
  unfold mbind, M_bind, mret, M_ret, RTE_LOG, rte_pktmbuf_free, emit,
    rte_rdtsc, get_lls_conf in *.

(** ** Integer lemmas *)

Lemma u64_range (x : Z) : 0 <= u64 x < 2 ^ 64.
Proof. unfold u64. apply Z.mod_pos_bound. lia. Qed.

Lemma u64_small (x : Z) : 0 <= x < 2 ^ 64 -> u64 x = x.
Proof. intros H. unfold u64. apply Z.mod_small. exact H. Qed.

Lemma u64_mul_idemp_l (a b : Z) : u64 (u64 a * b) = u64 (a * b).
Proof. unfold u64. apply Zmult_mod_idemp_l. Qed.

Lemma u8_small (x : Z) : 0 <= x < 2 ^ 8 -> u8 x = x.
Proof. intros H. unfold u8. apply Z.mod_small. exact H. Qed.

Lemma s32_small (x : Z) : - 2 ^ 31 <= x < 2 ^ 31 -> s32 x = x.
Proof. intros H. unfold s32. rewrite Z.mod_small; lia. Qed.

(** A set bit at position [k] of a number below [2 ^ (k + 1)] is its
    leading bit. *)
Lemma testbit_top (x : Z) (k : nat) :
  0 <= x < 2 ^ Z.of_nat (S k) ->
  Z.testbit x (Z.of_nat k) = negb (x <? 2 ^ Z.of_nat k).
Proof.
  intros [H0 H1].
  replace (Z.of_nat (S k)) with (Z.of_nat k + 1) in H1 by lia.
  rewrite Z.pow_add_r in H1 by lia.
  assert (Hp : 0 < 2 ^ Z.of_nat k) by (apply Z.pow_pos_nonneg; lia).
  rewrite Z.testbit_eqb by lia.
  destruct (Z.ltb_spec x (2 ^ Z.of_nat k)) as [Hlt | Hge]; simpl.
  - rewrite Z.div_small by lia. reflexivity.
  - assert (Hq : x / 2 ^ Z.of_nat k = 1).
    { symmetry. apply (Z.div_unique_pos x (2 ^ Z.of_nat k) 1 (x - 2 ^ Z.of_nat k)); lia. }
    rewrite Hq. reflexivity.
Qed.

Lemma clz_from_log2 (n : nat) (x : Z) :
  0 < x < 2 ^ Z.of_nat n ->
  clz_from n x = Z.of_nat n - 1 - Z.log2 x.
Proof.
  induction n as [| k IH]; intros [H0 H1].
  - simpl in H1. lia.
  - cbn [clz_from]. rewrite testbit_top by lia.
    destruct (Z.ltb_spec x (2 ^ Z.of_nat k)) as [Hlt | Hge]; simpl.
    + rewrite IH by lia. lia.
    + assert (Z.log2 x = Z.of_nat k); [| lia].
      apply Z.log2_unique; [lia |].
      replace (Z.succ (Z.of_nat k)) with (Z.of_nat (S k)) by lia. lia.
Qed.

(** On a non-zero 64-bit word the count of leading zeros yields the
    integer logarithm. *)
Lemma integer_log_base_2_log2 (x : Z) :
  0 < x < 2 ^ 64 -> integer_log_base_2 x = Z.log2 x.
Proof.
  intros H. unfold integer_log_base_2, builtin_clzl.
  rewrite (clz_from_log2 64 x) by (exact H).
  assert (Hl : 0 <= Z.log2 x < 64).
  { split; [apply Z.log2_nonneg |]. apply Z.log2_lt_pow2; lia. }
  replace (8 * 8 - 1 - (Z.of_nat 64 - 1 - Z.log2 x)) with (Z.log2 x) by lia.
  rewrite u64_small by lia. apply u8_small. lia.
Qed.

Lemma integer_log_base_2_bound (x : Z) :
  0 < x < 2 ^ 64 -> 0 <= integer_log_base_2 x <= 63.
Proof.
  intros H. rewrite integer_log_base_2_log2 by exact H.
  split; [apply Z.log2_nonneg |].
  assert (Z.log2 x < 64) by (apply Z.log2_lt_pow2; lia). lia.
Qed.

(** ** The REQUEST path *)

Lemma priority_from_delta_time_run (present past : Z) (w : world) :
  priority_from_delta_time present past w =
    (spec_priority present past,
     if present <? past
     then World (tsc w) (ticks w)
            (trace w ++ [Log "gk: the present time smaller than the past time!"])
            (lls_conf w)
     else w).
Proof.
  unfold priority_from_delta_time, spec_priority.
  destruct (present <? past); [reflexivity |].
  rewrite u64_mul_idemp_l.
  pose proof (u64_range ((present - past) * picosec_per_cycle)) as Hr.
  destruct (Z.ltb_spec (u64 ((present - past) * picosec_per_cycle)) 1).
  - reflexivity.
  - run. rewrite integer_log_base_2_log2 by lia. reflexivity.
Qed.

Lemma spec_priority_bound (now last_seen_at : Z) :
  0 <= spec_priority now last_seen_at <= 63.
Proof.
  unfold spec_priority.
  destruct (now <? last_seen_at); [lia |].
  pose proof (u64_range ((now - last_seen_at) * picosec_per_cycle)) as Hr.
  destruct (Z.ltb_spec (u64 ((now - last_seen_at) * picosec_per_cycle)) 1);
    [lia |].
  rewrite <- integer_log_base_2_log2 by lia.
  apply integer_log_base_2_bound. lia.
Qed.

(** Without overflow of the 64-bit product, [delta] is the product
    itself. *)
Lemma spec_priority_exact (now last_seen_at : Z) :
  last_seen_at <= now ->
  0 <= (now - last_seen_at) * picosec_per_cycle < 2 ^ 64 ->
  spec_priority now last_seen_at =
    let delta := (now - last_seen_at) * picosec_per_cycle in
    if delta <? 1 then 0 else Z.log2 delta.
Proof.
  intros Hle Hr. unfold spec_priority.
  destruct (Z.ltb_spec now last_seen_at); [lia |].
  rewrite u64_small by exact Hr. reflexivity.
Qed.

(** What one call of [gk_process_request] does, with the priority in the
    specification's form. *)
Lemma gk_process_request_run (fe : flow_entry) (packet : ipacket) (w : world) :
  let now := u64 (tsc w (ticks w)) in
  let r := u_request fe in
  let priority := spec_priority now (last_packet_seen_at r) in
  let rp := allowance_rule priority
              (RequestT now (last_priority r) (allowance r) (grantor_id r)) in
  let dscp := dscp_of_priority rp.2 in
  let logs :=
    if now <? last_packet_seen_at r
    then [Log "gk: the present time smaller than the past time!"] else [] in
  gk_process_request fe packet w =
    ((if encapsulate_status (pkt packet) dscp <? 0
      then encapsulate_status (pkt packet) dscp else 0,
      set_request fe rp.1),
     World (tsc w) (S (ticks w))
       (trace w ++ logs ++ [Encapsulate (pkt packet) dscp]) (lls_conf w)).
Proof.
  intros now r priority rp dscp logs.
  unfold gk_process_request, encapsulate. run.
  rewrite priority_from_delta_time_run. cbn [ticks tsc trace lls_conf].
  fold now r priority. fold rp.
  destruct rp as [r' p'] eqn:Erp. cbn [fst snd] in *. fold dscp.
  subst logs.
  destruct (now <? last_packet_seen_at r); cbn [ticks tsc trace lls_conf];
    rewrite <- ?app_assoc; cbn [app];
    destruct (encapsulate_status (pkt packet) dscp <? 0); reflexivity.
Qed.

Lemma allowance_rule_seen_at (priority : Z) (r : request_t) :
  last_packet_seen_at (allowance_rule priority r).1 = last_packet_seen_at r.
Proof.
  unfold allowance_rule.
  destruct ((priority <? last_priority r) && (0 <? allowance r)); reflexivity.
Qed.

Lemma dscp_of_priority_min (priority : Z) :
  0 <= priority <= 252 ->
  dscp_of_priority priority = Z.min (priority + 3) 63.
Proof.
  intros H. unfold dscp_of_priority, PRIORITY_MAX.
  rewrite u8_small by lia.
  destruct (Z.ltb_spec 63 (priority + 3)); lia.
Qed.

(** C1.  On a flow entry in REQUEST state the priority computed for a
    packet is 0 when the clock reading is below [last_packet_seen_at] (the
    anomaly is logged and the packet is still encapsulated), 0 when
    [delta = (now - last_packet_seen_at) * picosec_per_cycle], a 64-bit
    product, is less than 1, and the integer base-2 logarithm of [delta]
    otherwise; the entry leaves with [last_packet_seen_at] set to the
    reading. *)
Theorem C1_request_priority
    (fe : flow_entry) (r : request_t) (packet : ipacket) (w : world) :
  u fe = Request r ->
  let now := u64 (tsc w (ticks w)) in
  let last_seen_at := last_packet_seen_at r in
  let w1 := World (tsc w) (S (ticks w)) (trace w) (lls_conf w) in
  let computed := priority_from_delta_time now last_seen_at w1 in
  computed.1 = spec_priority now last_seen_at
  /\ (now < last_seen_at ->
      computed.1 = 0
      /\ trace computed.2 =
           trace w ++ [Log "gk: the present time smaller than the past time!"])
  /\ (last_seen_at <= now ->
      0 <= (now - last_seen_at) * picosec_per_cycle < 2 ^ 64 ->
      computed.1 =
        let delta := (now - last_seen_at) * picosec_per_cycle in
        if delta <? 1 then 0 else Z.log2 delta)
  /\ exists ret fe' w' dscp,
       gk_process_request fe packet w = (ret, fe', w')
       /\ u fe' = Request
                    (allowance_rule computed.1
                       (RequestT now (last_priority r) (allowance r)
                          (grantor_id r))).1
       /\ last_packet_seen_at (u_request fe') = now
       /\ last (trace w') = Some (Encapsulate (pkt packet) dscp).
Proof.
  intros Hu now last_seen_at w1 computed.
  assert (Hc : computed.1 = spec_priority now last_seen_at).
  { subst computed. rewrite priority_from_delta_time_run. reflexivity. }
  split; [exact Hc |]. split; [| split].
  - intros Hlt. subst computed. rewrite priority_from_delta_time_run.
    cbn [fst snd]. unfold spec_priority.
    destruct (Z.ltb_spec now last_seen_at); [| lia].
    split; reflexivity.
  - intros Hle Hr. rewrite Hc. apply spec_priority_exact; assumption.
  - pose proof (gk_process_request_run fe packet w) as Hrun.
    cbn zeta in Hrun. unfold u_request in Hrun. rewrite Hu in Hrun.
    fold now last_seen_at in Hrun.
    eexists _, _, _, _. split; [exact Hrun |]. rewrite Hc.
    split; [reflexivity |]. split.
    + unfold u_request, set_request. cbn [u].
      rewrite allowance_rule_seen_at. reflexivity.
    + cbn [trace]. rewrite app_assoc. apply last_snoc.
Qed.

(** C2.  On a REQUEST-state packet, once the priority is computed: when it
    is strictly below [last_priority] and [allowance] is positive, the
    allowance goes down by one, [last_priority] stays and the packet is
    sent with [last_priority]; in every other case, equality included,
    [last_priority] becomes the computed priority and [allowance] is reset
    to 7. *)
Theorem C2_allowance_rule
    (fe : flow_entry) (r : request_t) (packet : ipacket) (w : world) :
  u fe = Request r ->
  is_u8 (allowance r) ->
  let now := u64 (tsc w (ticks w)) in
  let w1 := World (tsc w) (S (ticks w)) (trace w) (lls_conf w) in
  let priority :=
    (priority_from_delta_time now (last_packet_seen_at r) w1).1 in
  exists ret r' w',
    gk_process_request fe packet w = (ret, FlowEntry (fe_flow fe) (Request r'), w')
    /\ (priority < last_priority r /\ allowance r > 0 ->
        allowance r' = allowance r - 1
        /\ last_priority r' = last_priority r
        /\ last (trace w') =
             Some (Encapsulate (pkt packet)
                     (dscp_of_priority (last_priority r))))
    /\ (~ (priority < last_priority r /\ allowance r > 0) ->
        last_priority r' = priority
        /\ allowance r' = 7
        /\ last (trace w') =
             Some (Encapsulate (pkt packet) (dscp_of_priority priority))).
Proof.
  intros Hu Hal now w1 priority.
  pose proof (gk_process_request_run fe packet w) as Hrun.
  cbn zeta in Hrun. unfold u_request in Hrun. rewrite Hu in Hrun.
  fold now in Hrun.
  assert (Hp : priority = spec_priority now (last_packet_seen_at r)).
  { subst priority. rewrite priority_from_delta_time_run. reflexivity. }
  rewrite <- Hp in Hrun.
  eexists _, _, _. split; [exact Hrun |].
  cbn [trace]. rewrite app_assoc, last_snoc.
  unfold allowance_rule. cbn [last_priority allowance].
  unfold is_u8 in Hal.
  destruct (Z.ltb_spec priority (last_priority r));
    destruct (Z.ltb_spec 0 (allowance r)); cbn [andb fst snd];
    cbn [last_priority allowance]; split; intros Hc;
    try (exfalso; lia); repeat split; try reflexivity.
  apply u8_small. lia.
Qed.

(** C3.  On a REQUEST-state packet the DSCP handed to [encapsulate] is
    [min (priority + 3) 63], where [priority] is the one left by the
    allowance rule; it lies in 3..63, so it is never 0, 1 or 2.  The
    request block is one whose [last_priority] is in its range 0..63. *)
Theorem C3_request_dscp
    (fe : flow_entry) (r : request_t) (packet : ipacket) (w : world) :
  u fe = Request r ->
  0 <= last_priority r <= 63 ->
  let now := u64 (tsc w (ticks w)) in
  let computed := spec_priority now (last_packet_seen_at r) in
  let priority :=
    if (computed <? last_priority r) && (0 <? allowance r)
    then last_priority r else computed in
  exists ret fe' w' logs,
    gk_process_request fe packet w = (ret, fe', w')
    /\ trace w' =
         trace w ++ logs ++ [Encapsulate (pkt packet) (Z.min (priority + 3) 63)]
    /\ (forall e, e ∈ logs -> exists msg, e = Log msg)
    /\ 3 <= Z.min (priority + 3) 63 <= 63
    /\ (forall p dscp, Encapsulate p dscp ∈ drop (length (trace w)) (trace w') ->
        3 <= dscp <= 63 /\ dscp <> 0 /\ dscp <> 1 /\ dscp <> 2).
Proof.
  intros Hu Hlp now computed priority.
  pose proof (gk_process_request_run fe packet w) as Hrun.
  cbn zeta in Hrun. unfold u_request in Hrun. rewrite Hu in Hrun.
  fold now computed in Hrun.
  pose proof (spec_priority_bound now (last_packet_seen_at r)) as Hb.
  fold computed in Hb.
  assert (Hsnd : (allowance_rule computed
                    (RequestT now (last_priority r) (allowance r)
                       (grantor_id r))).2 = priority).
  { unfold allowance_rule, priority. cbn [last_priority allowance].
    destruct ((computed <? last_priority r) && (0 <? allowance r));
      reflexivity. }
  rewrite Hsnd in Hrun.
  assert (Hpr : 0 <= priority <= 63).
  { unfold priority.
    destruct ((computed <? last_priority r) && (0 <? allowance r)); lia. }
  rewrite dscp_of_priority_min in Hrun by lia.
  assert (Hlogs : forall e,
             e ∈ (if now <? last_packet_seen_at r
                  then [Log "gk: the present time smaller than the past time!"]
                  else []) -> exists msg, e = Log msg).
  { intros e He. destruct (now <? last_packet_seen_at r).
    - apply list_elem_of_singleton in He. eauto.
    - apply elem_of_nil in He. contradiction. }
  eexists _, _, _, _. split; [exact Hrun |].
  cbn [trace]. split; [reflexivity |]. split; [exact Hlogs |].
  split; [lia |].
  intros p dscp Hin. rewrite drop_app_length in Hin.
  apply elem_of_app in Hin as [Hin | Hin].
  - apply Hlogs in Hin as [msg Hmsg]. discriminate.
  - apply list_elem_of_singleton in Hin. injection Hin as _ ->. lia.
Qed.

(** The invariant of the request block holds at creation and after each
    request. *)
Lemma initialize_flow_entry_inv (fl : ip_flow) (w : world) :
  request_inv (u_request (initialize_flow_entry fl w).1).
Proof.
  unfold initialize_flow_entry, request_inv. run. cbn.
  unfold START_PRIORITY, START_ALLOWANCE. lia.
Qed.

Lemma reinitialize_flow_entry_inv (fe : flow_entry) (now : Z) :
  request_inv (u_request (reinitialize_flow_entry fe now)).
Proof.
  unfold reinitialize_flow_entry, request_inv. cbn.
  unfold START_PRIORITY, START_ALLOWANCE. lia.
Qed.

Lemma gk_process_request_inv (fe : flow_entry) (packet : ipacket) (w : world) :
  request_inv (u_request fe) ->
  request_inv (u_request (gk_process_request fe packet w).1.2).
Proof.
  intros [Hlp Hal]. rewrite gk_process_request_run. cbn [fst snd].
  unfold u_request at 1, set_request. cbn [u].
  pose proof (spec_priority_bound (u64 (tsc w (ticks w)))
                (last_packet_seen_at (u_request fe))) as Hb.
  unfold allowance_rule, request_inv. cbn [last_priority allowance].
  destruct (Z.ltb_spec (spec_priority (u64 (tsc w (ticks w)))
                          (last_packet_seen_at (u_request fe)))
                       (last_priority (u_request fe)));
    destruct (Z.ltb_spec 0 (allowance (u_request fe)));
    cbn [andb fst last_priority allowance]; unfold START_ALLOWANCE;
    rewrite ?u8_small by lia; lia.
Qed.

(** ** The GRANTED and DECLINED paths *)

(** C5.  A packet on a GRANTED entry whose capability has expired
    ([now >= cap_expire_at]) and a packet on a DECLINED entry whose
    punishment has expired ([now >= expire_at]) find the entry
    re-initialized to REQUEST (same flow, [last_packet_seen_at = now],
    [last_priority = 38], [allowance = 7]) and are then processed by
    [gk_process_request]; a packet on a DECLINED entry with
    [now < expire_at] is dropped. *)
Theorem C5_expiry_reinitializes
    (fe : flow_entry) (packet : ipacket) (w : world) :
  let now := u64 (tsc w (ticks w)) in
  let w1 := World (tsc w) (S (ticks w)) (trace w) (lls_conf w) in
  let fe0 := reinitialize_flow_entry fe now in
  (fe0 = FlowEntry (fe_flow fe) (Request (RequestT now 38 7 0))
   /\ state fe0 = GK_REQUEST)
  /\ (forall g, u fe = Granted g -> now >= cap_expire_at g ->
      gk_process_granted fe packet w = gk_process_request fe0 packet w1)
  /\ (forall d, u fe = Declined d -> now >= expire_at d ->
      gk_process_declined fe packet w = gk_process_request fe0 packet w1)
  /\ (forall d, u fe = Declined d -> now < expire_at d ->
      gk_process_declined fe packet w =
        ((0, fe),
         World (tsc w) (S (ticks w))
           (trace w ++ [Pktmbuf_free (pkt packet)]) (lls_conf w))).
Proof.
  intros now w1 fe0. split; [split; reflexivity |]. split; [| split].
  - intros g Hu Hge. unfold gk_process_granted. run.
    unfold u_granted. rewrite Hu. fold now.
    destruct (Z.leb_spec (cap_expire_at g) now); [reflexivity | lia].
  - intros d Hu Hge. unfold gk_process_declined. run.
    unfold u_declined. rewrite Hu. fold now.
    destruct (Z.leb_spec (expire_at d) now); [reflexivity | lia].
  - intros d Hu Hlt. unfold gk_process_declined, drop_packet. run.
    unfold u_declined. rewrite Hu. fold now.
    destruct (Z.leb_spec (expire_at d) now); [lia | reflexivity].
Qed.

(** What [gk_process_granted] does while the capability is valid:
    [budget] is the budget in force for the packet, after the renewal
    that is due. *)
Lemma gk_process_granted_run
    (fe : flow_entry) (g : granted_t) (packet : ipacket) (w : world) :
  u fe = Granted g ->
  let now := u64 (tsc w (ticks w)) in
  now < cap_expire_at g ->
  let renew := budget_renew_at g <=? now in
  let budget :=
    if renew then s32 (tx_rate_kb_cycle g * 1024) else budget_byte g in
  let renew_at :=
    if renew then u64 (now + cycle_from_second 1) else budget_renew_at g in
  let renew_cap := send_next_renewal_at g <=? now in
  let dscp := if renew_cap then PRIORITY_RENEW_CAP else PRIORITY_GRANTED in
  let status := encapsulate_status (pkt packet) dscp in
  gk_process_granted fe packet w =
    if budget <? data_len (pkt packet) then
      ((0, set_granted fe
             (GrantedT (cap_expire_at g) renew_at (tx_rate_kb_cycle g) budget
                (g_grantor_id g) (send_next_renewal_at g)
                (renewal_step_cycle g))),
       World (tsc w) (S (ticks w))
         (trace w ++ [Pktmbuf_free (pkt packet)]) (lls_conf w))
    else
      ((if status <? 0 then status else 0,
        set_granted fe
          (GrantedT (cap_expire_at g) renew_at (tx_rate_kb_cycle g)
             (s32 (budget - data_len (pkt packet))) (g_grantor_id g)
             (if renew_cap then u64 (now + renewal_step_cycle g)
              else send_next_renewal_at g)
             (renewal_step_cycle g))),
       World (tsc w) (S (ticks w))
         (trace w ++ [Encapsulate (pkt packet) dscp]) (lls_conf w)).
Proof.
  intros Hu now Hlt renew budget renew_at renew_cap dscp status.
  unfold gk_process_granted, drop_packet, encapsulate. run.
  unfold u_granted. rewrite Hu. fold now.
  destruct (Z.leb_spec (cap_expire_at g) now) as [Hle | _]; [lia |].
  subst budget renew_at status dscp renew_cap renew.
  destruct (budget_renew_at g <=? now);
    cbn [budget_byte cap_expire_at budget_renew_at tx_rate_kb_cycle
         g_grantor_id send_next_renewal_at renewal_step_cycle].
  - destruct (s32 (tx_rate_kb_cycle g * 1024) <? data_len (pkt packet));
      [reflexivity |].
    destruct (send_next_renewal_at g <=? now); cbn;
      match goal with |- context [?s <? 0] => destruct (s <? 0) end;
      reflexivity.
  - destruct (budget_byte g <? data_len (pkt packet)); [destruct g; reflexivity |].
    destruct (send_next_renewal_at g <=? now); cbn;
      match goal with |- context [?s <? 0] => destruct (s <? 0) end;
      reflexivity.
Qed.

(** ** Policy intake *)

Lemma free_slot_lt (h : rte_hash) (i : nat) :
  free_slot h = Some i -> (i < h_entries h)%nat.
Proof.
  unfold free_slot. intros H. apply find_some in H as [Hin _].
  apply in_seq in Hin. lia.
Qed.

(** The entry a policy applies to: either the table rejects the new key,
    or the flow is in the table at the slot returned and the slot holds an
    entry. *)
Lemma policy_flow_entry_run (fl : ip_flow) (inst : gk_instance) (w : world) :
  instance_wf inst ->
  match (policy_flow_entry fl inst w).1 with
  | None => h_keys (ip_flow_hash_table inst) !! fl = None
  | Some (inst1, idx) =>
      instance_wf inst1
      /\ mb inst1 = mb inst
      /\ h_keys (ip_flow_hash_table inst1) !! fl = Some idx
      /\ (forall i, h_keys (ip_flow_hash_table inst) !! fl = Some i -> i = idx)
      /\ is_Some (ip_flow_entry_table inst1 !! idx)
  end.
Proof.
  intros [Hcap Hidx].
  unfold policy_flow_entry, rte_hash_lookup_with_hash,
    rte_hash_add_key_with_hash, initialize_flow_entry.
  destruct (h_keys (ip_flow_hash_table inst) !! fl) as [i0 |] eqn:Hk.
  - destruct (Z.ltb_spec (Z.of_nat i0) 0) as [Hneg | _]; [lia |].
    run. cbn [fst]. rewrite Nat2Z.id.
    pose proof (Hidx _ _ Hk) as Hlt.
    split; [split; assumption |]. split; [reflexivity |].
    split; [exact Hk |]. split; [congruence |].
    apply lookup_lt_is_Some_2. exact Hlt.
  - replace (- ENOENT <? 0) with true by reflexivity.
    destruct (free_slot (ip_flow_hash_table inst)) as [i1 |] eqn:Hfree.
    + destruct (Z.ltb_spec (Z.of_nat i1) 0) as [Hneg | _]; [lia |].
      run. cbn [fst]. rewrite Nat2Z.id.
      pose proof (free_slot_lt _ _ Hfree) as Hlt.
      unfold instance_wf, set_tables.
      cbn [ip_flow_hash_table ip_flow_entry_table mb h_entries h_keys].
      rewrite length_insert.
      split; [split; [exact Hcap |] |].
      * intros k i Hi. destruct (decide (fl = k)) as [<- | Hne].
        -- rewrite lookup_insert_eq in Hi. injection Hi as <-. lia.
        -- rewrite lookup_insert_ne in Hi by exact Hne. eauto.
      * split; [reflexivity |]. split; [apply lookup_insert_eq |].
        split; [discriminate |].
        apply lookup_lt_is_Some_2. rewrite length_insert. lia.
    + replace (- ENOSPC <? 0) with true by reflexivity.
      run. reflexivity.
Qed.

(** After a policy is applied the flow is in the hash table exactly when
    an entry was found or created, and its slot then holds the entry the
    switch on the decision produced. *)
Lemma add_ggu_policy_run (policy : ggu_policy) (inst : gk_instance) (w : world) :
  instance_wf inst ->
  let now := u64 (tsc w (ticks w)) in
  let res := add_ggu_policy policy inst w in
  instance_wf res.1
  /\ mb res.1 = mb inst
  /\ (forall i,
        h_keys (ip_flow_hash_table inst) !! policy_flow policy = Some i ->
        h_keys (ip_flow_hash_table res.1) !! policy_flow policy = Some i)
  /\ (forall i,
        h_keys (ip_flow_hash_table res.1) !! policy_flow policy = Some i ->
        exists fe0 w0,
          ip_flow_entry_table res.1 !! i =
            Some (apply_decision now (decision policy) fe0 w0).1).
Proof.
  intros Hwf now res. subst res. unfold add_ggu_policy. run. fold now.
  pose proof (policy_flow_entry_run (policy_flow policy) inst
                (World (tsc w) (S (ticks w)) (trace w) (lls_conf w)) Hwf)
    as Hfound.
  destruct (policy_flow_entry (policy_flow policy) inst
              (World (tsc w) (S (ticks w)) (trace w) (lls_conf w)))
    as [[[inst1 idx] |] w1]; cbn [fst snd] in *.
  - destruct Hfound as ([Hcap1 Hidx1] & Hmb & Hk1 & Hold & [fe Hfe]).
    rewrite Hfe.
    destruct (apply_decision now (decision policy) fe w1)
      as [fe' w'] eqn:Had.
    cbn [fst snd]. unfold instance_wf, set_tables.
    cbn [ip_flow_hash_table ip_flow_entry_table mb].
    rewrite length_insert.
    split; [split; assumption |]. split; [exact Hmb |]. split.
    + intros i Hi. rewrite (Hold _ Hi). exact Hk1.
    + intros i Hi. rewrite Hk1 in Hi. injection Hi as <-.
      exists fe, w1. rewrite Had. cbn [fst].
      apply list_lookup_insert_eq. apply lookup_lt_is_Some. eauto.
  - split; [exact Hwf |]. split; [reflexivity |]. split.
    + intros i Hi. exact Hi.
    + intros i Hi. rewrite Hfound in Hi. discriminate.
Qed.


(** C8.  Applying the same DECLINED policy twice to a flow leaves
    [expire_at] at the second clock reading plus
    [expire_sec * cycles_per_sec] (in 64-bit arithmetic): the first
    application leaves no trace in it. *)
Theorem C8_decline_twice
    (fl : ip_flow) (expire_sec : Z) (inst : gk_instance) (w : world) :
  instance_wf inst ->
  let policy := GguPolicy fl (Decision_declined expire_sec) in
  let first := add_ggu_policy policy inst w in
  let second := add_ggu_policy policy first.1 first.2 in
  let now2 := u64 (tsc first.2 (ticks first.2)) in
  (forall i,
     h_keys (ip_flow_hash_table first.1) !! fl = Some i ->
     h_keys (ip_flow_hash_table second.1) !! fl = Some i)
  /\ (forall i,
        h_keys (ip_flow_hash_table second.1) !! fl = Some i ->
        exists fl' d,
          ip_flow_entry_table second.1 !! i = Some (FlowEntry fl' (Declined d))
          /\ expire_at d = u64 (now2 + u64 (expire_sec * cycles_per_sec))
          /\ (0 <= expire_sec * cycles_per_sec ->
              now2 + expire_sec * cycles_per_sec < 2 ^ 64 ->
              expire_at d = now2 + expire_sec * cycles_per_sec)).
Proof.
  intros Hwf policy first second now2.
  destruct (add_ggu_policy_run policy inst w Hwf) as (Hwf1 & _ & _ & _).
  fold first in Hwf1.
  destruct (add_ggu_policy_run policy first.1 first.2 Hwf1)
    as (_ & _ & Hmono & Hent).
  fold second now2 in Hmono, Hent.
  split; [exact Hmono |].
  intros i Hi. destruct (Hent i Hi) as (fe0 & w0 & Hfe).
  subst policy. cbn [decision apply_decision] in Hfe. run.
  cbn [fst] in Hfe. unfold set_declined in Hfe.
  eexists _, _. split; [exact Hfe |]. cbn [expire_at].
  split; [reflexivity |].
  intros H0 H1. pose proof (u64_range (tsc first.2 (ticks first.2))) as Hn.
  fold now2 in Hn.
  rewrite (u64_small (expire_sec * cycles_per_sec)) by lia.
  apply u64_small. lia.
Qed.

(** ** The worker loop and its mailbox *)

Lemma add_ggu_policy_mb (policy : ggu_policy) (inst : gk_instance) (w : world) :
  mb (add_ggu_policy policy inst w).1 = mb inst.
Proof.
  unfold add_ggu_policy, policy_flow_entry, initialize_flow_entry. run.
  destruct (rte_hash_lookup_with_hash _ _ _ <? 0).
  - destruct (rte_hash_add_key_with_hash _ _ _) as [h ret].
    destruct (ret <? 0); [reflexivity |].
    cbn [set_tables ip_flow_entry_table].
    destruct (_ !! _); [| reflexivity].
    destruct (apply_decision _ _ _ _). reflexivity.
  - destruct (_ !! _); [| reflexivity].
    destruct (apply_decision _ _ _ _). reflexivity.
Qed.

Lemma process_gk_cmd_mb (c : gk_cmd_entry) (inst : gk_instance) (w : world) :
  mb (process_gk_cmd c inst w).1 = mb inst.
Proof.
  destruct c as [ggu | op]; [apply add_ggu_policy_mb | reflexivity].
Qed.

Lemma process_gk_cmds_mb (cmds : list gk_cmd_entry) :
  forall inst w, mb (process_gk_cmds cmds inst w).1 = mb inst.
Proof.
  induction cmds as [| c rest IH]; intros inst w; [reflexivity |].
  cbn [process_gk_cmds]. run.
  pose proof (process_gk_cmd_mb c inst w) as Hc.
  destruct (process_gk_cmd c inst w) as [inst1 w1]. cbn [fst] in Hc.
  rewrite IH. exact Hc.
Qed.

Lemma process_gk_cmds_app (a b : list gk_cmd_entry) :
  forall inst w,
    process_gk_cmds (a ++ b) inst w =
      let '(inst1, w1) := process_gk_cmds a inst w in
      process_gk_cmds b inst1 w1.
Proof.
  induction a as [| c rest IH]; intros inst w; [reflexivity |].
  cbn [app process_gk_cmds]. run.
  destruct (process_gk_cmd c inst w) as [inst1 w1]. apply IH.
Qed.

Lemma gk_process_rx_mb (netc : net_config) (inst : gk_instance)
    (p : rte_mbuf) (w : world) :
  mb (gk_process_rx netc inst p w).1.1 = mb inst.
Proof.
  unfold gk_process_rx, drop_packet, initialize_flow_entry. run.
  destruct (extract_packet_info p) as [packet |]; [| reflexivity].
  destruct (pkt_is_nd packet (front netc)).
  { destruct (submit_nd p Front w) as [r w1].
    destruct (r =? -1); reflexivity. }
  destruct (rte_hash_lookup_with_hash _ _ _ <? 0).
  - destruct (rte_hash_add_key_with_hash _ _ _) as [h ret].
    destruct (ret <? 0); [reflexivity |].
    cbn [set_tables ip_flow_entry_table].
    destruct (_ !! _) as [fe |]; [| reflexivity].
    destruct (state fe);
      match goal with
      | |- context [let '(_, _) := ?x in _] => destruct x as [[ret' fe'] w']
      end; destruct (ret' <? 0); reflexivity.
  - destruct (_ !! _) as [fe |]; [| reflexivity].
    destruct (state fe);
      match goal with
      | |- context [let '(_, _) := ?x in _] => destruct x as [[ret' fe'] w']
      end; destruct (ret' <? 0); reflexivity.
Qed.

Lemma gk_process_rx_burst_mb (netc : net_config) (rx_bufs : list rte_mbuf) :
  forall inst tx_bufs w,
    mb (gk_process_rx_burst netc inst rx_bufs tx_bufs w).1.1 = mb inst.
Proof.
  induction rx_bufs as [| p rest IH]; intros inst tx_bufs w; [reflexivity |].
  cbn [gk_process_rx_burst]. run.
  pose proof (gk_process_rx_mb netc inst p w) as Hp.
  destruct (gk_process_rx netc inst p w) as [[inst1 sent] w1].
  cbn [fst] in Hp. rewrite IH. exact Hp.
Qed.

(** A turn of the loop that receives no packet goes back to the top of
    the loop: nothing is read from the mailbox. *)
Lemma gk_proc_iteration_idle (netc : net_config) (tx_room : nat)
    (inst : gk_instance) (w : world) :
  gk_proc_iteration netc [] tx_room inst w = (inst, w).
Proof. reflexivity. Qed.

Lemma gk_forward_burst_mb (netc : net_config) (rx_bufs : list rte_mbuf)
    (tx_room : nat) (inst : gk_instance) (w : world) :
  mb (gk_forward_burst netc rx_bufs tx_room inst w).1 = mb inst.
Proof.
  unfold gk_forward_burst. run.
  pose proof (gk_process_rx_burst_mb netc rx_bufs inst [] w) as Hkeep.
  destruct (gk_process_rx_burst netc inst rx_bufs [] w)
    as [[instA tx_bufs] wA].
  cbn [fst] in Hkeep.
  match goal with
  | |- context [free_all ?l ?x] => destruct (free_all l x) as [[] wB]
  end.
  exact Hkeep.
Qed.

(** A turn of the loop that receives packets takes the first
    [GK_CMD_BURST_SIZE] commands out of the mailbox and leaves the rest. *)
Lemma gk_proc_iteration_mb (netc : net_config) (rx_bufs : list rte_mbuf)
    (tx_room : nat) (inst : gk_instance) (w : world) :
  rx_bufs <> [] ->
  mb (gk_proc_iteration netc rx_bufs tx_room inst w).1 =
    drop GK_CMD_BURST_SIZE (mb inst).
Proof.
  intros Hrx. unfold gk_proc_iteration, mb_dequeue_burst.
  destruct rx_bufs as [| p rest]; [contradiction |].
  cbn [length Nat.eqb]. run.
  pose proof (gk_forward_burst_mb netc (p :: rest) tx_room inst w) as Hkeep.
  destruct (gk_forward_burst netc (p :: rest) tx_room inst w) as [instA wA].
  cbn [fst] in Hkeep.
  rewrite process_gk_cmds_mb. cbn [set_mb mb]. rewrite Hkeep. reflexivity.
Qed.

(** C7 (amended).  In a turn of the loop that receives at least one
    packet, a command with fewer than [GK_CMD_BURST_SIZE] = 32 commands
    ahead of it in the mailbox is taken out of the mailbox and applied by
    [process_gk_cmd]: once the burst of packets is dealt with, the
    commands ahead of it are applied, then the command itself, then the
    commands behind it that the same burst of commands takes. *)
Theorem C7_command_drained
    (netc : net_config) (rx_bufs : list rte_mbuf) (tx_room : nat)
    (inst : gk_instance) (w : world)
    (ahead : list gk_cmd_entry) (cmd : gk_cmd_entry)
    (behind : list gk_cmd_entry) :
  rx_bufs <> [] ->
  mb inst = ahead ++ cmd :: behind ->
  (length ahead < GK_CMD_BURST_SIZE)%nat ->
  let taken_behind :=
    take (GK_CMD_BURST_SIZE - S (length ahead)) behind in
  let left_behind :=
    drop (GK_CMD_BURST_SIZE - S (length ahead)) behind in
  gk_proc_iteration netc rx_bufs tx_room inst w =
    (let '(inst0, w0) := gk_forward_burst netc rx_bufs tx_room inst w in
     let '(inst1, w1) :=
       process_gk_cmds ahead (set_mb inst0 left_behind) w0 in
     let '(inst2, w2) := process_gk_cmd cmd inst1 w1 in
     process_gk_cmds taken_behind inst2 w2)
  /\ mb (gk_proc_iteration netc rx_bufs tx_room inst w).1 = left_behind.
Proof.
  intros Hrx Hmb Hlen taken_behind left_behind.
  assert (Htake : take GK_CMD_BURST_SIZE (ahead ++ cmd :: behind)
                  = ahead ++ cmd :: taken_behind).
  { rewrite take_app_ge by lia.
    replace (GK_CMD_BURST_SIZE - length ahead)%nat
      with (S (GK_CMD_BURST_SIZE - S (length ahead))) by lia.
    reflexivity. }
  assert (Hdrop : drop GK_CMD_BURST_SIZE (ahead ++ cmd :: behind)
                  = left_behind).
  { rewrite drop_app_ge by lia.
    replace (GK_CMD_BURST_SIZE - length ahead)%nat
      with (S (GK_CMD_BURST_SIZE - S (length ahead))) by lia.
    reflexivity. }
  split.
  - unfold gk_proc_iteration, mb_dequeue_burst.
    destruct rx_bufs as [| p rest]; [contradiction |].
    cbn [length Nat.eqb]. run.
    pose proof (gk_forward_burst_mb netc (p :: rest) tx_room inst w) as Hkeep.
    destruct (gk_forward_burst netc (p :: rest) tx_room inst w)
      as [inst0 w0].
    cbn [fst] in Hkeep. rewrite Hkeep, Hmb, Htake, Hdrop.
    rewrite process_gk_cmds_app.
    destruct (process_gk_cmds ahead (set_mb inst0 left_behind) w0)
      as [inst1 w1].
    cbn [process_gk_cmds]. run. reflexivity.
  - rewrite gk_proc_iteration_mb by exact Hrx. rewrite Hmb. exact Hdrop.
Qed.

(** ** The LLS front end *)

(** C9.  While ARP is enabled on neither interface, [hold_arp] and
    [put_arp] return a negative value and leave the LLS mailbox as it is;
    while ND is enabled on neither interface, so do [hold_nd], [put_nd]
    and [submit_nd]. *)
Theorem C9_service_disabled (w : world) :
  (iface_arp_enabled (net (lls_conf w)) (front (net (lls_conf w))) = 0 ->
   iface_arp_enabled (net (lls_conf w)) (back (net (lls_conf w))) = 0 ->
   (forall cb arg ip_be lcore_id,
      (hold_arp cb arg ip_be lcore_id w).1 < 0
      /\ lls_conf (hold_arp cb arg ip_be lcore_id w).2 = lls_conf w)
   /\ (forall ip_be lcore_id,
         (put_arp ip_be lcore_id w).1 < 0
         /\ lls_conf (put_arp ip_be lcore_id w).2 = lls_conf w))
  /\ (iface_nd_enabled (net (lls_conf w)) (front (net (lls_conf w))) = 0 ->
      iface_nd_enabled (net (lls_conf w)) (back (net (lls_conf w))) = 0 ->
      (forall cb arg ip_be lcore_id,
         (hold_nd cb arg ip_be lcore_id w).1 < 0
         /\ lls_conf (hold_nd cb arg ip_be lcore_id w).2 = lls_conf w)
      /\ (forall ip_be lcore_id,
            (put_nd ip_be lcore_id w).1 < 0
            /\ lls_conf (put_nd ip_be lcore_id w).2 = lls_conf w)
      /\ (forall p iface,
            (submit_nd p iface w).1 < 0
            /\ lls_conf (submit_nd p iface w).2 = lls_conf w)).
Proof.
  split.
  - intros Hf Hb.
    assert (Hoff : arp_enabled (lls_conf w) = false).
    { unfold arp_enabled. rewrite Hf, Hb. reflexivity. }
    split; intros; unfold hold_arp, put_arp; run; rewrite Hoff;
      cbn; split; [lia | reflexivity | lia | reflexivity].
  - intros Hf Hb.
    assert (Hoff : nd_enabled (lls_conf w) = false).
    { unfold nd_enabled. rewrite Hf, Hb. reflexivity. }
    repeat split; intros; unfold hold_nd, put_nd, submit_nd; run;
      rewrite Hoff; cbn; first [lia | reflexivity].
Qed.

(** ** The mailbox of the responsible block *)

Lemma find_block_none (insts : list gk_instance) (queue_id : Z) :
  (forall inst, inst ∈ insts -> rx_queue_front inst <> queue_id) ->
  forall i, find_block insts queue_id i = -1.
Proof.
  induction insts as [| inst rest IH]; intros Hno i; [reflexivity |].
  cbn [find_block].
  destruct (Z.eqb_spec (rx_queue_front inst) queue_id) as [Heq | _].
  - exfalso. apply (Hno inst); [apply list_elem_of_here | exact Heq].
  - apply IH. intros inst' Hin. apply Hno. apply list_elem_of_further.
    exact Hin.
Qed.

(** When some block owns the queue, the search ends on the first one. *)
Lemma find_block_some (insts : list gk_instance) (queue_id : Z) :
  (exists inst, inst ∈ insts /\ rx_queue_front inst = queue_id) ->
  forall i, 0 <= i ->
    i <= find_block insts queue_id i < i + Z.of_nat (length insts).
Proof.
  induction insts as [| inst rest IH]; intros (x & Hin & Hx) i Hi.
  - apply elem_of_nil in Hin. contradiction.
  - cbn [find_block length].
    destruct (Z.eqb_spec (rx_queue_front inst) queue_id) as [_ | Hne];
      [lia |].
    apply elem_of_cons in Hin as [-> | Hin]; [contradiction |].
    specialize (IH (ex_intro _ x (conj Hin Hx)) (i + 1)). lia.
Qed.

(** C10.  When the queue the redirection table gives for a flow is the
    front RX queue of no GK instance, [get_responsible_gk_mailbox] leaves
    [block_idx] at -1, logs the error and returns the address of
    [instances[-1].mb], an element outside the array: neither a null
    pointer nor any other sign of the failure reaches the caller. *)
Theorem C10_no_responsible_block
    (fl : ip_flow) (gk_conf : gk_config) (w : world) :
  reta_size (rss_conf gk_conf) = 128 ->
  let rss_hash_val := Z.land (u32 (rss_ip_flow_hf fl)) 127 in
  let queue_id :=
    reta_conf (rss_conf gk_conf)
      (rss_hash_val / RTE_RETA_GROUP_SIZE)
      (rss_hash_val mod RTE_RETA_GROUP_SIZE) in
  (forall inst, inst ∈ instances gk_conf ->
                rx_queue_front inst <> queue_id) ->
  find_block (instances gk_conf) queue_id 0 = -1
  /\ get_responsible_gk_mailbox fl gk_conf w =
       (Some (Instance_mailbox (-1)),
        World (tsc w) (ticks w)
          (trace w ++ [Log "gk: wrong RSS configuration for GK blocks!"])
          (lls_conf w))
  /\ Instance_mailbox (-1) <> Null_mailbox
  /\ ~ (0 <= -1 < num_lcores gk_conf).
Proof.
  intros Hsize rss_hash_val queue_id Hno.
  pose proof (find_block_none (instances gk_conf) queue_id Hno 0) as Hfind.
  split; [exact Hfind |]. split; [| split; [discriminate | lia]].
  unfold get_responsible_gk_mailbox. rewrite Hsize.
  cbn [Z.eqb Pos.eqb negb]. fold rss_hash_val. fold queue_id.
  rewrite Hfind. reflexivity.
Qed.

(** ** The first packet of a flow *)

(** C6 (amended).  On a freshly created entry (REQUEST, [last_priority] 38,
    [allowance] 7) a packet processed at the instant of creation gets the
    computed priority 0, which is below 38 while the allowance is
    positive: it is sent with DSCP 41, the allowance goes to 6 and
    [last_priority] stays 38. *)
Theorem C6_first_packet
    (fl : ip_flow) (packet : ipacket) (w : world) :
  tsc w (S (ticks w)) = tsc w (ticks w) ->
  let created := initialize_flow_entry fl w in
  u created.1 =
    Request (RequestT (u64 (tsc w (ticks w))) START_PRIORITY 7 0)
  /\ exists ret r' w',
       gk_process_request created.1 packet created.2 =
         (ret, FlowEntry fl (Request r'), w')
       /\ last_priority r' = 38
       /\ allowance r' = 6
       /\ trace w' = trace w ++ [Encapsulate (pkt packet) 41].
Proof.
  intros Hsame created. subst created.
  unfold initialize_flow_entry. run. cbn [fst snd].
  split; [reflexivity |].
  rewrite gk_process_request_run.
  cbn [u_request u tsc ticks trace lls_conf last_packet_seen_at
       last_priority allowance grantor_id].
  rewrite Hsame.
  assert (Hp : spec_priority (u64 (tsc w (ticks w))) (u64 (tsc w (ticks w)))
               = 0).
  { unfold spec_priority. rewrite Z.ltb_irrefl, Z.sub_diag. reflexivity. }
  rewrite Hp, Z.ltb_irrefl.
  eexists _, _, _. split; [reflexivity |].
  cbn. repeat split; reflexivity.
Qed.

(** ** Further properties of the state machine *)

Lemma gk_process_request_entry_inv
    (fe : flow_entry) (packet : ipacket) (w : world) :
  request_inv (u_request fe) ->
  entry_inv (gk_process_request fe packet w).1.2.
Proof.
  intros Hinv. pose proof (gk_process_request_inv fe packet w Hinv) as H.
  rewrite gk_process_request_run in *. cbn [fst snd] in *.
  unfold entry_inv, set_request, u_request in *. cbn [u] in *. exact H.
Qed.

Lemma gk_process_entry_inv (fe : flow_entry) (packet : ipacket) (w : world) :
  entry_inv fe -> entry_inv (gk_process_entry fe packet w).1.2.
Proof.
  intros Hinv. unfold gk_process_entry, state.
  destruct (u fe) as [r | g | d] eqn:Hu.
  - apply gk_process_request_entry_inv.
    unfold entry_inv in Hinv. unfold u_request. rewrite Hu in *. exact Hinv.
  - unfold gk_process_granted. run. unfold u_granted. rewrite Hu.
    destruct (cap_expire_at g <=? u64 (tsc w (ticks w))).
    + apply gk_process_request_entry_inv, reinitialize_flow_entry_inv.
    + unfold drop_packet, encapsulate. run.
      repeat match goal with
             | |- context [if ?b then _ else _] => destruct b
             end; exact I.
  - unfold gk_process_declined. run. unfold u_declined. rewrite Hu.
    destruct (expire_at d <=? u64 (tsc w (ticks w))).
    + apply gk_process_request_entry_inv, reinitialize_flow_entry_inv.
    + unfold drop_packet. run. cbn [fst snd]. unfold entry_inv.
      rewrite Hu. exact I.
Qed.

(** X1.  Whenever an entry is in REQUEST state, its [last_priority] is in
    0..63 and its [allowance] in 0..7: this holds of an entry when it is
    created, it still holds after the switch of [add_ggu_policy] has
    applied a policy of any state to the entry, and it still holds after
    any succession of packets on an entry in any of the three states,
    whichever handler each packet goes through, the packets that turn an
    expired GRANTED or DECLINED entry back into a REQUEST entry
    included. *)
Theorem X1_request_block_in_range :
  (forall (fl : ip_flow) (w : world),
     entry_inv (initialize_flow_entry fl w).1)
  /\ (forall (now : Z) (d : ggu_decision) (fe : flow_entry) (w : world),
        entry_inv fe -> entry_inv (apply_decision now d fe w).1)
  /\ (forall (fe : flow_entry) (packets : list ipacket) (w : world),
        entry_inv fe ->
        entry_inv (gk_process_entry_seq fe packets w).1).
Proof.
  split; [| split].
  - intros fl w. pose proof (initialize_flow_entry_inv fl w) as H.
    unfold initialize_flow_entry in *. run. cbn [fst] in *.
    unfold entry_inv, u_request in *. cbn [u] in *. exact H.
  - intros now d fe w Hfe. unfold apply_decision. run.
    destruct d; cbn [fst]; [exact I | exact I | exact Hfe].
  - intros fe packets. revert fe.
    induction packets as [| packet rest IH]; intros fe w Hfe.
    + exact Hfe.
    + cbn [gk_process_entry_seq]. run.
      pose proof (gk_process_entry_inv fe packet w Hfe) as Hstep.
      destruct (gk_process_entry fe packet w) as [[ret fe'] w'].
      cbn [fst snd] in Hstep. apply IH. exact Hstep.
Qed.

(** X2.  Waiting longer never lowers the priority: for two clock readings
    after [past], the later one gets a priority at least as high, as long
    as the product of the longer gap and [picosec_per_cycle] fits in 64
    bits. *)
Theorem X2_priority_monotone (past sooner later : Z) (w1 w2 : world) :
  past <= sooner <= later ->
  0 <= picosec_per_cycle ->
  (later - past) * picosec_per_cycle < 2 ^ 64 ->
  (priority_from_delta_time sooner past w1).1
    <= (priority_from_delta_time later past w2).1.
Proof.
  intros [Hps Hsl] Hppc Hfit.
  rewrite !priority_from_delta_time_run. cbn [fst].
  assert (Hle : (sooner - past) * picosec_per_cycle
                <= (later - past) * picosec_per_cycle).
  { apply Z.mul_le_mono_nonneg_r; lia. }
  assert (H0 : 0 <= (sooner - past) * picosec_per_cycle).
  { apply Z.mul_nonneg_nonneg; lia. }
  rewrite (spec_priority_exact sooner past) by lia.
  rewrite (spec_priority_exact later past) by lia.
  cbv zeta.
  destruct (Z.ltb_spec ((sooner - past) * picosec_per_cycle) 1);
    destruct (Z.ltb_spec ((later - past) * picosec_per_cycle) 1);
    try lia.
  - apply Z.log2_nonneg.
  - apply Z.log2_le_mono. exact Hle.
Qed.

Lemma encapsulated_app (a b : list event) :
  encapsulated (a ++ b) = encapsulated a ++ encapsulated b.
Proof.
  induction a as [| e a IH]; [reflexivity |].
  destruct e; cbn [app encapsulated]; rewrite IH; reflexivity.
Qed.

Lemma freed_app (a b : list event) : freed (a ++ b) = freed a ++ freed b.
Proof.
  induction a as [| e a IH]; [reflexivity |].
  destruct e; cbn [app freed]; rewrite IH; reflexivity.
Qed.

Lemma transmitted_app (a b : list event) :
  transmitted (a ++ b) = transmitted a ++ transmitted b.
Proof.
  induction a as [| e a IH]; [reflexivity |].
  destruct e; cbn [app transmitted]; rewrite IH, ?app_assoc; reflexivity.
Qed.

Lemma reading_next (w : world) (tr : list event) (j : nat) :
  reading (World (tsc w) (S (ticks w)) tr (lls_conf w)) j = reading w (S j).
Proof.
  unfold reading. cbn [tsc ticks]. rewrite Nat.add_succ_r. reflexivity.
Qed.

(** X3.  A run of packets that each come too early for [last_priority],
    no longer than the allowance, is sent as a whole with [last_priority]:
    every packet is encapsulated with the DSCP of [last_priority], which
    does not change, and the allowance goes down by the length of the
    run. *)
Theorem X3_allowance_burst (packets : list ipacket) :
  forall (fe : flow_entry) (r : request_t) (w : world),
    u fe = Request r ->
    Z.of_nat (length packets) <= allowance r < 2 ^ 8 ->
    (forall j, (j < length packets)%nat ->
       spec_priority (reading w j) (seen_before r w j) < last_priority r) ->
    exists ext,
      gk_process_entry_seq fe packets w =
        (FlowEntry (fe_flow fe)
           (Request
              (RequestT (seen_before r w (length packets)) (last_priority r)
                 (allowance r - Z.of_nat (length packets)) (grantor_id r))),
         World (tsc w) (ticks w + length packets)%nat (trace w ++ ext)
           (lls_conf w))
      /\ encapsulated ext =
           map (fun packet => (pkt packet, dscp_of_priority (last_priority r)))
             packets.
Proof.
  induction packets as [| packet rest IH]; intros fe r w Hu Hlen Hearly.
  - exists []. cbn [gk_process_entry_seq length seen_before map encapsulated].
    run. rewrite Nat.add_0_r, app_nil_r, Z.sub_0_r.
    destruct fe as [fl un]. cbn in Hu. subst un. destruct r, w. split; reflexivity.
  - cbn [length] in Hlen.
    cbn [gk_process_entry_seq]. run.
    unfold gk_process_entry, state. rewrite Hu.
    rewrite gk_process_request_run. unfold u_request. rewrite Hu.
    pose proof (Hearly 0%nat ltac:(cbn; lia)) as H0.
    unfold reading in H0. cbn [seen_before] in H0. rewrite Nat.add_0_r in H0.
    set (now := u64 (tsc w (ticks w))) in *.
    unfold allowance_rule. cbn [last_priority allowance grantor_id
                                last_packet_seen_at].
    destruct (Z.ltb_spec (spec_priority now (last_packet_seen_at r))
                         (last_priority r)) as [_ | Hge]; [| lia].
    destruct (Z.ltb_spec 0 (allowance r)) as [_ | Hz]; [| lia].
    cbn [andb fst snd]. rewrite u8_small by lia.
    set (w' := World (tsc w) (S (ticks w)) _ (lls_conf w)).
    set (r' := RequestT now (last_priority r) (allowance r - 1) (grantor_id r)).
    destruct (IH (set_request fe r') r' w' eq_refl) as (ext & Hrun & Henc).
    { subst r'. cbn [allowance]. lia. }
    { intros j Hj. subst r'. cbn [last_priority].
      subst w'. rewrite reading_next.
      pose proof (Hearly (S j) ltac:(cbn; lia)) as HS.
      cbn [seen_before] in HS.
      destruct j as [| j']; cbn [seen_before last_packet_seen_at].
      - unfold reading at 2 in HS. rewrite Nat.add_0_r in HS. exact HS.
      - rewrite reading_next. exact HS. }
    rewrite Hrun. eexists. split.
    + subst w' r'.
      cbn [set_request fe_flow last_priority allowance grantor_id
           tsc ticks trace lls_conf length].
      rewrite <- !app_assoc.
      replace (allowance r - 1 - Z.of_nat (length rest))
        with (allowance r - Z.of_nat (S (length rest))) by lia.
      replace (S (ticks w) + length rest)%nat
        with (ticks w + S (length rest))%nat by lia.
      f_equal; f_equal; f_equal; f_equal.
      destruct rest; cbn [length seen_before last_packet_seen_at].
      * unfold reading. rewrite Nat.add_0_r. reflexivity.
      * rewrite reading_next. reflexivity.
    + rewrite !encapsulated_app, Henc. cbn [map]. subst r'.
      cbn [last_priority].
      destruct (now <? last_packet_seen_at r); reflexivity.
Qed.

(** X4.  While the capability is valid a packet on a GRANTED entry is
    dropped, or sent with DSCP 2 exactly when a renewal is due
    ([now >= send_next_renewal_at]), the next one being then due
    [renewal_step_cycle] later, or sent with DSCP 1; a dropped packet does
    not move the renewal, and no packet changes [cap_expire_at],
    [tx_rate_kb_cycle] or [renewal_step_cycle]. *)
Theorem X4_granted_renewal
    (fe : flow_entry) (g : granted_t) (packet : ipacket) (w : world) :
  u fe = Granted g ->
  let now := u64 (tsc w (ticks w)) in
  now < cap_expire_at g ->
  exists ret g' e,
    gk_process_granted fe packet w =
      (ret, FlowEntry (fe_flow fe) (Granted g'),
       World (tsc w) (S (ticks w)) (trace w ++ [e]) (lls_conf w))
    /\ cap_expire_at g' = cap_expire_at g
    /\ tx_rate_kb_cycle g' = tx_rate_kb_cycle g
    /\ renewal_step_cycle g' = renewal_step_cycle g
    /\ ((e = Pktmbuf_free (pkt packet)
         /\ send_next_renewal_at g' = send_next_renewal_at g)
        \/ (e = Encapsulate (pkt packet) 2
            /\ send_next_renewal_at g <= now
            /\ send_next_renewal_at g' = u64 (now + renewal_step_cycle g))
        \/ (e = Encapsulate (pkt packet) 1
            /\ now < send_next_renewal_at g
            /\ send_next_renewal_at g' = send_next_renewal_at g)).
Proof.
  intros Hu now Hcap.
  pose proof (gk_process_granted_run fe g packet w Hu Hcap) as Hrun.
  cbn zeta in Hrun. fold now in Hrun.
  match type of Hrun with
  | _ = (if ?b then _ else _) => destruct b
  end.
  - eexists _, _, _. split; [exact Hrun |].
    cbn [cap_expire_at tx_rate_kb_cycle renewal_step_cycle
         send_next_renewal_at].
    repeat split. left. split; reflexivity.
  - destruct (Z.leb_spec (send_next_renewal_at g) now) as [Hdue | Hnot].
    + eexists _, _, _. split; [exact Hrun |].
      cbn [cap_expire_at tx_rate_kb_cycle renewal_step_cycle
           send_next_renewal_at].
      repeat split. right. left. repeat split. exact Hdue.
    + eexists _, _, _. split; [exact Hrun |].
      cbn [cap_expire_at tx_rate_kb_cycle renewal_step_cycle
           send_next_renewal_at].
      repeat split. right. right. repeat split. exact Hnot.
Qed.

(** ** The flow table over the turns of the loop *)

Lemma flow_table_extends_refl (a : gk_instance) : flow_table_extends a a.
Proof. repeat split; auto. Qed.

Lemma flow_table_extends_trans (a b c : gk_instance) :
  flow_table_extends a b -> flow_table_extends b c -> flow_table_extends a c.
Proof.
  intros (H1 & H2 & H3) (H4 & H5 & H6). repeat split; try congruence. auto.
Qed.

Lemma free_slot_unused (h : rte_hash) (i : nat) :
  free_slot h = Some i -> forall k, h_keys h !! k <> Some i.
Proof.
  unfold free_slot. intros H k Hk. apply find_some in H as [_ Hfree].
  unfold slot_free in Hfree. apply bool_decide_eq_true_1 in Hfree.
  apply Hfree. apply (elem_of_map_img_2 _ k). exact Hk.
Qed.

(** Writing an entry into a slot keeps the table well formed. *)
Lemma set_entry_inv (inst : gk_instance) (idx : nat) (fe : flow_entry) :
  table_inv inst ->
  table_inv (set_tables inst (ip_flow_hash_table inst)
               (<[idx := fe]> (ip_flow_entry_table inst)))
  /\ flow_table_extends inst
       (set_tables inst (ip_flow_hash_table inst)
          (<[idx := fe]> (ip_flow_entry_table inst))).
Proof.
  intros [[Hcap Hidx] Hinj].
  unfold table_inv, instance_wf, flow_table_extends, set_tables.
  cbn [ip_flow_hash_table ip_flow_entry_table]. rewrite length_insert.
  repeat split; auto.
Qed.

(** A new key gets a slot of its own, inside the array. *)
Lemma add_key_inv (inst : gk_instance) (fl : ip_flow) (sig : Z)
    (fe : flow_entry) :
  table_inv inst ->
  h_keys (ip_flow_hash_table inst) !! fl = None ->
  match rte_hash_add_key_with_hash (ip_flow_hash_table inst) fl sig with
  | (h, ret) =>
      (ret < 0 /\ h = ip_flow_hash_table inst
       /\ free_slot (ip_flow_hash_table inst) = None)
      \/ (exists i,
            ret = Z.of_nat i
            /\ free_slot (ip_flow_hash_table inst) = Some i
            /\ h_keys h !! fl = Some i
            /\ (i < length (ip_flow_entry_table inst))%nat
            /\ table_inv (set_tables inst h
                            (<[i := fe]> (ip_flow_entry_table inst)))
            /\ flow_table_extends inst
                 (set_tables inst h
                    (<[i := fe]> (ip_flow_entry_table inst))))
  end.
Proof.
  intros [[Hcap Hidx] Hinj] Hnone.
  unfold rte_hash_add_key_with_hash. rewrite Hnone.
  destruct (free_slot (ip_flow_hash_table inst)) as [i |] eqn:Hfree.
  - right. exists i.
    pose proof (free_slot_lt _ _ Hfree) as Hlt.
    pose proof (free_slot_unused _ _ Hfree) as Hun.
    split; [reflexivity |]. split; [reflexivity |].
    cbn [h_keys]. split; [apply lookup_insert_eq |]. split; [lia |].
    unfold table_inv, instance_wf, slots_inj, flow_table_extends, set_tables.
    cbn [ip_flow_hash_table ip_flow_entry_table h_entries h_keys].
    rewrite length_insert.
    split; [split; [split; [exact Hcap |] |] | split; [| split]].
    + intros k j Hj. destruct (decide (fl = k)) as [<- | Hne].
      * rewrite lookup_insert_eq in Hj. injection Hj as <-. lia.
      * rewrite lookup_insert_ne in Hj by exact Hne. eauto.
    + intros k1 k2 j H1 H2.
      destruct (decide (fl = k1)) as [<- | Hne1];
        destruct (decide (fl = k2)) as [<- | Hne2]; [reflexivity | | |].
      * rewrite lookup_insert_eq in H1. injection H1 as <-.
        rewrite lookup_insert_ne in H2 by exact Hne2.
        exfalso. exact (Hun _ H2).
      * rewrite lookup_insert_eq in H2. injection H2 as <-.
        rewrite lookup_insert_ne in H1 by exact Hne1.
        exfalso. exact (Hun _ H1).
      * rewrite lookup_insert_ne in H1 by exact Hne1.
        rewrite lookup_insert_ne in H2 by exact Hne2. eauto.
    + reflexivity.
    + reflexivity.
    + intros k j Hj. destruct (decide (fl = k)) as [<- | Hne].
      * rewrite Hnone in Hj. discriminate.
      * rewrite lookup_insert_ne by exact Hne. exact Hj.
  - left. split; [reflexivity |]. split; reflexivity.
Qed.

(** What the body of the loop over the burst does to the flow table. *)
Lemma gk_process_rx_table (netc : net_config) (inst : gk_instance)
    (p : rte_mbuf) (w : world) :
  table_inv inst ->
  let inst' := (gk_process_rx netc inst p w).1.1 in
  table_inv inst'
  /\ flow_table_extends inst inst'
  /\ (forall k j,
        h_keys (ip_flow_hash_table inst) !! k = Some j ->
        (forall packet, extract_packet_info p = Some packet ->
                        flow packet <> k) ->
        ip_flow_entry_table inst' !! j = ip_flow_entry_table inst !! j).
Proof.
  intros Hinv inst'. subst inst'.
  assert (Hsame : table_inv inst /\ flow_table_extends inst inst
                  /\ (forall k j,
                        h_keys (ip_flow_hash_table inst) !! k = Some j ->
                        (forall packet, extract_packet_info p = Some packet ->
                                        flow packet <> k) ->
                        ip_flow_entry_table inst !! j
                        = ip_flow_entry_table inst !! j)).
  { split; [exact Hinv |]. split; [apply flow_table_extends_refl | auto]. }
  unfold gk_process_rx, drop_packet, initialize_flow_entry. run.
  destruct (extract_packet_info p) as [packet |]; [| exact Hsame].
  destruct (pkt_is_nd packet (front netc)).
  { destruct (submit_nd p Front w) as [r w1].
    destruct (r =? -1); exact Hsame. }
  unfold rte_hash_lookup_with_hash.
  destruct (h_keys (ip_flow_hash_table inst) !! flow packet) as [i0 |] eqn:Hk.
  - destruct (Z.ltb_spec (Z.of_nat i0) 0) as [Hneg | _]; [lia |].
    rewrite Nat2Z.id.
    destruct (ip_flow_entry_table inst !! i0) as [fe |]; [| exact Hsame].
    assert (Hgoal : forall fe',
      table_inv (set_tables inst (ip_flow_hash_table inst)
                   (<[i0 := fe']> (ip_flow_entry_table inst)))
      /\ flow_table_extends inst
           (set_tables inst (ip_flow_hash_table inst)
              (<[i0 := fe']> (ip_flow_entry_table inst)))
      /\ (forall k j,
            h_keys (ip_flow_hash_table inst) !! k = Some j ->
            (forall packet0, Some packet = Some packet0 ->
                             flow packet0 <> k) ->
            ip_flow_entry_table
              (set_tables inst (ip_flow_hash_table inst)
                 (<[i0 := fe']> (ip_flow_entry_table inst))) !! j
            = ip_flow_entry_table inst !! j)).
    { intros fe'. destruct (set_entry_inv inst i0 fe' Hinv) as [H1 H2].
      split; [exact H1 |]. split; [exact H2 |].
      intros k j Hj Hne. cbn [set_tables ip_flow_entry_table].
      apply list_lookup_insert_ne. intros ->.
      apply (Hne packet eq_refl). destruct Hinv as [_ Hinj].
      exact (Hinj _ _ _ Hk Hj). }
    destruct (state fe);
      match goal with
      | |- context [let '(_, _) := ?x in _] => destruct x as [[ret' fe'] w']
      end; destruct (ret' <? 0); apply Hgoal.
  - replace (- ENOENT <? 0) with true by reflexivity.
    pose proof (fun fe => add_key_inv inst (flow packet) (hash_rss p) fe
                            Hinv Hk) as Hadd.
    destruct (rte_hash_add_key_with_hash (ip_flow_hash_table inst)
                (flow packet) (hash_rss p)) as [h ret].
    destruct (Z.ltb_spec ret 0) as [Hneg | Hpos].
    { exact Hsame. }
    set (fe0 := FlowEntry (flow packet)
                  (Request (RequestT (u64 (tsc w (ticks w))) START_PRIORITY
                              (START_ALLOWANCE - 1) 0))).
    destruct (Hadd fe0) as [(Hlt & _) | (i & -> & Hfree & Hki & Hil & Hinv1 & Hext1)];
      [lia |].
    rewrite Nat2Z.id. cbn [fst snd ticks tsc trace lls_conf].
    fold fe0.
    set (inst1 := set_tables inst h (<[i := fe0]> (ip_flow_entry_table inst)))
      in *.
    assert (Hl1 : ip_flow_entry_table inst1 !! i = Some fe0).
    { subst inst1. cbn [set_tables ip_flow_entry_table].
      apply list_lookup_insert_eq. exact Hil. }
    rewrite Hl1.
    assert (Hgoal : forall fe',
      table_inv (set_tables inst1 (ip_flow_hash_table inst1)
                   (<[i := fe']> (ip_flow_entry_table inst1)))
      /\ flow_table_extends inst
           (set_tables inst1 (ip_flow_hash_table inst1)
              (<[i := fe']> (ip_flow_entry_table inst1)))
      /\ (forall k j,
            h_keys (ip_flow_hash_table inst) !! k = Some j ->
            (forall packet0, Some packet = Some packet0 ->
                             flow packet0 <> k) ->
            ip_flow_entry_table
              (set_tables inst1 (ip_flow_hash_table inst1)
                 (<[i := fe']> (ip_flow_entry_table inst1))) !! j
            = ip_flow_entry_table inst !! j)).
    { intros fe'. destruct (set_entry_inv inst1 i fe' Hinv1) as [H1 H2].
      split; [exact H1 |].
      split; [exact (flow_table_extends_trans _ _ _ Hext1 H2) |].
      intros k j Hj Hne.
      assert (Hji : i <> j).
      { intros ->. exact (free_slot_unused _ _ Hfree _ Hj). }
      subst inst1. cbn [set_tables ip_flow_entry_table].
      rewrite !list_lookup_insert_ne by exact Hji. reflexivity. }
    destruct (state fe0);
      match goal with
      | |- context [let '(_, _) := ?x in _] => destruct x as [[ret' fe'] w']
      end; destruct (ret' <? 0); apply Hgoal.
Qed.

(** What a policy does to the flow table. *)
Lemma add_ggu_policy_table (policy : ggu_policy) (inst : gk_instance)
    (w : world) :
  table_inv inst ->
  let inst' := (add_ggu_policy policy inst w).1 in
  table_inv inst'
  /\ flow_table_extends inst inst'
  /\ (forall k j,
        h_keys (ip_flow_hash_table inst) !! k = Some j ->
        policy_flow policy <> k ->
        ip_flow_entry_table inst' !! j = ip_flow_entry_table inst !! j).
Proof.
  intros Hinv inst'. subst inst'.
  assert (Hsame : table_inv inst /\ flow_table_extends inst inst
                  /\ (forall k j,
                        h_keys (ip_flow_hash_table inst) !! k = Some j ->
                        policy_flow policy <> k ->
                        ip_flow_entry_table inst !! j
                        = ip_flow_entry_table inst !! j)).
  { split; [exact Hinv |]. split; [apply flow_table_extends_refl | auto]. }
  unfold add_ggu_policy, policy_flow_entry, initialize_flow_entry. run.
  unfold rte_hash_lookup_with_hash.
  destruct (h_keys (ip_flow_hash_table inst) !! policy_flow policy)
    as [i0 |] eqn:Hk.
  - destruct (Z.ltb_spec (Z.of_nat i0) 0) as [Hneg | _]; [lia |].
    rewrite Nat2Z.id.
    destruct (ip_flow_entry_table inst !! i0) as [fe |]; [| exact Hsame].
    destruct (apply_decision _ _ _ _) as [fe' w']. cbn [fst].
    destruct (set_entry_inv inst i0 fe' Hinv) as [H1 H2].
    split; [exact H1 |]. split; [exact H2 |].
    intros k j Hj Hne. cbn [set_tables ip_flow_entry_table].
    apply list_lookup_insert_ne. intros ->. apply Hne.
    destruct Hinv as [_ Hinj]. exact (Hinj _ _ _ Hk Hj).
  - replace (- ENOENT <? 0) with true by reflexivity.
    pose proof (fun fe => add_key_inv inst (policy_flow policy)
                            (rss_ip_flow_hf (policy_flow policy)) fe
                            Hinv Hk) as Hadd.
    destruct (rte_hash_add_key_with_hash (ip_flow_hash_table inst)
                (policy_flow policy) (rss_ip_flow_hf (policy_flow policy)))
      as [h ret].
    destruct (Z.ltb_spec ret 0) as [Hneg | Hpos].
    { exact Hsame. }
    set (fe0 := FlowEntry (policy_flow policy)
                  (Request (RequestT (u64 (tsc w (S (ticks w))))
                              START_PRIORITY (START_ALLOWANCE - 1) 0))).
    destruct (Hadd fe0)
      as [(Hlt & _) | (i & -> & Hfree & Hki & Hil & Hinv1 & Hext1)]; [lia |].
    rewrite Nat2Z.id. cbn [fst snd ticks tsc trace lls_conf]. fold fe0.
    set (inst1 := set_tables inst h (<[i := fe0]> (ip_flow_entry_table inst)))
      in *.
    assert (Hl1 : ip_flow_entry_table inst1 !! i = Some fe0).
    { subst inst1. cbn [set_tables ip_flow_entry_table].
      apply list_lookup_insert_eq. exact Hil. }
    rewrite Hl1.
    destruct (apply_decision _ _ _ _) as [fe' w']. cbn [fst].
    destruct (set_entry_inv inst1 i fe' Hinv1) as [H1 H2].
    split; [exact H1 |].
    split; [exact (flow_table_extends_trans _ _ _ Hext1 H2) |].
    intros k j Hj Hne.
    assert (Hji : i <> j).
    { intros ->. exact (free_slot_unused _ _ Hfree _ Hj). }
    subst inst1. cbn [set_tables ip_flow_entry_table].
    rewrite !list_lookup_insert_ne by exact Hji. reflexivity.
Qed.

Lemma process_gk_cmd_table (c : gk_cmd_entry) (inst : gk_instance)
    (w : world) :
  table_inv inst ->
  table_inv (process_gk_cmd c inst w).1
  /\ flow_table_extends inst (process_gk_cmd c inst w).1.
Proof.
  intros Hinv. destruct c as [ggu | op].
  - destruct (add_ggu_policy_table ggu inst w Hinv) as (H1 & H2 & _).
    split; assumption.
  - split; [exact Hinv | apply flow_table_extends_refl].
Qed.

Lemma process_gk_cmds_table (cmds : list gk_cmd_entry) :
  forall inst w,
    table_inv inst ->
    table_inv (process_gk_cmds cmds inst w).1
    /\ flow_table_extends inst (process_gk_cmds cmds inst w).1.
Proof.
  induction cmds as [| c rest IH]; intros inst w Hinv.
  - split; [exact Hinv | apply flow_table_extends_refl].
  - cbn [process_gk_cmds]. run.
    destruct (process_gk_cmd_table c inst w Hinv) as [H1 H2].
    destruct (process_gk_cmd c inst w) as [inst1 w1]. cbn [fst] in *.
    destruct (IH inst1 w1 H1) as [H3 H4].
    split; [exact H3 | exact (flow_table_extends_trans _ _ _ H2 H4)].
Qed.

Lemma gk_process_rx_burst_table (netc : net_config)
    (rx_bufs : list rte_mbuf) :
  forall inst tx_bufs w,
    table_inv inst ->
    table_inv (gk_process_rx_burst netc inst rx_bufs tx_bufs w).1.1
    /\ flow_table_extends inst
         (gk_process_rx_burst netc inst rx_bufs tx_bufs w).1.1.
Proof.
  induction rx_bufs as [| p rest IH]; intros inst tx_bufs w Hinv.
  - split; [exact Hinv | apply flow_table_extends_refl].
  - cbn [gk_process_rx_burst]. run.
    destruct (gk_process_rx_table netc inst p w Hinv) as (H1 & H2 & _).
    destruct (gk_process_rx netc inst p w) as [[inst1 sent] w1].
    cbn [fst] in *.
    match goal with
    | |- context [gk_process_rx_burst netc inst1 rest ?t w1] =>
        destruct (IH inst1 t w1 H1) as [H3 H4]
    end.
    split; [exact H3 | exact (flow_table_extends_trans _ _ _ H2 H4)].
Qed.

Lemma gk_forward_burst_table (netc : net_config) (rx_bufs : list rte_mbuf)
    (tx_room : nat) (inst : gk_instance) (w : world) :
  table_inv inst ->
  table_inv (gk_forward_burst netc rx_bufs tx_room inst w).1
  /\ flow_table_extends inst (gk_forward_burst netc rx_bufs tx_room inst w).1.
Proof.
  intros Hinv. unfold gk_forward_burst. run.
  pose proof (gk_process_rx_burst_table netc rx_bufs inst [] w Hinv) as H.
  destruct (gk_process_rx_burst netc inst rx_bufs [] w)
    as [[instA tx_bufs] wA].
  cbn [fst] in H.
  match goal with
  | |- context [free_all ?l ?x] => destruct (free_all l x) as [[] wB]
  end.
  exact H.
Qed.

Lemma set_mb_table (inst : gk_instance) (q : list gk_cmd_entry) :
  table_inv inst ->
  table_inv (set_mb inst q) /\ flow_table_extends inst (set_mb inst q).
Proof.
  intros Hinv. split; [exact Hinv |].
  unfold flow_table_extends, set_mb.
  cbn [ip_flow_hash_table ip_flow_entry_table]. repeat split; auto.
Qed.

Lemma gk_proc_iteration_table (netc : net_config) (rx_bufs : list rte_mbuf)
    (tx_room : nat) (inst : gk_instance) (w : world) :
  table_inv inst ->
  table_inv (gk_proc_iteration netc rx_bufs tx_room inst w).1
  /\ flow_table_extends inst
       (gk_proc_iteration netc rx_bufs tx_room inst w).1.
Proof.
  intros Hinv. unfold gk_proc_iteration, mb_dequeue_burst.
  destruct (length rx_bufs =? 0)%nat.
  - split; [exact Hinv | apply flow_table_extends_refl].
  - run.
    destruct (gk_forward_burst_table netc rx_bufs tx_room inst w Hinv)
      as [H1 H2].
    destruct (gk_forward_burst netc rx_bufs tx_room inst w) as [instA wA].
    cbn [fst] in *.
    destruct (set_mb_table instA (drop GK_CMD_BURST_SIZE (mb instA)) H1)
      as [H3 H4].
    destruct (process_gk_cmds_table (take GK_CMD_BURST_SIZE (mb instA))
                (set_mb instA (drop GK_CMD_BURST_SIZE (mb instA))) wA H3)
      as [H5 H6].
    split; [exact H5 |].
    exact (flow_table_extends_trans _ _ _ H2
             (flow_table_extends_trans _ _ _ H4 H6)).
Qed.

(** X5.  Over any number of turns of the worker loop the flow table stays
    well formed (every slot inside the entry array, no slot shared by two
    flows) and no flow is removed or moved: a flow found at a slot before
    is found at the same slot after. *)
Theorem X5_flow_table_kept (netc : net_config)
    (turns : list (list rte_mbuf * nat)) :
  forall (inst : gk_instance) (w : world),
    table_inv inst ->
    table_inv (gk_proc_iterations netc turns inst w).1
    /\ flow_table_extends inst (gk_proc_iterations netc turns inst w).1.
Proof.
  induction turns as [| [rx_bufs tx_room] rest IH]; intros inst w Hinv.
  - split; [exact Hinv | apply flow_table_extends_refl].
  - cbn [gk_proc_iterations]. run.
    destruct (gk_proc_iteration_table netc rx_bufs tx_room inst w Hinv)
      as [H1 H2].
    destruct (gk_proc_iteration netc rx_bufs tx_room inst w) as [inst1 w1].
    cbn [fst] in *.
    destruct (IH inst1 w1 H1) as [H3 H4].
    split; [exact H3 | exact (flow_table_extends_trans _ _ _ H2 H4)].
Qed.

(** X6.  Neither a policy nor a received buffer changes the entry of a
    flow other than its own: the slot of every other flow of the table
    holds after the call what it held before. *)
Theorem X6_other_flows_untouched (inst : gk_instance) (w : world) :
  table_inv inst ->
  (forall (policy : ggu_policy) (k : ip_flow) (j : nat),
     h_keys (ip_flow_hash_table inst) !! k = Some j ->
     policy_flow policy <> k ->
     ip_flow_entry_table (add_ggu_policy policy inst w).1 !! j
     = ip_flow_entry_table inst !! j)
  /\ (forall (netc : net_config) (p : rte_mbuf) (k : ip_flow) (j : nat),
        h_keys (ip_flow_hash_table inst) !! k = Some j ->
        (forall packet, extract_packet_info p = Some packet ->
                        flow packet <> k) ->
        ip_flow_entry_table (gk_process_rx netc inst p w).1.1 !! j
        = ip_flow_entry_table inst !! j).
Proof.
  intros Hinv. split.
  - intros policy k j Hj Hne.
    destruct (add_ggu_policy_table policy inst w Hinv) as (_ & _ & H).
    exact (H k j Hj Hne).
  - intros netc p k j Hj Hne.
    destruct (gk_process_rx_table netc inst p w Hinv) as (_ & _ & H).
    exact (H k j Hj Hne).
Qed.

(** X7.  The mailbox over the turns of the loop: each turn that receives
    at least one packet takes the 32 oldest commands, a turn that
    receives none takes nothing, and nothing is ever put back. *)
Theorem X7_mailbox_over_turns (netc : net_config)
    (turns : list (list rte_mbuf * nat)) :
  forall (inst : gk_instance) (w : world),
    mb (gk_proc_iterations netc turns inst w).1 =
      drop (GK_CMD_BURST_SIZE
            * length (filter (fun t => t.1 <> []) turns))%nat
           (mb inst).
Proof.
  induction turns as [| [rx_bufs tx_room] rest IH]; intros inst w.
  - reflexivity.
  - cbn [gk_proc_iterations]. run.
    destruct rx_bufs as [| p rx].
    + rewrite gk_proc_iteration_idle. rewrite IH.
      rewrite filter_cons_False by (cbn; intros H; apply H; reflexivity).
      reflexivity.
    + pose proof (gk_proc_iteration_mb netc (p :: rx) tx_room inst w
                    ltac:(discriminate)) as Hmb.
      destruct (gk_proc_iteration netc (p :: rx) tx_room inst w)
        as [inst1 w1].
      cbn [fst] in Hmb. rewrite IH, Hmb.
      rewrite filter_cons_True by (cbn; discriminate).
      cbn [length]. rewrite drop_drop. f_equal. lia.
Qed.

(** ** The fate of a received buffer *)

Lemma extract_packet_info_parsed (p : rte_mbuf) (fl : ip_flow) (l nh : Z) :
  parse_headers p = Some (fl, l, nh) ->
  extract_packet_info p = Some (Ipacket fl l nh p).
Proof. intros H. unfold extract_packet_info. rewrite H. reflexivity. Qed.

(** X8.  A buffer that the state machine drops is released and still sent:
    [drop_packet] frees it and returns 0, which the loop over the burst
    takes for success, so that the buffer of an unexpired DECLINED flow,
    or of a GRANTED flow over its budget, is appended to [tx_bufs] after
    it has been freed and handed to [rte_eth_tx_burst]. *)
Theorem X8_dropped_buffer_is_queued
    (netc : net_config) (inst : gk_instance) (p : rte_mbuf)
    (fl : ip_flow) (l nh : Z) (idx : nat) (fe : flow_entry)
    (tx_room : nat) (w : world) :
  parse_headers p = Some (fl, l, nh) ->
  pkt_is_nd (Ipacket fl l nh p) (front netc) = false ->
  h_keys (ip_flow_hash_table inst) !! fl = Some idx ->
  ip_flow_entry_table inst !! idx = Some fe ->
  let now := u64 (tsc w (ticks w)) in
  (exists d, u fe = Declined d /\ now < expire_at d)
  \/ (exists g, u fe = Granted g /\ now < cap_expire_at g
      /\ (if budget_renew_at g <=? now
          then s32 (tx_rate_kb_cycle g * 1024) else budget_byte g)
         < data_len p) ->
  (0 < tx_room)%nat ->
  (exists inst',
     gk_process_rx netc inst p w =
       ((inst', Some p),
        World (tsc w) (S (ticks w)) (trace w ++ [Pktmbuf_free p])
          (lls_conf w)))
  /\ trace (gk_forward_burst netc [p] tx_room inst w).2 =
       trace w ++ [Pktmbuf_free p; Tx_burst [p]].
Proof.
  intros Hparse Hnd Hk Hfe now Hdrop Hroom.
  assert (Hrx : exists inst',
            gk_process_rx netc inst p w =
              ((inst', Some p),
               World (tsc w) (S (ticks w)) (trace w ++ [Pktmbuf_free p])
                 (lls_conf w))).
  { unfold gk_process_rx.
    rewrite (extract_packet_info_parsed p fl l nh Hparse), Hnd.
    cbn [flow pkt]. unfold rte_hash_lookup_with_hash. rewrite Hk. run.
    destruct (Z.ltb_spec (Z.of_nat idx) 0) as [Hneg | _]; [lia |].
    rewrite Nat2Z.id, Hfe.
    destruct Hdrop as [(d & Hu & Hlt) | (g & Hu & Hcap & Hover)].
    - unfold state. rewrite Hu.
      unfold gk_process_declined, drop_packet. run.
      unfold u_declined. rewrite Hu. fold now.
      destruct (Z.leb_spec (expire_at d) now) as [Hle | _]; [lia |].
      cbn [pkt Z.ltb Z.compare]. eexists. reflexivity.
    - unfold state. rewrite Hu.
      pose proof (gk_process_granted_run fe g (Ipacket fl l nh p) w Hu Hcap)
        as Hrun.
      cbn zeta in Hrun. fold now in Hrun. cbn [pkt] in Hrun.
      destruct (Z.ltb_spec
                  (if budget_renew_at g <=? now
                   then s32 (tx_rate_kb_cycle g * 1024) else budget_byte g)
                  (data_len p)) as [_ | Hge]; [| lia].
      rewrite Hrun. cbn [Z.ltb Z.compare]. eexists. reflexivity. }
  split; [exact Hrx |].
  destruct Hrx as [inst' Hrx].
  unfold gk_forward_burst. cbn [gk_process_rx_burst]. run.
  rewrite Hrx. cbn [app length].
  replace (Nat.min tx_room 1) with 1%nat by lia.
  cbn [take drop free_all trace]. run. cbn [trace].
  rewrite <- app_assoc. reflexivity.
Qed.

(** X9.  A buffer that does not reach the state machine leaves the
    instance as it is and is not appended to [tx_bufs]: a frame that is
    neither IPv4 nor IPv6 is freed; an ND packet is passed to [submit_nd]
    and freed exactly when that returns -1, as it does when ND is enabled
    on neither interface; the buffer of a new flow that the hash table
    rejects is freed after an error is logged. *)
Theorem X9_buffer_not_classified
    (netc : net_config) (inst : gk_instance) (p : rte_mbuf) (w : world) :
  (parse_headers p = None ->
   gk_process_rx netc inst p w =
     ((inst, None),
      World (tsc w) (ticks w) (trace w ++ [Pktmbuf_free p]) (lls_conf w)))
  /\ (forall packet,
        extract_packet_info p = Some packet ->
        pkt_is_nd packet (front netc) = true ->
        gk_process_rx netc inst p w =
          ((inst, None),
           let '(r, w1) := submit_nd p Front w in
           if r =? -1
           then World (tsc w1) (ticks w1) (trace w1 ++ [Pktmbuf_free p])
                  (lls_conf w1)
           else w1)
        /\ (nd_enabled (lls_conf w) = false ->
            gk_process_rx netc inst p w =
              ((inst, None),
               World (tsc w) (ticks w)
                 (trace w
                  ++ [Log "lls: submit_nd invoked but ND service is not enabled";
                      Pktmbuf_free p])
                 (lls_conf w))))
  /\ (forall packet,
        extract_packet_info p = Some packet ->
        pkt_is_nd packet (front netc) = false ->
        h_keys (ip_flow_hash_table inst) !! flow packet = None ->
        free_slot (ip_flow_hash_table inst) = None ->
        gk_process_rx netc inst p w =
          ((inst, None),
           World (tsc w) (ticks w)
             (trace w
              ++ [Log "The GK block failed to add new key to hash table!";
                  Pktmbuf_free p])
             (lls_conf w))).
Proof.
  split; [| split].
  - intros Hparse. unfold gk_process_rx, extract_packet_info, drop_packet.
    rewrite Hparse. reflexivity.
  - intros packet Hex Hnd. split.
    + unfold gk_process_rx, drop_packet. rewrite Hex, Hnd. run.
      destruct (submit_nd p Front w) as [r w1].
      destruct (r =? -1); [reflexivity |]. destruct w1; reflexivity.
    + intros Hoff. unfold gk_process_rx, drop_packet, submit_nd.
      rewrite Hex, Hnd. run. rewrite Hoff. cbn.
      rewrite <- app_assoc. reflexivity.
  - intros packet Hex Hnd Hk Hfull.
    unfold gk_process_rx. rewrite Hex, Hnd.
    unfold rte_hash_lookup_with_hash, rte_hash_add_key_with_hash.
    rewrite Hk, Hfull. run.
    replace (- ENOENT <? 0) with true by reflexivity.
    replace (- ENOSPC <? 0) with true by reflexivity.
    cbn. rewrite <- app_assoc. reflexivity.
Qed.

Lemma spec_priority_small (now last_seen_at : Z) (n : Z) :
  0 < n ->
  last_seen_at <= now ->
  0 <= picosec_per_cycle ->
  (now - last_seen_at) * picosec_per_cycle < 2 ^ n ->
  n <= 64 ->
  spec_priority now last_seen_at < n.
Proof.
  intros Hn Hle Hppc Hlt H64.
  assert (H0 : 0 <= (now - last_seen_at) * picosec_per_cycle).
  { apply Z.mul_nonneg_nonneg; lia. }
  assert (Hp : 2 ^ n <= 2 ^ 64) by (apply Z.pow_le_mono_r; lia).
  rewrite spec_priority_exact by lia. cbv zeta.
  destruct (Z.ltb_spec ((now - last_seen_at) * picosec_per_cycle) 1);
    [lia |].
  apply Z.log2_lt_pow2; lia.
Qed.

(** X10.  The first packet of a flow the table does not know, when the
    table has a free slot: the flow is inserted and found again at that
    slot, its entry is created in REQUEST state, and, the clock having
    advanced by less than 2^38 picoseconds between the creation of the
    entry and the processing of the packet, the packet is encapsulated
    with DSCP 41 (the start priority 38), the entry keeping
    [last_priority] 38 with an allowance of 6. *)
Theorem X10_first_packet_of_new_flow
    (netc : net_config) (inst : gk_instance) (p : rte_mbuf)
    (fl : ip_flow) (l nh : Z) (i : nat) (w : world) :
  instance_wf inst ->
  parse_headers p = Some (fl, l, nh) ->
  pkt_is_nd (Ipacket fl l nh p) (front netc) = false ->
  h_keys (ip_flow_hash_table inst) !! fl = None ->
  free_slot (ip_flow_hash_table inst) = Some i ->
  let created := reading w 0 in
  let now := reading w 1 in
  created <= now ->
  0 <= picosec_per_cycle ->
  (now - created) * picosec_per_cycle < 2 ^ 38 ->
  let status := encapsulate_status p 41 in
  exists inst',
    gk_process_rx netc inst p w =
      ((inst', if status <? 0 then None else Some p),
       World (tsc w) (S (S (ticks w)))
         (trace w ++ Encapsulate p 41
                     :: (if status <? 0 then [Pktmbuf_free p] else []))
         (lls_conf w))
    /\ (forall sig,
          rte_hash_lookup_with_hash (ip_flow_hash_table inst') fl sig
          = Z.of_nat i)
    /\ ip_flow_entry_table inst' !! i
       = Some (FlowEntry fl (Request (RequestT now 38 6 0))).
Proof.
  intros [Hcap _] Hparse Hnd Hk Hfree created now Hle Hppc Hgap status.
  pose proof (free_slot_lt _ _ Hfree) as Hlt.
  pose proof (spec_priority_small now created 38 ltac:(lia) Hle Hppc Hgap
                ltac:(lia)) as Hprio.
  pose proof (spec_priority_bound now created) as Hb.
  unfold created, now, reading in *.
  rewrite Nat.add_0_r in *. rewrite Nat.add_1_r in *.
  unfold gk_process_rx.
  rewrite (extract_packet_info_parsed p fl l nh Hparse), Hnd.
  cbn [flow pkt].
  unfold rte_hash_lookup_with_hash, rte_hash_add_key_with_hash.
  rewrite Hk, Hfree. unfold initialize_flow_entry. run.
  replace (- ENOENT <? 0) with true by reflexivity.
  destruct (Z.ltb_spec (Z.of_nat i) 0) as [Hneg | _]; [lia |].
  rewrite Nat2Z.id. cbn [set_tables ip_flow_entry_table ip_flow_hash_table].
  rewrite list_lookup_insert_eq by lia.
  unfold state. cbn [u].
  rewrite gk_process_request_run.
  cbn [u_request u tsc ticks trace lls_conf last_packet_seen_at
       last_priority allowance grantor_id pkt].
  rewrite (proj2 (Z.ltb_ge _ _) Hle).
  unfold allowance_rule, START_PRIORITY, START_ALLOWANCE.
  cbn [last_priority allowance grantor_id last_packet_seen_at].
  unfold START_PRIORITY in Hprio.
  rewrite (proj2 (Z.ltb_lt _ _) Hprio).
  change (0 <? 8 - 1) with true. cbn [andb fst snd].
  change (u8 (8 - 1 - 1)) with 6. change (dscp_of_priority 38) with 41.
  fold status.
  replace ((if status <? 0 then status else 0) <? 0) with (status <? 0)
    by (destruct (Z.ltb_spec status 0) as [Hs | Hs];
        [symmetry; apply Z.ltb_lt; exact Hs | reflexivity]).
  destruct (status <? 0).
  - eexists. split; [cbn; rewrite <- ?app_assoc; reflexivity |].
    cbn [ip_flow_hash_table h_keys ip_flow_entry_table set_tables].
    split.
    + intros sig. rewrite lookup_insert_eq. reflexivity.
    + rewrite list_lookup_insert_eq by (rewrite length_insert; lia).
      reflexivity.
  - eexists. split; [cbn; rewrite <- ?app_assoc; reflexivity |].
    cbn [ip_flow_hash_table h_keys ip_flow_entry_table set_tables].
    split.
    + intros sig. rewrite lookup_insert_eq. reflexivity.
    + rewrite list_lookup_insert_eq by (rewrite length_insert; lia).
      reflexivity.
Qed.

(** ** Edge cases of the policy intake *)

(** X11.  A policy for a flow the table does not know, when the table has
    no free slot, is dropped: one error is logged and the instance is left
    as it is.  A policy whose state is neither GRANTED nor DECLINED is
    logged and changes no entry, but the lookup-or-insert before the
    switch has already run: for a flow the table does not know a fresh
    REQUEST entry is inserted all the same. *)
Theorem X11_policy_edge_cases
    (fl : ip_flow) (inst : gk_instance) (w : world) :
  (forall d,
     h_keys (ip_flow_hash_table inst) !! fl = None ->
     free_slot (ip_flow_hash_table inst) = None ->
     add_ggu_policy (GguPolicy fl d) inst w =
       (inst,
        World (tsc w) (S (ticks w))
          (trace w
           ++ [Log "The GK block failed to add new key to hash table!"])
          (lls_conf w)))
  /\ (forall raw i fe,
        h_keys (ip_flow_hash_table inst) !! fl = Some i ->
        ip_flow_entry_table inst !! i = Some fe ->
        add_ggu_policy (GguPolicy fl (Decision_other raw)) inst w =
          (inst,
           World (tsc w) (S (ticks w))
             (trace w ++ [Log "gk: unknown flow state!"]) (lls_conf w)))
  /\ (forall raw i,
        instance_wf inst ->
        h_keys (ip_flow_hash_table inst) !! fl = None ->
        free_slot (ip_flow_hash_table inst) = Some i ->
        let res := add_ggu_policy (GguPolicy fl (Decision_other raw)) inst w in
        h_keys (ip_flow_hash_table res.1) !! fl = Some i
        /\ ip_flow_entry_table res.1 !! i
           = Some (FlowEntry fl (Request (RequestT (reading w 1) 38 7 0)))
        /\ trace res.2 = trace w ++ [Log "gk: unknown flow state!"]).
Proof.
  split; [| split].
  - intros d Hk Hfull.
    unfold add_ggu_policy, policy_flow_entry, rte_hash_lookup_with_hash,
      rte_hash_add_key_with_hash.
    cbn [policy_flow]. rewrite Hk, Hfull. run.
    replace (- ENOENT <? 0) with true by reflexivity.
    replace (- ENOSPC <? 0) with true by reflexivity.
    reflexivity.
  - intros raw i fe Hk Hfe.
    unfold add_ggu_policy, policy_flow_entry, rte_hash_lookup_with_hash.
    cbn [policy_flow decision]. rewrite Hk. run.
    destruct (Z.ltb_spec (Z.of_nat i) 0) as [Hneg | _]; [lia |].
    rewrite Nat2Z.id, Hfe. cbn [apply_decision]. run.
    rewrite list_insert_id by exact Hfe.
    destruct inst; reflexivity.
  - intros raw i [Hcap _] Hk Hfree res. subst res.
    pose proof (free_slot_lt _ _ Hfree) as Hlt.
    unfold add_ggu_policy, policy_flow_entry, rte_hash_lookup_with_hash,
      rte_hash_add_key_with_hash, initialize_flow_entry.
    cbn [policy_flow decision]. rewrite Hk, Hfree. run.
    replace (- ENOENT <? 0) with true by reflexivity.
    destruct (Z.ltb_spec (Z.of_nat i) 0) as [Hneg | _]; [lia |].
    rewrite Nat2Z.id. cbn [set_tables ip_flow_entry_table].
    rewrite list_lookup_insert_eq by lia.
    cbn [apply_decision]. run.
    cbn [fst snd ip_flow_hash_table ip_flow_entry_table h_keys trace
         tsc ticks].
    split; [apply lookup_insert_eq |]. split; [| reflexivity].
    cbn [set_tables ip_flow_entry_table].
    rewrite list_lookup_insert_eq by (rewrite length_insert; lia).
    unfold reading. rewrite Nat.add_1_r. reflexivity.
Qed.

(** ** The block responsible for a flow *)

Lemma find_block_first (insts : list gk_instance) (queue_id : Z) :
  (exists inst, inst ∈ insts /\ rx_queue_front inst = queue_id) ->
  forall k,
    exists i inst,
      find_block insts queue_id k = k + Z.of_nat i
      /\ insts !! i = Some inst
      /\ rx_queue_front inst = queue_id
      /\ forall j other, (j < i)%nat -> insts !! j = Some other ->
                         rx_queue_front other <> queue_id.
Proof.
  induction insts as [| inst rest IH]; intros (x & Hin & Hx) k.
  - apply elem_of_nil in Hin. contradiction.
  - cbn [find_block].
    destruct (Z.eqb_spec (rx_queue_front inst) queue_id) as [Heq | Hne].
    + exists 0%nat, inst. split; [lia |]. split; [reflexivity |].
      split; [exact Heq |]. intros j other Hj. lia.
    + apply elem_of_cons in Hin as [-> | Hin]; [contradiction |].
      destruct (IH (ex_intro _ x (conj Hin Hx)) (k + 1))
        as (i & y & Hf & Hl & Hq & Hfirst).
      exists (S i), y. split; [lia |]. split; [exact Hl |].
      split; [exact Hq |].
      intros j other Hj Hl'. destruct j as [| j'].
      * cbn in Hl'. injection Hl' as <-. exact Hne.
      * cbn in Hl'. apply (Hfirst j'); [lia | exact Hl'].
Qed.

(** X12.  [get_responsible_gk_mailbox] panics unless the redirection
    table has 128 entries; with 128 entries and at least one instance
    whose front RX queue is the queue the table gives for the flow, it
    logs nothing and returns the mailbox of the first such instance, at an
    index inside the array. *)
Theorem X12_responsible_block_found
    (fl : ip_flow) (gk_conf : gk_config) (w : world) :
  (reta_size (rss_conf gk_conf) <> 128 ->
   get_responsible_gk_mailbox fl gk_conf w = (None, w))
  /\ (reta_size (rss_conf gk_conf) = 128 ->
      let rss_hash_val := Z.land (u32 (rss_ip_flow_hf fl)) 127 in
      let queue_id :=
        reta_conf (rss_conf gk_conf)
          (rss_hash_val / RTE_RETA_GROUP_SIZE)
          (rss_hash_val mod RTE_RETA_GROUP_SIZE) in
      (exists inst, inst ∈ instances gk_conf
                    /\ rx_queue_front inst = queue_id) ->
      exists i inst,
        get_responsible_gk_mailbox fl gk_conf w
        = (Some (Instance_mailbox (Z.of_nat i)), w)
        /\ instances gk_conf !! i = Some inst
        /\ rx_queue_front inst = queue_id
        /\ 0 <= Z.of_nat i < num_lcores gk_conf
        /\ forall j other, (j < i)%nat ->
             instances gk_conf !! j = Some other ->
             rx_queue_front other <> queue_id).
Proof.
  split.
  - intros Hsize. unfold get_responsible_gk_mailbox.
    destruct (Z.eqb_spec (reta_size (rss_conf gk_conf)) 128);
      [contradiction | reflexivity].
  - intros Hsize rss_hash_val queue_id Hsome.
    destruct (find_block_first (instances gk_conf) queue_id Hsome 0)
      as (i & inst & Hf & Hl & Hq & Hfirst).
    exists i, inst. split; [| split; [exact Hl | split; [exact Hq |]]].
    + unfold get_responsible_gk_mailbox. rewrite Hsize.
      cbn [Z.eqb Pos.eqb negb]. fold rss_hash_val. fold queue_id.
      rewrite Hf. rewrite Z.add_0_l.
      destruct (Z.eqb_spec (Z.of_nat i) (-1)) as [Hm | _]; [lia |].
      run. reflexivity.
    + split; [| exact Hfirst].
      unfold num_lcores. apply lookup_lt_Some in Hl. lia.
Qed.

(** ** A policy and the packets that follow it *)

(** The body of the loop over the burst on a buffer whose flow is in the
    table. *)
Lemma gk_process_rx_found (netc : net_config) (inst : gk_instance)
    (p : rte_mbuf) (fl : ip_flow) (l nh : Z) (idx : nat) (fe : flow_entry)
    (w : world) :
  parse_headers p = Some (fl, l, nh) ->
  pkt_is_nd (Ipacket fl l nh p) (front netc) = false ->
  h_keys (ip_flow_hash_table inst) !! fl = Some idx ->
  ip_flow_entry_table inst !! idx = Some fe ->
  gk_process_rx netc inst p w =
    (let '((ret, fe'), w') := gk_process_entry fe (Ipacket fl l nh p) w in
     let inst' :=
       set_tables inst (ip_flow_hash_table inst)
         (<[idx := fe']> (ip_flow_entry_table inst)) in
     if ret <? 0
     then ((inst', None),
           World (tsc w') (ticks w') (trace w' ++ [Pktmbuf_free p])
             (lls_conf w'))
     else ((inst', Some p), w')).
Proof.
  intros Hparse Hnd Hk Hfe. unfold gk_process_rx, gk_process_entry.
  rewrite (extract_packet_info_parsed p fl l nh Hparse), Hnd.
  cbn [flow pkt]. unfold rte_hash_lookup_with_hash. rewrite Hk. run.
  destruct (Z.ltb_spec (Z.of_nat idx) 0) as [Hneg | _]; [lia |].
  rewrite Nat2Z.id, Hfe.
  destruct (state fe);
    match goal with
    | |- context [let '(_, _) := ?x in _] => destruct x as [[ret' fe'] w']
    end; destruct (ret' <? 0); try reflexivity; destruct w'; reflexivity.
Qed.

Lemma set_same_entry (inst : gk_instance) (idx : nat) (fe : flow_entry) :
  ip_flow_entry_table inst !! idx = Some fe ->
  set_tables inst (ip_flow_hash_table inst)
    (<[idx := fe]> (ip_flow_entry_table inst)) = inst.
Proof.
  intros H. unfold set_tables. rewrite list_insert_id by exact H.
  destruct inst; reflexivity.
Qed.

(** X13.  Once a DECLINED policy is installed for a flow, a packet of the
    flow that arrives before [expire_sec * cycles_per_sec] cycles have
    passed since the installation is dropped and leaves the instance as
    it is; a packet that arrives later finds the entry re-initialized to
    REQUEST and is encapsulated as a request. *)
Theorem X13_declined_until_expiry
    (netc : net_config) (inst : gk_instance) (p : rte_mbuf)
    (fl : ip_flow) (l nh : Z) (expire_sec : Z) (i : nat) (w : world) :
  instance_wf inst ->
  parse_headers p = Some (fl, l, nh) ->
  pkt_is_nd (Ipacket fl l nh p) (front netc) = false ->
  let res := add_ggu_policy (GguPolicy fl (Decision_declined expire_sec))
               inst w in
  h_keys (ip_flow_hash_table res.1) !! fl = Some i ->
  let installed := reading w 0 in
  let now := reading res.2 0 in
  0 <= expire_sec * cycles_per_sec ->
  installed + expire_sec * cycles_per_sec < 2 ^ 64 ->
  (now < installed + expire_sec * cycles_per_sec ->
   gk_process_rx netc res.1 p res.2 =
     ((res.1, Some p),
      World (tsc res.2) (S (ticks res.2)) (trace res.2 ++ [Pktmbuf_free p])
        (lls_conf res.2)))
  /\ (installed + expire_sec * cycles_per_sec <= now ->
      exists inst' sent w' fl' r dscp logs,
        gk_process_rx netc res.1 p res.2 = ((inst', sent), w')
        /\ ip_flow_entry_table inst' !! i = Some (FlowEntry fl' (Request r))
        /\ last_packet_seen_at r = reading res.2 1
        /\ trace w' = trace res.2 ++ logs
        /\ encapsulated logs = [(p, dscp)]).
Proof.
  intros Hwf Hparse Hnd res Hi installed now Hpos Hfit.
  destruct (add_ggu_policy_run (GguPolicy fl (Decision_declined expire_sec))
              inst w Hwf) as (Hwf1 & _ & _ & Hent).
  fold res in Hwf1, Hent. cbn [policy_flow decision] in Hent.
  destruct (Hent i Hi) as (fe0 & w0 & Hfe).
  cbn [apply_decision] in Hfe. run. cbn [fst] in Hfe.
  pose proof (u64_range (tsc w (ticks w))) as Hn0.
  assert (Hinst : installed = u64 (tsc w (ticks w))).
  { unfold installed, reading. rewrite Nat.add_0_r. reflexivity. }
  rewrite <- Hinst in Hfe, Hn0.
  rewrite (u64_small (expire_sec * cycles_per_sec)) in Hfe by lia.
  rewrite (u64_small (installed + expire_sec * cycles_per_sec)) in Hfe
    by lia.
  assert (Hnow : now = u64 (tsc res.2 (ticks res.2))).
  { unfold now, reading. rewrite Nat.add_0_r. reflexivity. }
  unfold set_declined in Hfe.
  rewrite (gk_process_rx_found netc res.1 p fl l nh i _ res.2
             Hparse Hnd Hi Hfe).
  unfold gk_process_entry, state. cbn [u].
  unfold gk_process_declined, drop_packet. run.
  unfold u_declined. cbn [u expire_at]. rewrite <- Hnow.
  split.
  - intros Hlt.
    destruct (Z.leb_spec (installed + expire_sec * cycles_per_sec) now)
      as [Hle | _]; [lia |].
    cbn [Z.ltb Z.compare pkt]. rewrite (set_same_entry _ _ _ Hfe).
    reflexivity.
  - intros Hle.
    destruct (Z.leb_spec (installed + expire_sec * cycles_per_sec) now)
      as [_ | Hlt]; [| lia].
    rewrite gk_process_request_run.
    cbn [u_request reinitialize_flow_entry set_request u fe_flow pkt
         tsc ticks trace lls_conf last_packet_seen_at last_priority
         allowance grantor_id].
    match goal with
    | |- context [allowance_rule ?a ?b] =>
        pose proof (allowance_rule_seen_at a b) as Hseen;
        destruct (allowance_rule a b) as [r' p'] eqn:Hrule
    end.
    cbn [fst snd last_packet_seen_at] in *.
    assert (Hlen : (i < length (ip_flow_entry_table res.1))%nat).
    { apply lookup_lt_is_Some. eauto. }
    set (status := encapsulate_status p (dscp_of_priority p')).
    destruct (Z.ltb_spec status 0) as [Hs | Hs].
    + rewrite (proj2 (Z.ltb_lt _ _) Hs).
      eexists _, _, _, _, _, _, _. split; [reflexivity |].
      cbn [set_tables ip_flow_entry_table trace].
      split; [apply list_lookup_insert_eq; exact Hlen |].
      split; [rewrite Hseen; unfold reading; rewrite Nat.add_1_r;
              reflexivity |].
      split; [rewrite <- app_assoc; reflexivity |].
      rewrite !encapsulated_app.
      match goal with
      | |- context [if ?b then [Log _] else []] => destruct b
      end; reflexivity.
    + change (0 <? 0) with false. cbv iota.
      eexists _, _, _, _, _, _, _. split; [reflexivity |].
      cbn [set_tables ip_flow_entry_table trace].
      split; [apply list_lookup_insert_eq; exact Hlen |].
      split; [rewrite Hseen; unfold reading; rewrite Nat.add_1_r;
              reflexivity |].
      split; [reflexivity |].
      rewrite !encapsulated_app.
      match goal with
      | |- context [if ?b then [Log _] else []] => destruct b
      end; reflexivity.
Qed.

(** X14.  Once a GRANTED policy is installed for a flow with a rate
    [tx_rate_kb_sec] whose product with 1024 the [int] type holds
    ([tx_rate_kb_sec * 1024 <= INT_MAX]) and with an expiry that does not
    wrap the 64-bit clock, a packet of the flow that arrives while the
    capability is valid and is no longer than [tx_rate_kb_sec * 1024]
    bytes is accepted: it is encapsulated with DSCP 1 or 2 and the budget
    left is [tx_rate_kb_sec * 1024] minus its length, whether or not the
    budget has been renewed in between.  [add_ggu_policy] does not check
    the rate: for a larger or a negative one the product is not the
    budget, and nothing is said here. *)
Theorem X14_granted_first_packet
    (netc : net_config) (inst : gk_instance) (p : rte_mbuf)
    (fl : ip_flow) (l nh : Z)
    (tx_rate_kb_sec cap_expire_sec next_renewal_ms renewal_step_ms : Z)
    (i : nat) (w : world) :
  instance_wf inst ->
  parse_headers p = Some (fl, l, nh) ->
  pkt_is_nd (Ipacket fl l nh p) (front netc) = false ->
  let res :=
    add_ggu_policy
      (GguPolicy fl (Decision_granted tx_rate_kb_sec cap_expire_sec
                       next_renewal_ms renewal_step_ms)) inst w in
  h_keys (ip_flow_hash_table res.1) !! fl = Some i ->
  let installed := reading w 0 in
  let now := reading res.2 0 in
  let rate := s32 tx_rate_kb_sec in
  rate * 1024 <= INT_MAX ->
  0 <= cap_expire_sec * cycles_per_sec ->
  installed + cap_expire_sec * cycles_per_sec < 2 ^ 64 ->
  now < installed + cap_expire_sec * cycles_per_sec ->
  0 <= data_len p <= rate * 1024 ->
  exists inst' sent w' fl' g' dscp,
    gk_process_rx netc res.1 p res.2 = ((inst', sent), w')
    /\ ip_flow_entry_table inst' !! i = Some (FlowEntry fl' (Granted g'))
    /\ budget_byte g' = rate * 1024 - data_len p
    /\ tx_rate_kb_cycle g' = rate
    /\ (exists rest, trace w' = trace res.2 ++ Encapsulate p dscp :: rest
                     /\ encapsulated rest = [])
    /\ (dscp = 1 \/ dscp = 2).
Proof.
  intros Hwf Hparse Hnd res Hi installed now rate Hmax Hpos Hfit Hvalid Hlen.
  destruct (add_ggu_policy_run
              (GguPolicy fl (Decision_granted tx_rate_kb_sec cap_expire_sec
                               next_renewal_ms renewal_step_ms))
              inst w Hwf) as (Hwf1 & _ & _ & Hent).
  fold res in Hwf1, Hent. cbn [policy_flow decision] in Hent.
  destruct (Hent i Hi) as (fe0 & w0 & Hfe).
  cbn [apply_decision] in Hfe. run. cbn [fst] in Hfe.
  pose proof (u64_range (tsc w (ticks w))) as Hn0.
  assert (Hinst : installed = u64 (tsc w (ticks w))).
  { unfold installed, reading. rewrite Nat.add_0_r. reflexivity. }
  rewrite <- Hinst in Hfe, Hn0. fold rate in Hfe.
  rewrite (u64_small (cap_expire_sec * cycles_per_sec)) in Hfe by lia.
  rewrite (u64_small (installed + cap_expire_sec * cycles_per_sec)) in Hfe
    by lia.
  unfold INT_MAX in Hmax.
  rewrite (s32_small (rate * 1024)) in Hfe by lia.
  assert (Hnow : now = u64 (tsc res.2 (ticks res.2))).
  { unfold now, reading. rewrite Nat.add_0_r. reflexivity. }
  unfold set_granted in Hfe.
  rewrite (gk_process_rx_found netc res.1 p fl l nh i _ res.2
             Hparse Hnd Hi Hfe).
  unfold gk_process_entry, state. cbn [u].
  match type of Hfe with
  | _ = Some (FlowEntry ?f (Granted ?g)) =>
      pose proof (gk_process_granted_run (FlowEntry f (Granted g)) g
                    (Ipacket fl l nh p) res.2 eq_refl) as Hrun
  end.
  cbn zeta in Hrun. cbn [cap_expire_at budget_renew_at tx_rate_kb_cycle
                         budget_byte pkt] in Hrun.
  rewrite <- Hnow in Hrun. specialize (Hrun Hvalid).
  rewrite (s32_small (rate * 1024)) in Hrun by lia.
  replace (if u64 (installed + cycle_from_second 1) <=? now
           then rate * 1024 else rate * 1024)
    with (rate * 1024) in Hrun
    by (destruct (u64 (installed + cycle_from_second 1) <=? now);
        reflexivity).
  destruct (Z.ltb_spec (rate * 1024) (data_len p)) as [Hover | _]; [lia |].
  rewrite (s32_small (rate * 1024 - data_len p)) in Hrun by lia.
  rewrite Hrun.
  assert (Hlt : (i < length (ip_flow_entry_table res.1))%nat).
  { apply lookup_lt_is_Some. eauto. }
  match goal with
  | |- context [Encapsulate p ?d] => set (dscp := d)
  end.
  assert (Hd : dscp = 1 \/ dscp = 2).
  { subst dscp. destruct (_ <=? _); [right | left]; reflexivity. }
  set (status := encapsulate_status p dscp).
  destruct (Z.ltb_spec status 0) as [Hs | Hs].
  - rewrite (proj2 (Z.ltb_lt _ _) Hs).
    eexists _, _, _, _, _, dscp. split; [reflexivity |].
    cbn [set_tables ip_flow_entry_table trace set_granted].
    split; [apply list_lookup_insert_eq; exact Hlt |].
    cbn [budget_byte tx_rate_kb_cycle].
    split; [reflexivity |]. split; [reflexivity |]. split; [| exact Hd].
    exists [Pktmbuf_free p]. rewrite <- app_assoc. split; reflexivity.
  - change (0 <? 0) with false. cbv iota.
    eexists _, _, _, _, _, dscp. split; [reflexivity |].
    cbn [set_tables ip_flow_entry_table trace set_granted].
    split; [apply list_lookup_insert_eq; exact Hlt |].
    cbn [budget_byte tx_rate_kb_cycle].
    split; [reflexivity |]. split; [reflexivity |]. split; [| exact Hd].
    exists []. split; reflexivity.
Qed.

(** ** Start-up and shutdown of the GK blocks *)

Lemma get_block_idx_from_spec (lcores : list Z) (lcore_id : Z) :
  forall k,
    match get_block_idx_from lcores lcore_id k with
    | None => lcore_id ∉ lcores
    | Some i =>
        exists n, i = k + Z.of_nat n
                  /\ lcores !! n = Some lcore_id
                  /\ forall j, (j < n)%nat -> lcores !! j <> Some lcore_id
    end.
Proof.
  induction lcores as [| c rest IH]; intros k; cbn [get_block_idx_from].
  - apply not_elem_of_nil.
  - destruct (Z.eqb_spec c lcore_id) as [-> | Hne].
    + exists 0%nat. split; [lia |]. split; [reflexivity |]. intros j Hj. lia.
    + specialize (IH (k + 1)).
      destruct (get_block_idx_from rest lcore_id (k + 1)) as [i |].
      * destruct IH as (n & -> & Hl & Hfirst). exists (S n).
        split; [lia |]. split; [exact Hl |].
        intros j Hj. destruct j as [| j']; cbn.
        -- congruence.
        -- apply Hfirst. lia.
      * intros Hin. apply elem_of_cons in Hin as [Heq | Hin];
          [congruence | contradiction].
Qed.

Lemma get_block_idx_some (lcores : list Z) (lcore_id : Z) (i : Z) :
  get_block_idx lcores lcore_id = Some i ->
  exists n,
    i = Z.of_nat n
    /\ (n < length lcores)%nat
    /\ lcores !! n = Some lcore_id
    /\ forall j, (j < n)%nat -> lcores !! j <> Some lcore_id.
Proof.
  unfold get_block_idx. intros H.
  pose proof (get_block_idx_from_spec lcores lcore_id 0) as Hs.
  rewrite H in Hs. destruct Hs as (n & -> & Hl & Hfirst).
  exists n. split; [lia |].
  split; [apply lookup_lt_Some in Hl; exact Hl |]. split; assumption.
Qed.

(** X15.  [get_block_idx] panics exactly when the lcore runs no GK block;
    otherwise it returns the first index of [lcores] that holds the
    lcore, an index inside the array. *)
Theorem X15_get_block_idx (lcores : list Z) (lcore_id : Z) :
  (get_block_idx lcores lcore_id = None <-> lcore_id ∉ lcores)
  /\ (forall i,
        get_block_idx lcores lcore_id = Some i ->
        exists n,
          i = Z.of_nat n
          /\ (n < length lcores)%nat
          /\ lcores !! n = Some lcore_id
          /\ forall j, (j < n)%nat -> lcores !! j <> Some lcore_id).
Proof.
  unfold get_block_idx.
  pose proof (get_block_idx_from_spec lcores lcore_id 0) as H.
  destruct (get_block_idx_from lcores lcore_id 0) as [i |].
  - destruct H as (n & -> & Hl & Hfirst). split.
    + split; [discriminate |]. intros Hnot. exfalso. apply Hnot.
      apply list_elem_of_lookup. eauto.
    + intros i' [= <-]. exists n. split; [lia |].
      split; [apply lookup_lt_Some in Hl; exact Hl |]. split; assumption.
  - split; [tauto |]. intros i [=].
Qed.

(** X16.  [setup_gk_instance] touches the instance of its lcore only.  It
    returns 0 exactly when the hash table, the array of entries and the
    mailbox are all created, and the instance then has an empty flow
    table that is well formed, with [flow_ht_size] entries; when it fails
    it returns a negative status, leaves the pointer to the hash table
    null and has released what it had created. *)
Theorem X16_setup_gk_instance
    (lcores : list Z) (lcore_id : Z) (flow_ht_size : nat)
    (hash_ok calloc_ok : bool) (mailbox_ret : Z)
    (insts insts' : list gk_instance_mem) (ret : Z)
    (calls : list setup_call) :
  setup_gk_instance lcores lcore_id flow_ht_size hash_ok calloc_ok
    mailbox_ret insts = Some (ret, insts', calls) ->
  exists block m',
    lcores !! block = Some lcore_id
    /\ insts' = <[block := m']> insts
    /\ insts' !! block = Some m'
    /\ (ret = 0 <-> hash_ok = true /\ calloc_ok = true /\ 0 <= mailbox_ret)
    /\ (ret = 0 ->
        allocated calls = 2
        /\ exists t,
             hash_table_ptr m' = Some (RteHash flow_ht_size ∅)
             /\ entry_table_ptr m' = Some t
             /\ mailbox_ring m' = Some []
             /\ length t = flow_ht_size
             /\ forall rx tx,
                  table_inv (GkInstance (RteHash flow_ht_size ∅) t [] rx tx))
    /\ (ret <> 0 ->
        ret < 0 /\ hash_table_ptr m' = None /\ allocated calls = 0).
Proof.
  unfold setup_gk_instance. intros Hrun.
  destruct (get_block_idx lcores lcore_id) as [i |] eqn:Hidx;
    [| discriminate].
  destruct (get_block_idx_some lcores lcore_id i Hidx)
    as (n & -> & Hn & Hl & _).
  rewrite Nat2Z.id in Hrun.
  destruct (insts !! n) as [m |] eqn:Hm; [| discriminate].
  assert (Hlen : (n < length insts)%nat) by (apply lookup_lt_is_Some; eauto).
  unfold setup_gk_instance_at in Hrun.
  destruct hash_ok, calloc_ok; cbn [negb] in Hrun;
    try destruct (Z.ltb_spec mailbox_ret 0) as [Hneg | Hpos];
    injection Hrun as <- <- <-; eexists n, _;
    (split; [exact Hl |]); (split; [reflexivity |]);
    (split; [apply list_lookup_insert_eq; exact Hlen |]);
    cbn [hash_table_ptr entry_table_ptr mailbox_ring allocated].
  all: try (split; [split; [intros ->; lia | intros (_ & _ & H); lia] |];
            split; [intros ->; lia |];
            intros _; repeat split; lia).
  all: try (split; [split; [intros H; discriminate
                           | intros (H1 & H2 & _); discriminate] |];
            split; [intros H; discriminate |];
            intros _; repeat split; lia).
  split; [split; [intros _; repeat split; lia | reflexivity] |].
  split; [| intros H; contradiction].
  intros _. split; [reflexivity |].
  exists (replicate flow_ht_size zero_flow_entry).
  rewrite length_replicate. repeat split.
  - cbn. rewrite length_replicate. lia.
  - intros k j Hk. cbn in Hk. rewrite lookup_empty in Hk. discriminate.
  - intros k1 k2 j Hk. cbn in Hk. rewrite lookup_empty in Hk. discriminate.
Qed.

Lemma registered_app (stage : nat) (a b : list launch_call) :
  registered stage (a ++ b) = registered stage a + registered stage b.
Proof.
  induction a as [| c a IH]; [reflexivity |].
  destruct c; cbn [app registered]; rewrite IH; lia.
Qed.

Lemma launch_gk_procs_registered (stage3_ret : Z -> Z) (lcores : list Z) :
  forall i,
    let res := launch_gk_procs stage3_ret lcores i in
    registered 1 res.2 = 0
    /\ registered 2 res.2 = 0
    /\ match res.1 with
       | Some ret => ret < 0 /\ registered 3 res.2 = - i
       | None => registered 3 res.2 = Z.of_nat (length lcores)
       end.
Proof.
  induction lcores as [| lcore rest IH]; intros i; cbn [launch_gk_procs].
  - cbn. repeat split; reflexivity.
  - destruct (Z.ltb_spec (stage3_ret lcore) 0) as [Hneg | Hpos].
    + cbn [fst snd registered Nat.eqb andb].
      rewrite (proj2 (Z.ltb_lt _ _) Hneg). cbn [negb andb].
      repeat split; try lia.
    + specialize (IH (i + 1)). cbv zeta in IH.
      destruct (launch_gk_procs stage3_ret rest (i + 1)) as [failed calls].
      cbn [fst snd] in *. destruct IH as (H1 & H2 & H3).
      cbn [registered Nat.eqb andb].
      rewrite (proj2 (Z.ltb_ge _ _) Hpos). cbn [negb].
      split; [exact H1 |]. split; [exact H2 |].
      destruct failed as [ret |].
      * destruct H3 as [Hr H3]. split; [exact Hr | lia].
      * cbn [length]. lia.
Qed.

(** X17.  [run_gk] returns 0 or a negative status.  When it fails nothing
    is left registered at any stage: every launch that succeeded has been
    popped, the [i] launches of stage 3 that preceded the failing one
    included.  When it succeeds with at least one lcore, one function is
    registered at stage 1, one at stage 2 and one per lcore at stage 3;
    without lcores nothing is launched.  Without a network
    configuration, a GK configuration or a back interface it returns -1
    before any launch. *)
Theorem X17_run_gk_unwinds
    (net_conf : option net_config) (gk_lcores : option (list Z))
    (stage1_ret stage2_ret : Z) (stage3_ret : Z -> Z) :
  let res := run_gk net_conf gk_lcores stage1_ret stage2_ret stage3_ret in
  res.1 <= 0
  /\ (res.1 < 0 ->
      forall stage, (1 <= stage <= 3)%nat -> registered stage res.2 = 0)
  /\ (res.1 = 0 ->
      exists netc lcores,
        net_conf = Some netc /\ gk_lcores = Some lcores
        /\ back_iface_enabled netc = true
        /\ last res.2 = Some Rte_atomic32_init
        /\ registered 3 res.2 = Z.of_nat (length lcores)
        /\ registered 1 res.2 = (if length lcores is O then 0 else 1)
        /\ registered 2 res.2 = (if length lcores is O then 0 else 1))
  /\ ((net_conf = None \/ gk_lcores = None
       \/ exists netc, net_conf = Some netc
                       /\ back_iface_enabled netc = false) ->
      res.1 = -1
      /\ forall stage ret, Launch_at_stage stage ret ∉ res.2).
Proof.
  intros res. subst res. unfold run_gk.
  assert (Hstages : forall stage, (1 <= stage <= 3)%nat ->
                      stage = 1%nat \/ stage = 2%nat \/ stage = 3%nat)
    by (intros; lia).
  destruct net_conf as [netc |], gk_lcores as [lcores |];
    try (cbn [fst snd]; split; [lia |]; split;
         [intros _ stage _; reflexivity |]; split; [intros H; lia |];
         intros _; split; [reflexivity |];
         intros stage ret Hin; apply elem_of_nil in Hin; contradiction).
  destruct (back_iface_enabled netc) eqn:Hback; cbn [negb].
  2: { cbn [fst snd]. split; [lia |].
       split; [intros _ stage _; reflexivity |]. split; [intros H; lia |].
       intros _. split; [reflexivity |].
       intros stage ret Hin. apply list_elem_of_singleton in Hin.
       discriminate. }
  assert (Hnot : (Some netc = None \/ Some lcores = None
                  \/ exists n, Some netc = Some n
                               /\ back_iface_enabled n = false) -> False).
  { intros [H | [H | (n & [= <-] & H)]]; congruence. }
  destruct lcores as [| lcore rest].
  - change (Z.of_nat (length (@nil Z)) <=? 0) with true. cbn [fst snd].
    split; [lia |]. split; [intros H; lia |].
    split; [| intros H; destruct (Hnot H)].
    intros _. exists netc, []. repeat split; try reflexivity. exact Hback.
  - replace (Z.of_nat (length (lcore :: rest)) <=? 0) with false
      by (symmetry; apply Z.leb_gt; cbn [length]; lia).
    destruct (Z.ltb_spec stage1_ret 0) as [H1 | H1].
    { cbn [fst snd]. split; [lia |]. split.
      - intros _ stage Hs. cbn [registered].
        rewrite (proj2 (Z.ltb_lt _ _) H1), andb_false_r. reflexivity.
      - split; [intros H; lia | intros H; destruct (Hnot H)]. }
    destruct (Z.ltb_spec stage2_ret 0) as [H2 | H2].
    { cbn [fst snd]. split; [lia |]. split.
      - intros _ stage Hs. cbn [registered].
        rewrite (proj2 (Z.ltb_lt _ _) H2), (proj2 (Z.ltb_ge _ _) H1).
        destruct (Hstages stage Hs) as [-> | [-> | ->]]; reflexivity.
      - split; [intros H; lia | intros H; destruct (Hnot H)]. }
    pose proof (launch_gk_procs_registered stage3_ret (lcore :: rest) 0)
      as Hloop.
    cbv zeta in Hloop.
    destruct (launch_gk_procs stage3_ret (lcore :: rest) 0)
      as [[ret |] calls]; cbn [fst snd] in *;
      destruct Hloop as (R1 & R2 & R3).
    + destruct R3 as [Hr R3]. split; [lia |]. split.
      * intros _ stage Hs. cbn [app registered].
        rewrite !registered_app. cbn [registered].
        rewrite (proj2 (Z.ltb_ge _ _) H1), (proj2 (Z.ltb_ge _ _) H2).
        destruct (Hstages stage Hs) as [-> | [-> | ->]];
          cbn [Nat.eqb andb negb]; lia.
      * split; [intros H; lia | intros H; destruct (Hnot H)].
    + split; [lia |]. split; [intros H; lia |].
      split; [| intros H; destruct (Hnot H)].
      intros _. exists netc, (lcore :: rest).
      split; [reflexivity |]. split; [reflexivity |]. split; [exact Hback |].
      split.
      { rewrite app_assoc. apply last_snoc. }
      cbn [app registered]. rewrite !registered_app. cbn [registered].
      rewrite (proj2 (Z.ltb_ge _ _) H1), (proj2 (Z.ltb_ge _ _) H2).
      cbn [Nat.eqb andb negb length] in *. repeat split; lia.
Qed.

Lemma gk_conf_puts_early (insts : list gk_instance_mem) (k : nat) :
  forall c,
    Z.of_nat k < c < 2 ^ 31 ->
    gk_conf_puts k c insts = (c - Z.of_nat k, []).
Proof.
  induction k as [| k IH]; intros c Hc.
  - cbn [gk_conf_puts]. f_equal. lia.
  - cbn [gk_conf_puts]. unfold gk_conf_put, rte_atomic32_dec_and_test.
    rewrite s32_small by lia.
    destruct (Z.eqb_spec (c - 1) 0) as [H0 | _]; [lia |].
    rewrite IH by lia. cbn [app]. f_equal. lia.
Qed.

(** X18.  With [n] references held on the configuration, the first
    [n - 1] calls of [gk_conf_put] release nothing and the [n]-th runs
    [cleanup_gk], once. *)
Theorem X18_last_put_cleans_up (n : nat) (insts : list gk_instance_mem) :
  (0 < n)%nat ->
  Z.of_nat n < 2 ^ 31 ->
  gk_conf_puts n (Z.of_nat n) insts = (0, cleanup_gk insts)
  /\ forall k, (k < n)%nat ->
       gk_conf_puts k (Z.of_nat n) insts = (Z.of_nat n - Z.of_nat k, []).
Proof.
  intros Hpos Hmax. split.
  - destruct n as [| m]; [lia |].
    cbn [gk_conf_puts]. unfold gk_conf_put, rte_atomic32_dec_and_test.
    rewrite s32_small by lia.
    replace (Z.of_nat (S m) - 1) with (Z.of_nat m) by lia.
    clear Hpos. revert Hmax. induction m as [| m IH]; intros Hmax.
    + change (Z.of_nat 0) with 0. change (0 =? 0) with true. cbv iota beta.
      cbn [gk_conf_puts]. rewrite app_nil_r. reflexivity.
    + destruct (Z.eqb_spec (Z.of_nat (S m)) 0) as [H0 | _]; [lia |].
      cbn [gk_conf_puts]. unfold gk_conf_put, rte_atomic32_dec_and_test.
      rewrite s32_small by lia.
      replace (Z.of_nat (S m) - 1) with (Z.of_nat m) by lia.
      specialize (IH ltac:(lia)).
      destruct (Z.of_nat m =? 0);
        destruct (gk_conf_puts m (Z.of_nat m) insts) as [c calls];
        cbn [app] in *; exact IH.
  - intros k Hk. apply gk_conf_puts_early. lia.
Qed.

Lemma cleanup_instances_blocks (insts : list gk_instance_mem) :
  forall k c,
    c ∈ cleanup_instances k insts ->
    exists b m,
      (k <= b)%nat /\ insts !! (b - k)%nat = Some m
      /\ ((c = Rte_hash_free b /\ is_Some (hash_table_ptr m))
          \/ (c = Rte_free (Entry_table b) /\ is_Some (entry_table_ptr m))
          \/ c = Destroy_mailbox b).
Proof.
  induction insts as [| m rest IH]; intros k c Hin; cbn [cleanup_instances] in Hin.
  - apply elem_of_nil in Hin. contradiction.
  - rewrite !elem_of_app in Hin.
    destruct Hin as [Hin | [Hin | [Hin | Hin]]].
    + destruct (hash_table_ptr m) eqn:Hh;
        [| apply elem_of_nil in Hin; contradiction].
      apply list_elem_of_singleton in Hin. subst c. exists k, m.
      rewrite Nat.sub_diag. split; [lia |]. split; [reflexivity |].
      left. rewrite Hh. eauto.
    + destruct (entry_table_ptr m) eqn:He;
        [| apply elem_of_nil in Hin; contradiction].
      apply list_elem_of_singleton in Hin. subst c. exists k, m.
      rewrite Nat.sub_diag. split; [lia |]. split; [reflexivity |].
      right. left. rewrite He. eauto.
    + apply list_elem_of_singleton in Hin. subst c. exists k, m.
      rewrite Nat.sub_diag. split; [lia |]. split; [reflexivity |].
      right. right. reflexivity.
    + destruct (IH (S k) c Hin) as (b & m' & Hb & Hl & Hc).
      exists b, m'. split; [lia |]. split; [| exact Hc].
      replace (b - k)%nat with (S (b - S k)) by lia. exact Hl.
Qed.

Lemma cleanup_instances_complete (insts : list gk_instance_mem) :
  forall k j m,
    insts !! j = Some m ->
    Destroy_mailbox (k + j) ∈ cleanup_instances k insts
    /\ (is_Some (hash_table_ptr m) ->
        Rte_hash_free (k + j) ∈ cleanup_instances k insts)
    /\ (is_Some (entry_table_ptr m) ->
        Rte_free (Entry_table (k + j)) ∈ cleanup_instances k insts).
Proof.
  induction insts as [| m0 rest IH]; intros k j m Hl; [discriminate |].
  cbn [cleanup_instances]. rewrite !elem_of_app.
  destruct j as [| j'].
  - cbn in Hl. injection Hl as ->. rewrite Nat.add_0_r.
    split; [right; right; left; apply list_elem_of_singleton; reflexivity |].
    split.
    + intros [h Hh]. left. rewrite Hh. apply list_elem_of_singleton.
      reflexivity.
    + intros [t Ht]. right. left. rewrite Ht.
      apply list_elem_of_singleton. reflexivity.
  - cbn in Hl. destruct (IH (S k) j' m Hl) as (H1 & H2 & H3).
    replace (k + S j')%nat with (S k + j')%nat by lia.
    split; [right; right; right; exact H1 |]. split.
    + intros H. right; right; right. exact (H2 H).
    + intros H. right; right; right. exact (H3 H).
Qed.

Lemma cleanup_instances_NoDup (insts : list gk_instance_mem) :
  forall k, NoDup (cleanup_instances k insts).
Proof.
  induction insts as [| m rest IH]; intros k; cbn [cleanup_instances].
  - apply NoDup_nil_2.
  - assert (Hfar : forall c, c ∈ cleanup_instances (S k) rest ->
                     c <> Rte_hash_free k /\ c <> Rte_free (Entry_table k)
                     /\ c <> Destroy_mailbox k).
    { intros c Hc.
      destruct (cleanup_instances_blocks rest (S k) c Hc)
        as (b & m' & Hb & _ & [[-> _] | [[-> _] | ->]]);
        repeat split; intros [=]; lia. }
    apply NoDup_app. split; [| split].
    + destruct (hash_table_ptr m); [apply NoDup_singleton | apply NoDup_nil_2].
    + intros c Hc Hin.
      destruct (hash_table_ptr m);
        [| apply elem_of_nil in Hc; contradiction].
      apply list_elem_of_singleton in Hc. subst c.
      rewrite !elem_of_app in Hin. destruct Hin as [Hin | [Hin | Hin]].
      * destruct (entry_table_ptr m);
          [apply list_elem_of_singleton in Hin; discriminate
          | apply elem_of_nil in Hin; contradiction].
      * apply list_elem_of_singleton in Hin. discriminate.
      * destruct (Hfar _ Hin) as (H & _). congruence.
    + apply NoDup_app. split; [| split].
      * destruct (entry_table_ptr m);
          [apply NoDup_singleton | apply NoDup_nil_2].
      * intros c Hc Hin.
        destruct (entry_table_ptr m);
          [| apply elem_of_nil in Hc; contradiction].
        apply list_elem_of_singleton in Hc. subst c.
        rewrite !elem_of_app in Hin. destruct Hin as [Hin | Hin].
        -- apply list_elem_of_singleton in Hin. discriminate.
        -- destruct (Hfar _ Hin) as (_ & H & _). congruence.
      * apply NoDup_app. split; [apply NoDup_singleton | split; [| apply IH]].
        intros c Hc Hin. apply list_elem_of_singleton in Hc. subst c.
        destruct (Hfar _ Hin) as (_ & _ & H). congruence.
Qed.

(** X19.  [cleanup_gk] releases every hash table and every array of
    entries whose pointer is not null, each once, and nothing through a
    null pointer; it calls [destroy_mailbox] once for every instance,
    whether or not its mailbox was initialised; it ends with the release
    of the two arrays and of the configuration. *)
Theorem X19_cleanup_gk (insts : list gk_instance_mem) :
  NoDup (cleanup_gk insts)
  /\ (forall b,
        Rte_hash_free b ∈ cleanup_gk insts
        <-> exists m, insts !! b = Some m /\ is_Some (hash_table_ptr m))
  /\ (forall b,
        Rte_free (Entry_table b) ∈ cleanup_gk insts
        <-> exists m, insts !! b = Some m /\ is_Some (entry_table_ptr m))
  /\ (forall b,
        Destroy_mailbox b ∈ cleanup_gk insts <-> (b < length insts)%nat)
  /\ drop (length (cleanup_gk insts) - 3) (cleanup_gk insts)
     = [Rte_free Instances_array; Rte_free Lcores_array;
        Rte_free Gk_conf_struct].
Proof.
  unfold cleanup_gk.
  assert (Htail : forall c,
            c ∈ [Rte_free Instances_array; Rte_free Lcores_array;
                 Rte_free Gk_conf_struct] ->
            c = Rte_free Instances_array \/ c = Rte_free Lcores_array
            \/ c = Rte_free Gk_conf_struct).
  { intros c Hc. repeat (apply elem_of_cons in Hc as [-> | Hc]); auto.
    apply elem_of_nil in Hc. contradiction. }
  split; [| split; [| split; [| split]]].
  - apply NoDup_app. split; [apply cleanup_instances_NoDup |]. split.
    + intros c Hc Hin.
      destruct (cleanup_instances_blocks insts 0 c Hc)
        as (b & m & _ & _ & [[-> _] | [[-> _] | ->]]);
        destruct (Htail _ Hin) as [H | [H | H]]; discriminate.
    + repeat (apply NoDup_cons; split;
              [rewrite ?elem_of_cons, ?elem_of_nil; intros H;
               repeat destruct H as [H | H]; try discriminate; exact H |]).
      apply NoDup_nil_2.
  - intros b. rewrite elem_of_app. split.
    + intros [Hin | Hin].
      * destruct (cleanup_instances_blocks insts 0 _ Hin)
          as (b' & m & _ & Hl & [[[= <-] Hs] | [[[=] _] | [=]]]).
        rewrite Nat.sub_0_r in Hl. eauto.
      * destruct (Htail _ Hin) as [H | [H | H]]; discriminate.
    + intros (m & Hl & Hs). left.
      exact (proj1 (proj2 (cleanup_instances_complete insts 0 b m Hl)) Hs).
  - intros b. rewrite elem_of_app. split.
    + intros [Hin | Hin].
      * destruct (cleanup_instances_blocks insts 0 _ Hin)
          as (b' & m & _ & Hl & [[[=] _] | [[[= <-] Hs] | [=]]]).
        rewrite Nat.sub_0_r in Hl. eauto.
      * destruct (Htail _ Hin) as [H | [H | H]]; discriminate.
    + intros (m & Hl & Hs). left.
      exact (proj2 (proj2 (cleanup_instances_complete insts 0 b m Hl)) Hs).
  - intros b. rewrite elem_of_app. split.
    + intros [Hin | Hin].
      * destruct (cleanup_instances_blocks insts 0 _ Hin)
          as (b' & m & _ & Hl & [[[=] _] | [[[=] _] | [= <-]]]).
        rewrite Nat.sub_0_r in Hl. apply lookup_lt_Some in Hl. exact Hl.
      * destruct (Htail _ Hin) as [H | [H | H]]; discriminate.
    + intros Hb. left.
      destruct (lookup_lt_is_Some_2 insts b Hb) as [m Hl].
      exact (proj1 (cleanup_instances_complete insts 0 b m Hl)).
  - rewrite length_app. cbn [length].
    replace (length (cleanup_instances 0 insts) + 3 - 3)%nat
      with (length (cleanup_instances 0 insts)) by lia.
    apply drop_app_length.
Qed.

(** ** The LLS block *)

(** One received buffer: it is freed unless ARP or ND processing keeps
    it. *)
Lemma process_pkt_run (c : lls_config) (ifr : iface_ref) (tx_queue : Z)
    (buf : rte_mbuf) (w : world) :
  (forall i q b, frees_nothing (process_arp i q b)) ->
  (forall i b, frees_nothing (process_nd i b)) ->
  let res := process_pkt c ifr tx_queue buf w in
  (exists ext,
     trace res.2 = trace w ++ ext
     /\ freed ext = (if lls_keeps res.1 then [] else [buf]))
  /\ match res.1 with
     | Not_processed => True
     | Arp_processed ret =>
         for_this_interface (iface_of (net c) ifr) buf = true
         /\ eth_ether_type buf = ETHER_TYPE_ARP
         /\ ret = (process_arp ifr tx_queue buf w).1
     | Nd_processed ret =>
         ifr = Back
         /\ for_this_interface (iface_of (net c) ifr) buf = true
         /\ eth_ether_type buf = ETHER_TYPE_IPv6
         /\ (exists packet,
               extract_packet_info buf = Some packet
               /\ pkt_is_nd packet (back (net c)) = true)
         /\ ret = (process_nd ifr buf w).1
     end.
Proof.
  intros Harp Hnd. cbv zeta.
  unfold process_pkt, for_this_interface. run.
  assert (Hfree : exists ext,
            trace w ++ [Pktmbuf_free buf] = trace w ++ ext
            /\ freed ext = [buf]).
  { exists [Pktmbuf_free buf]. split; reflexivity. }
  assert (Hlog : forall msg, exists ext,
            (trace w ++ [Log msg]) ++ [Pktmbuf_free buf] = trace w ++ ext
            /\ freed ext = [buf]).
  { intros msg. exists [Log msg; Pktmbuf_free buf].
    rewrite <- app_assoc. split; reflexivity. }
  destruct (eth_d_addr buf =? BROADCAST_ETHER_ADDR);
    destruct (eth_d_addr buf =? if_eth_mc_addr (iface_of (net c) ifr));
    destruct (eth_d_addr buf =? if_ll_eth_mc_addr (iface_of (net c) ifr));
    destruct (eth_d_addr buf =? if_eth_addr (iface_of (net c) ifr));
    cbn [negb andb orb];
    try (cbn [fst snd trace lls_keeps]; split; [exact Hfree | exact I]).
  all: destruct (Z.eqb_spec (eth_ether_type buf) ETHER_TYPE_ARP)
         as [Hty | Hty].
  all: try (destruct (Harp ifr tx_queue buf w) as (e1 & Htr & Hfr);
            destruct (process_arp ifr tx_queue buf w) as [ret w1];
            cbn [fst snd] in *;
            destruct (ret =? -1) eqn:Hret;
            cbn [fst snd trace lls_keeps]; rewrite Hret; cbn [negb];
            (split; [| repeat split; assumption]);
            [ exists (e1 ++ [Pktmbuf_free buf]);
              rewrite Htr, <- app_assoc, freed_app, Hfr;
              split; reflexivity
            | exists e1; split; assumption ]).
  all: destruct (Z.eqb_spec (eth_ether_type buf) ETHER_TYPE_IPv6)
         as [Hv6 | Hv6];
    try (cbn [fst snd trace lls_keeps]; split; [apply Hlog | exact I]).
  all: destruct ifr; cbn [iface_of];
    try (cbn [fst snd trace lls_keeps]; split; [apply Hlog | exact I]).
  all: destruct (extract_packet_info buf) as [packet |] eqn:Hpk;
    try (cbn [fst snd trace lls_keeps]; split; [exact Hfree | exact I]).
  all: destruct (pkt_is_nd packet (back (net c))) eqn:Hnd';
    try (cbn [fst snd trace lls_keeps]; split; [apply Hlog | exact I]).
  all: destruct (Hnd Back buf w) as (e1 & Htr & Hfr);
    destruct (process_nd Back buf w) as [ret w1];
    cbn [fst snd] in *;
    destruct (ret =? -1) eqn:Hret;
    cbn [fst snd trace lls_keeps]; rewrite Hret; cbn [negb];
    (split; [| repeat split; try assumption; try reflexivity;
               exists packet; split; [reflexivity | assumption]]);
    [ exists (e1 ++ [Pktmbuf_free buf]);
      rewrite Htr, <- app_assoc, freed_app, Hfr; split; reflexivity
    | exists e1; split; assumption ].
Qed.

(** X20.  Provided [process_arp] and [process_nd] free no buffer
    themselves, the buffers freed while the LLS block handles a received
    burst are exactly, in the order of arrival, those that were not
    handed to ARP or ND processing and those for which the processing
    returned -1.  A buffer is handed to [process_arp] only when its
    destination address is the broadcast address or one of the three
    addresses of the interface and it is an ARP frame, and to
    [process_nd] only when moreover it was received on the back
    interface and is an IPv6 packet that [pkt_is_nd] accepts; no ND
    processing is started for a frame received on the front
    interface. *)
Theorem X20_lls_received_buffers
    (c : lls_config) (ifr : iface_ref) (tx_queue : Z)
    (bufs : list rte_mbuf) :
  (forall i q b, frees_nothing (process_arp i q b)) ->
  (forall i b, frees_nothing (process_nd i b)) ->
  forall w,
    let res := process_pkts c ifr tx_queue bufs w in
    length res.1 = length bufs
    /\ (exists ext,
          trace res.2 = trace w ++ ext
          /\ freed ext =
               map fst (List.filter (fun bo => negb (lls_keeps bo.2))
                          (zip bufs res.1)))
    /\ (forall j buf o,
          bufs !! j = Some buf -> res.1 !! j = Some o ->
          match o with
          | Not_processed => True
          | Arp_processed _ =>
              for_this_interface (iface_of (net c) ifr) buf = true
              /\ eth_ether_type buf = ETHER_TYPE_ARP
          | Nd_processed _ =>
              ifr = Back
              /\ for_this_interface (iface_of (net c) ifr) buf = true
              /\ eth_ether_type buf = ETHER_TYPE_IPv6
              /\ exists packet,
                   extract_packet_info buf = Some packet
                   /\ pkt_is_nd packet (back (net c)) = true
          end).
Proof.
  intros Harp Hnd.
  induction bufs as [| buf rest IH]; intros w; cbv zeta.
  - cbn. split; [reflexivity |]. split.
    + exists []. rewrite app_nil_r. split; reflexivity.
    + intros j buf o Hj. discriminate Hj.
  - cbn [process_pkts]. run.
    pose proof (process_pkt_run c ifr tx_queue buf w Harp Hnd) as Hone.
    cbv zeta in Hone.
    destruct (process_pkt c ifr tx_queue buf w) as [o w1].
    cbn [fst snd] in Hone.
    destruct Hone as [(e1 & Htr1 & Hfr1) Hshape].
    specialize (IH w1). cbv zeta in IH.
    destruct (process_pkts c ifr tx_queue rest w1) as [os w2].
    cbn [fst snd] in *.
    destruct IH as (Hlen & (e2 & Htr2 & Hfr2) & Hrest).
    split; [cbn [length]; rewrite Hlen; reflexivity |]. split.
    + exists (e1 ++ e2). split.
      * rewrite Htr2, Htr1, app_assoc. reflexivity.
      * rewrite freed_app, Hfr1, Hfr2. cbn [zip zip_with List.filter snd].
        destruct (lls_keeps o); reflexivity.
    + intros j b o' Hj Ho. destruct j as [| j'].
      * cbn in Hj, Ho. injection Hj as <-. injection Ho as <-.
        destruct o as [| ret | ret]; [exact I | |].
        -- destruct Hshape as (H1 & H2 & _). split; [exact H1 | exact H2].
        -- destruct Hshape as (H1 & H2 & H3 & H4 & _).
           split; [exact H1 |]. split; [exact H2 |].
           split; [exact H3 | exact H4].
      * exact (Hrest j' b o' Hj Ho).
Qed.

(** X21.  [assign_lls_queue_ids] asks for the receive and the transmit
    queue of the front interface and, when the back interface is
    enabled, of the back interface, in that order.  It returns 0 exactly
    when every queue asked for is non-negative; the fields then hold the
    results as [uint16_t] values, nothing is logged, and the fields of a
    disabled back interface are left as they were.  Otherwise it returns
    the first negative result and logs once; the fields assigned before
    the failure keep their new values and the others their old ones. *)
Theorem X21_assign_lls_queue_ids
    (get_queue_id : iface_ref -> queue_type -> Z -> Z)
    (back_enabled : bool) (lcore_id : Z) (q : lls_queues) :
  let consulted :=
    [(Front, QUEUE_TYPE_RX); (Front, QUEUE_TYPE_TX)]
    ++ (if back_enabled
        then [(Back, QUEUE_TYPE_RX); (Back, QUEUE_TYPE_TX)] else []) in
  let answer (p : iface_ref * queue_type) :=
    get_queue_id p.1 p.2 lcore_id in
  let field (p : iface_ref * queue_type) (q' : lls_queues) :=
    match p with
    | (Front, QUEUE_TYPE_RX) => lls_rx_queue_front q'
    | (Front, QUEUE_TYPE_TX) => lls_tx_queue_front q'
    | (Back, QUEUE_TYPE_RX) => lls_rx_queue_back q'
    | (Back, QUEUE_TYPE_TX) => lls_tx_queue_back q'
    end in
  let res := assign_lls_queue_ids get_queue_id back_enabled lcore_id q in
  (res.1.1 = 0 <-> forall p, p ∈ consulted -> 0 <= answer p)
  /\ (res.1.1 = 0 ->
        res.2 = []
        /\ (forall p, p ∈ consulted -> field p res.1.2 = u16 (answer p))
        /\ (forall p, p ∉ consulted -> field p res.1.2 = field p q))
  /\ (res.1.1 <> 0 ->
        res.2 = ["lls: cannot assign queues"]
        /\ exists before p after,
             consulted = before ++ p :: after
             /\ res.1.1 = answer p /\ answer p < 0
             /\ (forall p', p' ∈ before ->
                   0 <= answer p'
                   /\ field p' res.1.2 = u16 (answer p'))
             /\ (forall p', p' ∉ before -> field p' res.1.2 = field p' q)).
Proof.
  cbv zeta. unfold assign_lls_queue_ids.
  destruct (Z.ltb_spec (get_queue_id Front QUEUE_TYPE_RX lcore_id) 0)
    as [H1 | H1].
  { cbn [fst snd]. split; [| split].
    - split; [lia |]. intros Hall.
      specialize (Hall (Front, QUEUE_TYPE_RX)). cbn [fst snd] in Hall.
      assert (0 <= get_queue_id Front QUEUE_TYPE_RX lcore_id)
        by (apply Hall; cbn [app]; apply list_elem_of_here).
      lia.
    - lia.
    - intros _. split; [reflexivity |].
      exists [], (Front, QUEUE_TYPE_RX),
        ((Front, QUEUE_TYPE_TX)
         :: (if back_enabled
             then [(Back, QUEUE_TYPE_RX); (Back, QUEUE_TYPE_TX)] else [])).
      cbn [fst snd app].
      split; [reflexivity |]. split; [reflexivity |].
      split; [assumption |]. split.
      + intros p' Hp'. apply elem_of_nil in Hp'. contradiction.
      + intros p' _. reflexivity. }
  cbn [lls_rx_queue_front lls_tx_queue_front lls_rx_queue_back
       lls_tx_queue_back].
  destruct (Z.ltb_spec (get_queue_id Front QUEUE_TYPE_TX lcore_id) 0)
    as [H2 | H2].
  { cbn [fst snd]. split; [| split].
    - split; [lia |]. intros Hall.
      specialize (Hall (Front, QUEUE_TYPE_TX)). cbn [fst snd] in Hall.
      assert (0 <= get_queue_id Front QUEUE_TYPE_TX lcore_id)
        by (apply Hall; cbn [app]; apply list_elem_of_further,
              list_elem_of_here).
      lia.
    - lia.
    - intros _. split; [reflexivity |].
      exists [(Front, QUEUE_TYPE_RX)], (Front, QUEUE_TYPE_TX),
        (if back_enabled
         then [(Back, QUEUE_TYPE_RX); (Back, QUEUE_TYPE_TX)] else []).
      cbn [fst snd app].
      split; [reflexivity |]. split; [reflexivity |].
      split; [assumption |]. split.
      + intros p' Hp'.
        repeat (apply elem_of_cons in Hp' as [-> | Hp'];
                [cbn [fst snd]; split; [assumption | reflexivity] |]).
        apply elem_of_nil in Hp'. contradiction.
      + intros [[] []] Hp'; try reflexivity.
        exfalso. apply Hp'. apply list_elem_of_here. }
  destruct back_enabled.
  2: { cbn [fst snd app]. split; [| split].
       - split; [| reflexivity]. intros _.
         intros p Hp.
         repeat (apply elem_of_cons in Hp as [-> | Hp];
                 [cbn [fst snd]; assumption |]).
         apply elem_of_nil in Hp. contradiction.
       - intros _. split; [reflexivity |]. split.
         + intros p Hp.
           repeat (apply elem_of_cons in Hp as [-> | Hp];
                   [reflexivity |]).
           apply elem_of_nil in Hp. contradiction.
         + intros [[] []] Hp'; try reflexivity; exfalso; apply Hp'.
           * apply list_elem_of_here.
           * apply list_elem_of_further, list_elem_of_here.
       - intros Hne. contradiction. }
  destruct (Z.ltb_spec (get_queue_id Back QUEUE_TYPE_RX lcore_id) 0)
    as [H3 | H3].
  { cbn [fst snd]. split; [| split].
    - split; [lia |]. intros Hall.
      specialize (Hall (Back, QUEUE_TYPE_RX)). cbn [fst snd] in Hall.
      assert (0 <= get_queue_id Back QUEUE_TYPE_RX lcore_id)
        by (apply Hall; cbn [app];
            do 2 apply list_elem_of_further; apply list_elem_of_here).
      lia.
    - lia.
    - intros _. split; [reflexivity |].
      exists [(Front, QUEUE_TYPE_RX); (Front, QUEUE_TYPE_TX)],
        (Back, QUEUE_TYPE_RX), [(Back, QUEUE_TYPE_TX)].
      cbn [fst snd app].
      split; [reflexivity |]. split; [reflexivity |].
      split; [assumption |]. split.
      + intros p' Hp'.
        repeat (apply elem_of_cons in Hp' as [-> | Hp'];
                [cbn [fst snd]; split; [assumption | reflexivity] |]).
        apply elem_of_nil in Hp'. contradiction.
      + intros [[] []] Hp'; try reflexivity; exfalso; apply Hp'.
        * apply list_elem_of_here.
        * apply list_elem_of_further, list_elem_of_here. }
  cbn [lls_rx_queue_front lls_tx_queue_front lls_rx_queue_back
       lls_tx_queue_back].
  destruct (Z.ltb_spec (get_queue_id Back QUEUE_TYPE_TX lcore_id) 0)
    as [H4 | H4].
  { cbn [fst snd]. split; [| split].
    - split; [lia |]. intros Hall.
      specialize (Hall (Back, QUEUE_TYPE_TX)). cbn [fst snd] in Hall.
      assert (0 <= get_queue_id Back QUEUE_TYPE_TX lcore_id)
        by (apply Hall; cbn [app];
            do 3 apply list_elem_of_further; apply list_elem_of_here).
      lia.
    - lia.
    - intros _. split; [reflexivity |].
      exists [(Front, QUEUE_TYPE_RX); (Front, QUEUE_TYPE_TX);
              (Back, QUEUE_TYPE_RX)],
        (Back, QUEUE_TYPE_TX), [].
      cbn [fst snd app].
      split; [reflexivity |]. split; [reflexivity |].
      split; [assumption |]. split.
      + intros p' Hp'.
        repeat (apply elem_of_cons in Hp' as [-> | Hp'];
                [cbn [fst snd]; split; [assumption | reflexivity] |]).
        apply elem_of_nil in Hp'. contradiction.
      + intros [[] []] Hp'; try reflexivity; exfalso; apply Hp'.
        * apply list_elem_of_here.
        * apply list_elem_of_further, list_elem_of_here.
        * do 2 apply list_elem_of_further. apply list_elem_of_here. }
  cbn [fst snd app]. split; [| split].
  - split; [| reflexivity]. intros _.
    intros p Hp.
         repeat (apply elem_of_cons in Hp as [-> | Hp];
                 [cbn [fst snd]; assumption |]).
         apply elem_of_nil in Hp. contradiction.
  - intros _. split; [reflexivity |]. split.
    + intros p Hp.
           repeat (apply elem_of_cons in Hp as [-> | Hp];
                   [reflexivity |]).
           apply elem_of_nil in Hp. contradiction.
    + intros [[] []] Hp'; try reflexivity; exfalso; apply Hp'.
      * apply list_elem_of_here.
      * apply list_elem_of_further, list_elem_of_here.
      * do 2 apply list_elem_of_further. apply list_elem_of_here.
      * do 3 apply list_elem_of_further. apply list_elem_of_here.
  - intros Hne. contradiction.
Qed.


Lemma lls_held_app (r : lls_resource) (l1 l2 : list lls_setup_call) :
  lls_held r (l1 ++ l2) = lls_held r l1 + lls_held r l2.
Proof.
  induction l1 as [| call l1 IH]; cbn [app lls_held]; [reflexivity |].
  rewrite IH. lia.
Qed.

Lemma lls_held_cache_timeouts (r : lls_resource) (cache : lls_cache_ref)
    (netc : net_config) :
  lls_held r (cache_timeouts cache netc) = 0.
Proof.
  unfold cache_timeouts. rewrite lls_held_app.
  destruct cache;
    repeat match goal with
           | |- context [if ?b then _ else _] => destruct b
           end;
    destruct r; reflexivity.
Qed.

(** X22.  [run_lls] returns 0 or a negative status.  When it fails it
    has undone everything it did: no stage keeps a function registered,
    the timer is stopped, and the mailbox and the caches it created are
    destroyed.  When it returns 0, one function is registered at each of
    the three stages, the timer runs, the mailbox exists, and a cache
    exists exactly for each service that is enabled; after [cleanup_lls]
    the timer, the mailbox and both caches are released. *)
Theorem X22_run_lls_unwinds
    (net_conf : option net_config) (conf_ok : bool)
    (stage1_ret stage2_ret stage3_ret timer_ret mailbox_ret : Z)
    (cache_ret : lls_cache_ref -> Z) :
  let res := run_lls net_conf conf_ok stage1_ret stage2_ret stage3_ret
               timer_ret mailbox_ret cache_ret in
  res.1 <= 0
  /\ (res.1 < 0 -> forall r, lls_held r res.2 = 0)
  /\ (res.1 = 0 ->
        exists netc,
          net_conf = Some netc /\ conf_ok = true
          /\ lls_held (Held_stage 1) res.2 = 1
          /\ lls_held (Held_stage 2) res.2 = 1
          /\ lls_held (Held_stage 3) res.2 = 1
          /\ lls_held Held_timer res.2 = 1
          /\ lls_held Held_mailbox res.2 = 1
          /\ lls_held (Held_cache Arp_cache) res.2 =
               (if arp_enabled (LlsConfig netc []) then 1 else 0)
          /\ lls_held (Held_cache Nd_cache) res.2 =
               (if nd_enabled (LlsConfig netc []) then 1 else 0)
          /\ forall r,
               (forall stage, r <> Held_stage stage) ->
               lls_held r (res.2 ++ (cleanup_lls netc).2) = 0).
Proof.
  cbv zeta. unfold run_lls, cleanup_lls.
  destruct net_conf as [netc |];
    [| cbn [fst snd]; split; [lia |]; split;
       [intros _ r; reflexivity | intros H; discriminate H]].
  destruct conf_ok; cbn [negb];
    [| cbn [fst snd]; split; [lia |]; split;
       [intros _ r; reflexivity | intros H; discriminate H]].
  destruct (Z.ltb_spec stage1_ret 0) as [H1 | H1].
  { cbn [fst snd]. split; [lia |]. split; [| lia].
    intros _ r. destruct r as [[| [| [| [| s]]]] | | | []];
      cbn; rewrite ?(proj2 (Z.ltb_lt _ _) H1); reflexivity. }
  destruct (Z.ltb_spec stage2_ret 0) as [H2 | H2].
  { cbn [fst snd]. split; [lia |]. split; [| lia].
    intros _ r. destruct r as [[| [| [| [| s]]]] | | | []];
      cbn; rewrite ?(proj2 (Z.ltb_lt _ _) H2),
             ?(proj2 (Z.ltb_ge _ _) H1); reflexivity. }
  destruct (Z.ltb_spec stage3_ret 0) as [H3 | H3].
  { cbn [fst snd]. split; [lia |]. split; [| lia].
    intros _ r. destruct r as [[| [| [| [| s]]]] | | | []];
      cbn; rewrite ?(proj2 (Z.ltb_lt _ _) H3),
             ?(proj2 (Z.ltb_ge _ _) H1), ?(proj2 (Z.ltb_ge _ _) H2);
      reflexivity. }
  destruct (Z.ltb_spec timer_ret 0) as [H4 | H4].
  { cbn [fst snd]. split; [lia |]. split; [| lia].
    intros _ r. destruct r as [[| [| [| [| s]]]] | | | []];
      cbn; rewrite ?(proj2 (Z.ltb_lt _ _) H4),
             ?(proj2 (Z.ltb_ge _ _) H1), ?(proj2 (Z.ltb_ge _ _) H2),
             ?(proj2 (Z.ltb_ge _ _) H3);
      reflexivity. }
  destruct (Z.ltb_spec mailbox_ret 0) as [H5 | H5].
  { cbn [fst snd]. split; [lia |]. split; [| lia].
    intros _ r. destruct r as [[| [| [| [| s]]]] | | | []];
      cbn; rewrite ?(proj2 (Z.ltb_lt _ _) H5),
             ?(proj2 (Z.ltb_ge _ _) H1), ?(proj2 (Z.ltb_ge _ _) H2),
             ?(proj2 (Z.ltb_ge _ _) H3), ?(proj2 (Z.ltb_ge _ _) H4);
      reflexivity. }
  assert (Hheld : forall r calls,
            lls_held r
              ([Lls_stage (Launch_at_stage 1 stage1_ret)]
               ++ [Lls_stage (Launch_at_stage 2 stage2_ret)]
               ++ [Lls_stage (Launch_at_stage 3 stage3_ret)]
               ++ [Timer_init; Timer_reset timer_ret]
               ++ [Mailbox_init mailbox_ret] ++ [Lls_set_net] ++ calls) =
            match r with
            | Held_stage 1%nat | Held_stage 2%nat | Held_stage 3%nat
            | Held_timer | Held_mailbox => 1
            | _ => 0
            end + lls_held r calls).
  { intros r calls.
    destruct r as [[| [| [| [| s]]]] | | | []];
      cbn; rewrite ?(proj2 (Z.ltb_ge _ _) H1), ?(proj2 (Z.ltb_ge _ _) H2),
             ?(proj2 (Z.ltb_ge _ _) H3), ?(proj2 (Z.ltb_ge _ _) H4),
             ?(proj2 (Z.ltb_ge _ _) H5);
      cbn; lia. }
  assert (Hundo : forall r,
            lls_held r
              [Mailbox_destroy; Timer_stop; Lls_stage (Pop_n_at_stage 3 1);
               Lls_stage (Pop_n_at_stage 2 1);
               Lls_stage (Pop_n_at_stage 1 1)] =
            match r with
            | Held_stage 1%nat | Held_stage 2%nat | Held_stage 3%nat
            | Held_timer | Held_mailbox => -1
            | _ => 0
            end).
  { intros r. destruct r as [[| [| [| [| s]]]] | | | []]; reflexivity. }
  destruct (arp_enabled (LlsConfig netc [])) eqn:Harp;
    [destruct (Z.ltb_spec (cache_ret Arp_cache) 0) as [H6 | H6] |];
    (destruct (nd_enabled (LlsConfig netc [])) eqn:Hnd;
     [destruct (Z.ltb_spec (cache_ret Nd_cache) 0) as [H7 | H7] |]);
    cbn [fst snd]; (split; [lia |]); split.
  all: try (intros Hneg; exfalso; lia).
  all: try (intros Hzero; exfalso; lia).
  all: try (intros _ r; rewrite <- !app_assoc, Hheld;
            rewrite ?lls_held_app, ?Hundo;
            cbn [lls_held app]; rewrite ?lls_held_app,
              ?lls_held_cache_timeouts, ?Hundo;
            destruct r as [[| [| [| [| s]]]] | | | []];
            cbn; rewrite ?(proj2 (Z.ltb_lt _ _) H6),
                   ?(proj2 (Z.ltb_lt _ _) H7),
                   ?(proj2 (Z.ltb_ge _ _) H6);
            reflexivity).
  all: intros _; exists netc; split; [reflexivity |];
    split; [reflexivity |].
  all: rewrite <- !app_assoc, !Hheld.
  all: repeat split.
  all: try (intros r Hr).
  all: rewrite <- ?app_assoc, ?Hheld; cbn [lls_held app];
    rewrite ?lls_held_app, ?lls_held_cache_timeouts; cbn [lls_held app];
    rewrite ?lls_held_app, ?lls_held_cache_timeouts.
  all: try (destruct r as [s | | | []];
            [exfalso; exact (Hr s eq_refl) | | | |]).
  all: cbn; rewrite ?Harp, ?Hnd, ?(proj2 (Z.ltb_ge _ _) H6),
         ?(proj2 (Z.ltb_ge _ _) H7);
    reflexivity.
Qed.


(** ** Stage 1 of the GK blocks *)

Lemma allocated_app (l1 l2 : list setup_call) :
  allocated (l1 ++ l2) = allocated l1 + allocated l2.
Proof.
  induction l1 as [| c l1 IH]; cbn [app allocated]; [reflexivity |].
  destruct c; rewrite IH; lia.
Qed.

(** [setup_gk_instance] for an lcore of the configuration does not
    panic. *)
Lemma setup_gk_instance_total (lcores : list Z) (lcore : Z)
    (flow_ht_size : nat) (hash_ok calloc_ok : bool) (mailbox_ret : Z)
    (insts : list gk_instance_mem) :
  lcore ∈ lcores ->
  length insts = length lcores ->
  exists ret insts' calls block m',
    setup_gk_instance lcores lcore flow_ht_size hash_ok calloc_ok
      mailbox_ret insts = Some (ret, insts', calls)
    /\ lcores !! block = Some lcore
    /\ insts' = <[block := m']> insts
    /\ (ret = 0 \/ ret < 0)
    /\ (ret = 0 <-> hash_ok = true /\ calloc_ok = true /\ 0 <= mailbox_ret)
    /\ (ret = 0 ->
          allocated calls = 2
          /\ m' = GkInstanceMem (Some (RteHash flow_ht_size ∅))
                    (Some (replicate flow_ht_size zero_flow_entry))
                    (Some []))
    /\ (ret < 0 -> allocated calls = 0).
Proof.
  intros Hin Hlen. unfold setup_gk_instance, get_block_idx.
  pose proof (get_block_idx_from_spec lcores lcore 0) as Hs.
  destruct (get_block_idx_from lcores lcore 0) as [i |]; [| contradiction].
  destruct Hs as (n & -> & Hl & Hfirst). rewrite Z.add_0_l, Nat2Z.id.
  assert (Hn : (n < length insts)%nat).
  { rewrite Hlen. apply lookup_lt_Some in Hl. exact Hl. }
  destruct (lookup_lt_is_Some_2 insts n Hn) as [m Hm]. rewrite Hm.
  unfold setup_gk_instance_at.
  destruct hash_ok, calloc_ok; cbn [negb];
    try destruct (Z.ltb_spec mailbox_ret 0) as [Hneg | Hpos];
    eexists _, _, _, n, _;
    (split; [reflexivity |]); (split; [exact Hl |]);
    (split; [reflexivity |]);
    cbn [allocated].
  all: split; [first [left; reflexivity | right; lia] |].
  all: split;
    [split; [intros Hz; first [lia | repeat split; lia]
            | intros (Hh & Hc & Hm'); first [discriminate | lia | reflexivity]]
    |].
  all: split; [intros Hz; first [lia | split; reflexivity]
              | intros Hz; first [lia | reflexivity]].
Qed.


(** The loop of [gk_stage1]: what it leaves when it ends and when an
    iteration fails. *)
Lemma gk_stage1_loop_run
    (get_queue_id : iface_ref -> queue_type -> Z -> Z)
    (lcores : list Z) (flow_ht_size : nat)
    (hash_ok calloc_ok : nat -> bool) (mailbox_ret : nat -> Z) :
  forall todo done ref_cnt insts queues,
    lcores = done ++ todo ->
    length insts = length lcores ->
    length queues = length lcores ->
    exists r,
      gk_stage1_loop get_queue_id lcores flow_ht_size hash_ok calloc_ok
        mailbox_ret (length done) todo ref_cnt insts queues = Some r
      /\ length (s1_insts r) = length lcores
      /\ length (s1_queues r) = length lcores
      /\ (s1_ret r = 0 \/ s1_ret r = -1)
      /\ (s1_ret r = 0 ->
            (forall j, (j < length todo)%nat ->
               stage1_step_ok get_queue_id lcores hash_ok calloc_ok
                 mailbox_ret (length done + j))
            /\ s1_ref_cnt r = ref_cnt /\ s1_logs r = []
            /\ allocated (s1_calls r) = 2 * Z.of_nat (length todo)
            /\ (NoDup lcores ->
                  (forall j, (j < length done)%nat ->
                     s1_insts r !! j = insts !! j
                     /\ s1_queues r !! j = queues !! j)
                  /\ (forall j lcore, todo !! j = Some lcore ->
                        s1_insts r !! (length done + j)%nat =
                          Some (GkInstanceMem
                                  (Some (RteHash flow_ht_size ∅))
                                  (Some (replicate flow_ht_size
                                           zero_flow_entry))
                                  (Some []))
                        /\ s1_queues r !! (length done + j)%nat =
                             Some (u16 (get_queue_id Front QUEUE_TYPE_RX
                                          lcore),
                                   u16 (get_queue_id Back QUEUE_TYPE_TX
                                          lcore)))))
      /\ (s1_ret r = -1 ->
            exists k lcore,
              todo !! k = Some lcore
              /\ (forall j, (j < k)%nat ->
                    stage1_step_ok get_queue_id lcores hash_ok calloc_ok
                      mailbox_ret (length done + j))
              /\ length (s1_logs r) = 1%nat
              /\ (((get_queue_id Front QUEUE_TYPE_RX lcore < 0
                    \/ get_queue_id Back QUEUE_TYPE_TX lcore < 0)
                   /\ s1_ref_cnt r = ref_cnt
                   /\ allocated (s1_calls r) = 2 * Z.of_nat k)
                  \/ (0 <= get_queue_id Front QUEUE_TYPE_RX lcore
                      /\ 0 <= get_queue_id Back QUEUE_TYPE_TX lcore
                      /\ ~ (hash_ok (length done + k)%nat = true
                            /\ calloc_ok (length done + k)%nat = true
                            /\ 0 <= mailbox_ret (length done + k)%nat)
                      /\ s1_ref_cnt r = s32 (ref_cnt - 1)
                      /\ exists pre,
                           s1_calls r =
                             pre ++ (if s32 (ref_cnt - 1) =? 0
                                     then cleanup_gk (s1_insts r) else [])
                           /\ allocated pre = 2 * Z.of_nat k))).
Proof.
  induction todo as [| lcore rest IH];
    intros done ref_cnt insts queues Hl Hi Hq.
  - cbn [gk_stage1_loop]. eexists. split; [reflexivity |].
    cbn [s1_ret s1_insts s1_queues s1_ref_cnt s1_calls s1_logs].
    split; [exact Hi |]. split; [exact Hq |]. split; [left; reflexivity |].
    split.
    + intros _. split; [intros j Hj; cbn [length] in Hj; lia |].
      split; [reflexivity |]. split; [reflexivity |].
      split; [reflexivity |]. intros _. split.
      * intros j _. split; reflexivity.
      * intros j lcore Hj. discriminate Hj.
    + intros H. discriminate H.
  - cbn [gk_stage1_loop].
    assert (Hmid : lcores !! length done = Some lcore).
    { rewrite Hl. apply list_lookup_middle. reflexivity. }
    assert (Hdl : (length done < length lcores)%nat).
    { apply lookup_lt_Some in Hmid. exact Hmid. }
    destruct (Z.ltb_spec (get_queue_id Front QUEUE_TYPE_RX lcore) 0)
      as [H1 | H1].
    { eexists. split; [reflexivity |].
      cbn [s1_ret s1_insts s1_queues s1_ref_cnt s1_calls s1_logs].
      split; [exact Hi |]. split; [exact Hq |].
      split; [right; reflexivity |].
      split; [intros H; discriminate H |]. intros _.
      exists 0%nat, lcore. split; [reflexivity |].
      split; [intros j Hj; lia |]. split; [reflexivity |].
      left. split; [left; exact H1 |]. split; reflexivity. }
    destruct (Z.ltb_spec (get_queue_id Back QUEUE_TYPE_TX lcore) 0)
      as [H2 | H2].
    { eexists. split; [reflexivity |].
      cbn [s1_ret s1_insts s1_queues s1_ref_cnt s1_calls s1_logs].
      split; [exact Hi |]. split; [rewrite length_alter; exact Hq |].
      split; [right; reflexivity |].
      split; [intros H; discriminate H |]. intros _.
      exists 0%nat, lcore. split; [reflexivity |].
      split; [intros j Hj; lia |]. split; [reflexivity |].
      left. split; [right; exact H2 |]. split; reflexivity. }
    destruct (setup_gk_instance_total lcores lcore flow_ht_size
                (hash_ok (length done)) (calloc_ok (length done))
                (mailbox_ret (length done)) insts)
      as (ret & insts' & calls & block & m' & Hrun & Hblock & Hins & Hsign
          & Hiff & Hok & Hfail).
    { apply list_elem_of_lookup. eauto. }
    { exact Hi. }
    rewrite Hrun.
    assert (Hi' : length insts' = length lcores).
    { subst insts'. rewrite length_insert. exact Hi. }
    destruct (Z.ltb_spec ret 0) as [Hneg | Hpos].
    { unfold gk_conf_put, rte_atomic32_dec_and_test. cbv zeta.
      destruct (s32 (ref_cnt - 1) =? 0) eqn:Hz; cbv iota beta;
        (eexists; split; [reflexivity |]);
        cbn [s1_ret s1_insts s1_queues s1_ref_cnt s1_calls s1_logs];
        (split; [exact Hi' |]);
        (split; [rewrite !length_alter; exact Hq |]);
        (split; [right; reflexivity |]);
        (split; [intros H; discriminate H |]); intros _;
        exists 0%nat, lcore; (split; [reflexivity |]);
        (split; [intros j Hj; lia |]); (split; [reflexivity |]);
        right; (split; [exact H1 |]); (split; [exact H2 |]);
        rewrite Nat.add_0_r;
        (split; [intros Hall; apply Hiff in Hall; lia |]);
        (split; [reflexivity |]);
        exists calls; (split; [rewrite ?app_nil_r; reflexivity |]);
        apply Hfail; exact Hneg. }
    assert (Hret : ret = 0) by lia.
    destruct (Hok Hret) as [Halloc Hm']. apply Hiff in Hret as Hstep.
    set (queues' :=
           alter (fun q : Z * Z =>
                    (q.1, u16 (get_queue_id Back QUEUE_TYPE_TX lcore)))
             (length done)
             (alter (fun q : Z * Z =>
                       (u16 (get_queue_id Front QUEUE_TYPE_RX lcore), q.2))
                (length done) queues)).
    assert (Hq' : length queues' = length lcores).
    { unfold queues'. rewrite !length_alter. exact Hq. }
    specialize (IH (done ++ [lcore]) ref_cnt insts' queues').
    rewrite length_app in IH. cbn [length] in IH.
    rewrite Nat.add_1_r in IH.
    destruct IH as (r & Hr & Hri & Hrq & Hrsign & Hr0 & Hr1);
      [rewrite <- app_assoc; exact Hl | exact Hi' | exact Hq' |].
    rewrite Hr. eexists. split; [reflexivity |].
    cbn [s1_ret s1_insts s1_queues s1_ref_cnt s1_calls s1_logs].
    split; [exact Hri |]. split; [exact Hrq |]. split; [exact Hrsign |].
    assert (Hthis : stage1_step_ok get_queue_id lcores hash_ok calloc_ok
                      mailbox_ret (length done + 0)).
    { rewrite Nat.add_0_r. exists lcore. tauto. }
    split.
    + intros Hz. destruct (Hr0 Hz) as (Hsteps & Href & Hlogs & Hall & Hnd).
      split.
      { intros j Hj. destruct j as [| j']; [exact Hthis |].
        replace (length done + S j')%nat with (S (length done) + j')%nat
          by lia.
        apply Hsteps. cbn [length] in Hj. lia. }
      split; [exact Href |]. split; [exact Hlogs |].
      split.
      { rewrite allocated_app, Halloc, Hall. cbn [length]. lia. }
      intros Hnodup. destruct (Hnd Hnodup) as [Hkeep Hnew].
      assert (Hb : block = length done).
      { exact (NoDup_lookup lcores block (length done) lcore Hnodup
                 Hblock Hmid). }
      split.
      { intros j Hj. destruct (Hkeep j) as [Hki Hkq]; [lia |].
        rewrite Hki, Hkq. split.
        - rewrite Hins. apply list_lookup_insert_ne. lia.
        - unfold queues'. rewrite !list_lookup_alter_ne by lia.
          reflexivity. }
      intros j lcore' Hj. destruct j as [| j'].
      { cbn in Hj. injection Hj as <-. rewrite Nat.add_0_r.
        destruct (Hkeep (length done)) as [Hki Hkq]; [lia |].
        rewrite Hki, Hkq. split.
        - rewrite Hins, Hb, <- Hm'. apply list_lookup_insert_eq. lia.
        - unfold queues'. rewrite !list_lookup_alter_eq.
          destruct (lookup_lt_is_Some_2 queues (length done)) as [[a b] Hab].
          { rewrite Hq. apply lookup_lt_Some in Hmid. exact Hmid. }
          rewrite Hab. reflexivity. }
      replace (length done + S j')%nat with (S (length done) + j')%nat
        by lia.
      apply Hnew. exact Hj.
    + intros Hm1.
      destruct (Hr1 Hm1) as (k & lcore' & Hk & Hsteps & Hlogs & Hcase).
      exists (S k), lcore'. split; [exact Hk |].
      split.
      { intros j Hj. destruct j as [| j']; [exact Hthis |].
        replace (length done + S j')%nat with (S (length done) + j')%nat
          by lia.
        apply Hsteps. lia. }
      split; [exact Hlogs |].
      replace (length done + S k)%nat with (S (length done) + k)%nat by lia.
      destruct Hcase as [(Hq0 & Href & Hall)
                        | (Hq1 & Hq2 & Hnot & Href & pre & Hcalls & Hpre)].
      * left. split; [exact Hq0 |]. split; [exact Href |].
        rewrite allocated_app, Halloc, Hall. lia.
      * right. split; [exact Hq1 |]. split; [exact Hq2 |].
        split; [exact Hnot |]. split; [exact Href |].
        exists (calls ++ pre). split.
        -- rewrite Hcalls, app_assoc. reflexivity.
        -- rewrite allocated_app, Halloc, Hpre. lia.
Qed.


(** X23.  [gk_stage1] never panics and returns 0 or -1, whatever the
    status of the call that failed.  It returns 0 exactly when the array
    of instances is allocated and every iteration gets both queues,
    the hash table, the array of entries and the mailbox; then nothing
    is logged, the reference counter is untouched and, the lcores being
    distinct, every instance is set up with an empty flow table and
    holds its two queues as [uint16_t] values.  When a queue cannot be
    assigned in iteration [k], the function returns without releasing
    anything: the hash tables and arrays of the [k] instances set up
    before stay allocated.  When [setup_gk_instance] fails in iteration
    [k], [gk_conf_put] decrements the reference counter, and
    [cleanup_gk] runs only if the counter reaches 0. *)
Theorem X23_gk_stage1
    (get_queue_id : iface_ref -> queue_type -> Z -> Z)
    (lcores : list Z) (flow_ht_size : nat) (instances_ok : bool)
    (hash_ok calloc_ok : nat -> bool) (mailbox_ret : nat -> Z)
    (ref_cnt : Z) :
  exists r,
    gk_stage1 get_queue_id lcores flow_ht_size instances_ok hash_ok
      calloc_ok mailbox_ret ref_cnt = Some r
    /\ (s1_ret r = 0 \/ s1_ret r = -1)
    /\ (s1_ret r = 0 <->
          instances_ok = true
          /\ forall i, (i < length lcores)%nat ->
               stage1_step_ok get_queue_id lcores hash_ok calloc_ok
                 mailbox_ret i)
    /\ (s1_ret r = 0 ->
          s1_ref_cnt r = ref_cnt /\ s1_logs r = []
          /\ allocated (s1_calls r) = 1 + 2 * Z.of_nat (length lcores)
          /\ (NoDup lcores ->
                length (s1_insts r) = length lcores
                /\ forall i lcore, lcores !! i = Some lcore ->
                     s1_insts r !! i =
                       Some (GkInstanceMem
                               (Some (RteHash flow_ht_size ∅))
                               (Some (replicate flow_ht_size
                                        zero_flow_entry))
                               (Some []))
                     /\ s1_queues r !! i =
                          Some (u16 (get_queue_id Front QUEUE_TYPE_RX
                                       lcore),
                                u16 (get_queue_id Back QUEUE_TYPE_TX
                                       lcore))))
    /\ (instances_ok = false ->
          s1_ret r = -1 /\ s1_insts r = [] /\ s1_ref_cnt r = ref_cnt
          /\ s1_calls r = [Rte_calloc Instances_array (length lcores) false]
          /\ s1_logs r = [])
    /\ (s1_ret r = -1 -> instances_ok = true ->
          exists k lcore,
            lcores !! k = Some lcore
            /\ (forall j, (j < k)%nat ->
                  stage1_step_ok get_queue_id lcores hash_ok calloc_ok
                    mailbox_ret j)
            /\ length (s1_logs r) = 1%nat
            /\ (((get_queue_id Front QUEUE_TYPE_RX lcore < 0
                  \/ get_queue_id Back QUEUE_TYPE_TX lcore < 0)
                 /\ s1_ref_cnt r = ref_cnt
                 /\ allocated (s1_calls r) = 1 + 2 * Z.of_nat k)
                \/ (0 <= get_queue_id Front QUEUE_TYPE_RX lcore
                    /\ 0 <= get_queue_id Back QUEUE_TYPE_TX lcore
                    /\ ~ (hash_ok k = true /\ calloc_ok k = true
                          /\ 0 <= mailbox_ret k)
                    /\ s1_ref_cnt r = s32 (ref_cnt - 1)
                    /\ exists pre,
                         s1_calls r =
                           pre ++ (if s32 (ref_cnt - 1) =? 0
                                   then cleanup_gk (s1_insts r) else [])
                         /\ allocated pre = 1 + 2 * Z.of_nat k))).
Proof.
  unfold gk_stage1. destruct instances_ok; cbn [negb].
  2: { eexists. split; [reflexivity |].
       cbn [s1_ret s1_insts s1_queues s1_ref_cnt s1_calls s1_logs].
       split; [right; reflexivity |].
       split; [split; [intros H; discriminate H
                      | intros [H _]; discriminate H] |].
       split; [intros H; discriminate H |].
       split; [intros _; repeat split; reflexivity |].
       intros _ H. discriminate H. }
  destruct (gk_stage1_loop_run get_queue_id lcores flow_ht_size hash_ok
              calloc_ok mailbox_ret lcores [] ref_cnt
              (replicate (length lcores) (GkInstanceMem None None None))
              (replicate (length lcores) (0, 0)))
    as (r & Hr & Hri & Hrq & Hsign & Hr0 & Hr1);
    [reflexivity | apply length_replicate | apply length_replicate |].
  cbn [length] in Hr. rewrite Hr. eexists. split; [reflexivity |].
  cbn [s1_ret s1_insts s1_queues s1_ref_cnt s1_calls s1_logs].
  split; [exact Hsign |].
  split; [| split; [| split; [intros H; discriminate H |]]].
  - split.
    + intros Hz. split; [reflexivity |].
      destruct (Hr0 Hz) as (Hsteps & _). intros i Hi.
      exact (Hsteps i Hi).
    + intros [_ Hall]. destruct Hsign as [Hz | Hm1]; [exact Hz |].
      exfalso.
      destruct (Hr1 Hm1) as (k & lcore & Hk & _ & _ & Hcase).
      destruct (Hall k) as (lcore' & Hk' & Hq1 & Hq2 & Hh & Hc & Hm).
      { apply lookup_lt_Some in Hk. exact Hk. }
      rewrite Hk in Hk'. injection Hk' as <-.
      destruct Hcase as [([Hn | Hn] & _) | (_ & _ & Hnot & _)];
        [lia | lia | apply Hnot; cbn [length Nat.add]; tauto].
  - intros Hz.
    destruct (Hr0 Hz) as (_ & Href & Hlogs & Hall & Hnd).
    split; [exact Href |]. split; [exact Hlogs |].
    split; [cbn [allocated]; rewrite Hall; lia |].
    intros Hnodup. destruct (Hnd Hnodup) as [_ Hnew].
    split; [exact Hri |]. intros i lcore Hi. exact (Hnew i lcore Hi).
  - intros Hm1 _.
    destruct (Hr1 Hm1) as (k & lcore & Hk & Hsteps & Hlogs & Hcase).
    exists k, lcore. split; [exact Hk |]. split; [exact Hsteps |].
    split; [exact Hlogs |].
    destruct Hcase as [(Hq0 & Href & Hall)
                      | (Hq1 & Hq2 & Hnot & Href & pre & Hcalls & Hpre)].
    + left. split; [exact Hq0 |]. split; [exact Href |].
      cbn [allocated]. rewrite Hall. lia.
    + right. split; [exact Hq1 |]. split; [exact Hq2 |].
      split; [exact Hnot |]. split; [exact Href |].
      exists (Rte_calloc Instances_array (length lcores) true :: pre).
      split; [rewrite Hcalls; reflexivity |].
      cbn [allocated]. rewrite Hpre. lia.
Qed.

End Gatekeeper.

(** * The model on the scenarios of the specification *)

(** A granted flow with a budget of 10 KiB: a packet of 2000 bytes that
    is due for a renewal leaves with DSCP 2 and a budget of 8240 bytes. *)
Example granted_packet_accepted :
  gk_process_granted 333 1000 sample_status
    (FlowEntry sample_flow (Granted (GrantedT 60000000 1000000 10 10240 0 500 500)))
    (Ipacket sample_flow 2000 6 (Mbuf 1 2000 0 0)) sample_world
  = ((0, FlowEntry sample_flow
           (Granted (GrantedT 60000000 1000000 10 8240 0 1500 500))),
     World (tsc sample_world) 1 [Encapsulate (Mbuf 1 2000 0 0) 2]
       (lls_conf sample_world)).
Proof. reflexivity. Qed.

(** The next packet, of 20000 bytes, exceeds the budget and is dropped. *)
Example granted_packet_over_budget :
  gk_process_granted 333 1000 sample_status
    (FlowEntry sample_flow (Granted (GrantedT 60000000 1000000 10 8240 0 1500 500)))
    (Ipacket sample_flow 20000 6 (Mbuf 2 20000 0 0)) sample_world
  = ((0, FlowEntry sample_flow
           (Granted (GrantedT 60000000 1000000 10 8240 0 1500 500))),
     World (tsc sample_world) 1 [Pktmbuf_free (Mbuf 2 20000 0 0)]
       (lls_conf sample_world)).
Proof. reflexivity. Qed.

(** A request whose gap gives priority 18 against a last priority of 10
    resets the allowance and leaves with DSCP 21. *)
Example request_priority_earned :
  gk_process_request 333 sample_status
    (FlowEntry sample_flow (Request sample_request)) sample_packet
    sample_world
  = ((0, FlowEntry sample_flow (Request (RequestT 1000 18 7 0))),
     World (tsc sample_world) 1 [Encapsulate sample_mbuf 21]
       (lls_conf sample_world)).
Proof. reflexivity. Qed.

(** With ND enabled a request reaches the LLS mailbox. *)
Example submit_nd_enabled :
  submit_nd (fun _ _ => 1) 128 sample_mbuf Front sample_world
  = (0, World (tsc sample_world) 0 []
          (LlsConfig sample_net [LLS_REQ_ND sample_mbuf Front])).
Proof. reflexivity. Qed.

(** * Instances at the sample data *)

Lemma sample_instance_wf : instance_wf sample_instance.
Proof.
  split; [vm_compute; lia |].
  intros k i H. unfold sample_instance in H.
  cbn [ip_flow_hash_table h_keys] in H. rewrite lookup_empty in H.
  discriminate.
Defined.

Lemma C1_witness :
  u (FlowEntry sample_flow (Request sample_request)) = Request sample_request
  /\ (priority_from_delta_time 333 1000 0
        (World (tsc sample_world) 1 [] (lls_conf sample_world))).1
     = spec_priority 333 1000 0
  /\ spec_priority 333 1000 0 = 18.
Proof.
  split; [reflexivity |]. split; [| reflexivity].
  exact (proj1 (C1_request_priority 333 sample_status
                  (FlowEntry sample_flow (Request sample_request))
                  sample_request sample_packet sample_world eq_refl)).
Defined.

Lemma C2_witness :
  u (FlowEntry sample_flow (Request (RequestT 0 38 7 0)))
    = Request (RequestT 0 38 7 0)
  /\ is_u8 7
  /\ exists ret r' w',
       gk_process_request 333 sample_status
         (FlowEntry sample_flow (Request (RequestT 0 38 7 0)))
         sample_packet sample_world
       = (ret, FlowEntry sample_flow (Request r'), w')
       /\ allowance r' = 6 /\ last_priority r' = 38.
Proof.
  split; [reflexivity |].
  assert (H8 : is_u8 7) by (unfold is_u8; lia).
  split; [exact H8 |].
  destruct (C2_allowance_rule 333 sample_status
              (FlowEntry sample_flow (Request (RequestT 0 38 7 0)))
              (RequestT 0 38 7 0) sample_packet sample_world eq_refl H8)
    as (ret & r' & w' & Hrun & Hlow & _).
  exists ret, r', w'. split; [exact Hrun |].
  assert (Hc : 18 < 38 /\ 7 > 0) by lia.
  destruct (Hlow Hc) as (Ha & Hl & _). split; [exact Ha | exact Hl].
Defined.

Lemma C3_witness :
  u (FlowEntry sample_flow (Request sample_request)) = Request sample_request
  /\ 0 <= last_priority sample_request <= 63
  /\ exists ret fe' w' logs,
       gk_process_request 333 sample_status
         (FlowEntry sample_flow (Request sample_request))
         sample_packet sample_world
       = (ret, fe', w')
       /\ trace w' = [] ++ logs ++ [Encapsulate sample_mbuf 21].
Proof.
  split; [reflexivity |].
  assert (Hr : 0 <= last_priority sample_request <= 63) by (cbn; lia).
  split; [exact Hr |].
  destruct (C3_request_dscp 333 sample_status
              (FlowEntry sample_flow (Request sample_request))
              sample_request sample_packet sample_world eq_refl Hr)
    as (ret & fe' & w' & logs & Hrun & Htr & _).
  exists ret, fe', w', logs. split; [exact Hrun | exact Htr].
Defined.

Lemma C5_witness :
  (1000 >= cap_expire_at (GrantedT 500 0 10 8240 0 0 500)
   /\ gk_process_granted 333 1000 sample_status
        (FlowEntry sample_flow (Granted (GrantedT 500 0 10 8240 0 0 500)))
        sample_packet sample_world
      = gk_process_request 333 sample_status
          (FlowEntry sample_flow (Request (RequestT 1000 38 7 0)))
          sample_packet
          (World (tsc sample_world) 1 [] (lls_conf sample_world)))
  /\ (1000 >= expire_at (DeclinedT 300)
      /\ gk_process_declined 333 sample_status
           (FlowEntry sample_flow (Declined (DeclinedT 300)))
           sample_packet sample_world
         = gk_process_request 333 sample_status
             (FlowEntry sample_flow (Request (RequestT 1000 38 7 0)))
             sample_packet
             (World (tsc sample_world) 1 [] (lls_conf sample_world)))
  /\ (1000 < expire_at sample_declined
      /\ gk_process_declined 333 sample_status
           (FlowEntry sample_flow (Declined sample_declined))
           sample_packet sample_world
         = ((0, FlowEntry sample_flow (Declined sample_declined)),
            World (tsc sample_world) 1 [Pktmbuf_free sample_mbuf]
              (lls_conf sample_world))).
Proof.
  assert (H1 : 1000 >= 500) by lia.
  assert (H2 : 1000 >= 300) by lia.
  assert (H3 : 1000 < 2000) by lia.
  split; [split; [exact H1 |] | split; [split; [exact H2 |] | split; [exact H3 |]]].
  - exact (proj1 (proj2 (C5_expiry_reinitializes 333 1000 sample_status
             (FlowEntry sample_flow (Granted (GrantedT 500 0 10 8240 0 0 500)))
             sample_packet sample_world)) _ eq_refl H1).
  - exact (proj1 (proj2 (proj2 (C5_expiry_reinitializes 333 1000 sample_status
             (FlowEntry sample_flow (Declined (DeclinedT 300)))
             sample_packet sample_world))) _ eq_refl H2).
  - exact (proj2 (proj2 (proj2 (C5_expiry_reinitializes 333 1000 sample_status
             (FlowEntry sample_flow (Declined sample_declined))
             sample_packet sample_world))) _ eq_refl H3).
Defined.

Lemma C6_witness :
  tsc still_world (S (ticks still_world)) = tsc still_world (ticks still_world)
  /\ exists ret r' w',
       gk_process_request 333 sample_status
         (initialize_flow_entry sample_flow still_world).1 sample_packet
         (initialize_flow_entry sample_flow still_world).2
       = (ret, FlowEntry sample_flow (Request r'), w')
       /\ last_priority r' = 38
       /\ allowance r' = 6
       /\ trace w' = [Encapsulate sample_mbuf 41].
Proof.
  split; [reflexivity |].
  exact (proj2 (C6_first_packet 333 sample_status sample_flow sample_packet
                  still_world eq_refl)).
Defined.

(** The scenario of the first packet as the specification words it (DSCP 3
    and [last_priority] 0) does not hold: the packet leaves with DSCP 41
    and [last_priority] stays 38. *)
Lemma C6_counterexample :
  let created := initialize_flow_entry sample_flow still_world in
  let res :=
    gk_process_request 333 sample_status created.1 sample_packet created.2 in
  u res.1.2 = Request (RequestT 5 38 6 0)
  /\ trace res.2 = [Encapsulate sample_mbuf 41]
  /\ ~ (trace res.2 = [Encapsulate sample_mbuf 3]
        /\ allowance (u_request res.1.2) = 6
        /\ last_priority (u_request res.1.2) = 0).
Proof.
  cbv zeta. split; [reflexivity |]. split; [reflexivity |].
  intros (Hd & _ & _). discriminate Hd.
Qed.



Lemma C7_witness :
  [sample_mbuf] <> []
  /\ mb (set_mb sample_instance [GGU_POLICY_ADD sample_policy])
     = [] ++ GGU_POLICY_ADD sample_policy :: []
  /\ (length (@nil gk_cmd_entry) < GK_CMD_BURST_SIZE)%nat
  /\ mb (gk_proc_iteration 333 1000 1 sample_status no_headers sample_hf
           never_enabled 0 128 sample_net [sample_mbuf] 32
           (set_mb sample_instance [GGU_POLICY_ADD sample_policy])
           sample_world).1 = [].
Proof.
  assert (Hrx : [sample_mbuf] <> []) by discriminate.
  assert (Hlen : (length (@nil gk_cmd_entry) < GK_CMD_BURST_SIZE)%nat)
    by (vm_compute; lia).
  split; [exact Hrx |]. split; [reflexivity |]. split; [exact Hlen |].
  exact (proj2 (C7_command_drained 333 1000 1 sample_status no_headers
                  sample_hf never_enabled 0 128 sample_net [sample_mbuf] 32
                  (set_mb sample_instance [GGU_POLICY_ADD sample_policy])
                  sample_world [] (GGU_POLICY_ADD sample_policy) []
                  Hrx eq_refl Hlen)).
Defined.

(** A command that sits in the mailbox when a turn of the loop receives no
    packet is still there after the turn, and the flow table has not
    changed; and of 33 commands that sit in the mailbox when a turn
    receives a packet, the last one is still there after the turn, its
    flow unknown to the flow table. *)
Lemma C7_counterexample :
  let cmd := GGU_POLICY_ADD sample_policy in
  let inst := set_mb sample_instance [cmd] in
  let idle :=
    gk_proc_iteration 333 1000 1 sample_status no_headers sample_hf
      never_enabled 0 128 sample_net [] 32 inst sample_world in
  let late := GGU_POLICY_ADD (GguPolicy (IpFlow 0x0800 3 4)
                                (Decision_declined 9)) in
  let busy :=
    gk_proc_iteration 333 1000 1 sample_status no_headers sample_hf
      never_enabled 0 128 sample_net [sample_mbuf] 32
      (set_mb sample_instance (replicate 32 cmd ++ [late])) sample_world in
  (idle = (inst, sample_world)
   /\ mb idle.1 = [cmd]
   /\ ip_flow_entry_table idle.1 = ip_flow_entry_table sample_instance
   /\ h_keys (ip_flow_hash_table idle.1) !! sample_flow = None)
  /\ (mb busy.1 = [late]
      /\ h_keys (ip_flow_hash_table busy.1) !! IpFlow 0x0800 3 4 = None).
Proof.
  cbv zeta. split.
  - split; [reflexivity |]. split; [reflexivity |].
    split; [reflexivity |]. apply lookup_empty.
  - split; [| vm_compute; reflexivity].
    rewrite gk_proc_iteration_mb by discriminate. reflexivity.
Qed.

Lemma C8_witness :
  instance_wf sample_instance
  /\ exists fl' d,
       ip_flow_entry_table
         (add_ggu_policy 1000 1 sample_hf sample_policy
            (add_ggu_policy 1000 1 sample_hf sample_policy
               sample_instance sample_world).1
            (add_ggu_policy 1000 1 sample_hf sample_policy
               sample_instance sample_world).2).1 !! 0%nat
       = Some (FlowEntry fl' (Declined d))
       /\ expire_at d = 3000 + 2 * 1000.
Proof.
  split; [exact sample_instance_wf |].
  destruct (proj2 (C8_decline_twice 1000 1 sample_hf sample_flow 2
                     sample_instance sample_world sample_instance_wf)
              0%nat eq_refl)
    as (fl' & d & Hent & _ & Hexact).
  exists fl', d. split; [exact Hent |].
  apply Hexact; vm_compute; congruence.
Defined.

Lemma C9_witness :
  never_enabled (net (lls_conf sample_world))
    (front (net (lls_conf sample_world))) = 0
  /\ never_enabled (net (lls_conf sample_world))
       (back (net (lls_conf sample_world))) = 0
  /\ (hold_arp never_enabled 128 0 0 5 1 sample_world).1 < 0
  /\ (submit_nd never_enabled 128 sample_mbuf Front sample_world).1 < 0
  /\ lls_conf (submit_nd never_enabled 128 sample_mbuf Front sample_world).2
     = lls_conf sample_world.
Proof.
  split; [reflexivity |]. split; [reflexivity |].
  pose proof (C9_service_disabled never_enabled never_enabled 128
                sample_world) as [Harp Hnd].
  destruct (Harp eq_refl eq_refl) as [Hhold _].
  destruct (Hnd eq_refl eq_refl) as (_ & _ & Hsub).
  split; [exact (proj1 (Hhold 0%nat 0%nat 5 1)) |].
  exact (Hsub sample_mbuf Front).
Defined.

Lemma C10_witness :
  reta_size (RssConfig 128 (fun _ _ => 9)) = 128
  /\ (forall inst, inst ∈ [sample_instance] -> rx_queue_front inst <> 9)
  /\ get_responsible_gk_mailbox sample_hf sample_flow
       (GkConfig [sample_instance] (RssConfig 128 (fun _ _ => 9)))
       sample_world
     = (Some (Instance_mailbox (-1)),
        World (tsc sample_world) 0
          [Log "gk: wrong RSS configuration for GK blocks!"]
          (lls_conf sample_world)).
Proof.
  assert (Hno : forall inst, inst ∈ [sample_instance] ->
                             rx_queue_front inst <> 9).
  { intros inst Hin. apply list_elem_of_singleton in Hin. subst inst.
    discriminate. }
  split; [reflexivity |]. split; [exact Hno |].
  exact (proj1 (proj2 (C10_no_responsible_block sample_hf sample_flow
                         (GkConfig [sample_instance]
                            (RssConfig 128 (fun _ _ => 9)))
                         sample_world eq_refl Hno))).
Defined.


(** * The further properties at the sample data *)

Lemma sample_instance_table_inv : table_inv sample_instance.
Proof.
  split; [exact sample_instance_wf |].
  intros k1 k2 i H. unfold sample_instance in H.
  cbn [ip_flow_hash_table h_keys] in H. rewrite lookup_empty in H.
  discriminate.
Defined.

Lemma X1_witness :
  let expired :=
    FlowEntry sample_flow (Granted (GrantedT 500 0 10 8240 0 0 500)) in
  let after :=
    (gk_process_entry_seq 333 1000 sample_status expired
       [sample_packet; sample_packet] sample_world).1 in
  entry_inv expired
  /\ state after = GK_REQUEST
  /\ entry_inv after.
Proof.
  cbv zeta.
  assert (H : entry_inv
                (FlowEntry sample_flow
                   (Granted (GrantedT 500 0 10 8240 0 0 500))))
    by exact I.
  split; [exact H |]. split; [reflexivity |].
  exact (proj2 (proj2 (X1_request_block_in_range 333 1000 1 sample_status))
           _ [sample_packet; sample_packet] sample_world H).
Defined.

Lemma X2_witness :
  0 <= 1000 <= 2000 /\ 0 <= 333 /\ (2000 - 0) * 333 < 2 ^ 64
  /\ (priority_from_delta_time 333 1000 0 sample_world).1
     <= (priority_from_delta_time 333 2000 0 sample_world).1.
Proof.
  assert (H1 : 0 <= 1000 <= 2000) by lia.
  assert (H2 : 0 <= 333) by lia.
  assert (H3 : (2000 - 0) * 333 < 2 ^ 64) by (vm_compute; reflexivity).
  split; [exact H1 |]. split; [exact H2 |]. split; [exact H3 |].
  exact (X2_priority_monotone 333 0 1000 2000 sample_world sample_world
           H1 H2 H3).
Defined.

Lemma X3_witness :
  u (FlowEntry sample_flow (Request (RequestT 0 38 7 0)))
    = Request (RequestT 0 38 7 0)
  /\ Z.of_nat (length [sample_packet; sample_packet])
     <= allowance (RequestT 0 38 7 0) < 2 ^ 8
  /\ exists ext,
       (gk_process_entry_seq 333 1000 sample_status
          (FlowEntry sample_flow (Request (RequestT 0 38 7 0)))
          [sample_packet; sample_packet] still_world).1
       = FlowEntry sample_flow (Request (RequestT 5 38 5 0))
       /\ encapsulated ext = [(sample_mbuf, 41); (sample_mbuf, 41)].
Proof.
  assert (H2 : Z.of_nat (length [sample_packet; sample_packet])
               <= allowance (RequestT 0 38 7 0) < 2 ^ 8)
    by (vm_compute; split; [congruence | reflexivity]).
  assert (H3 : forall j, (j < length [sample_packet; sample_packet])%nat ->
                 spec_priority 333 (reading still_world j)
                   (seen_before (RequestT 0 38 7 0) still_world j)
                 < last_priority (RequestT 0 38 7 0)).
  { intros j Hj. destruct j as [| [| j]]; [reflexivity | reflexivity |].
    cbn [length] in Hj. lia. }
  split; [reflexivity |]. split; [exact H2 |].
  destruct (X3_allowance_burst 333 1000 sample_status
              [sample_packet; sample_packet]
              (FlowEntry sample_flow (Request (RequestT 0 38 7 0)))
              (RequestT 0 38 7 0) still_world eq_refl H2 H3)
    as (ext & Hrun & Henc).
  exists ext. split; [rewrite Hrun; reflexivity | exact Henc].
Defined.

Lemma X4_witness :
  u (FlowEntry sample_flow (Granted sample_granted)) = Granted sample_granted
  /\ u64 (tsc sample_world (ticks sample_world))
     < cap_expire_at sample_granted
  /\ exists ret g' e,
       gk_process_granted 333 1000 sample_status
         (FlowEntry sample_flow (Granted sample_granted)) sample_packet
         sample_world
       = (ret, FlowEntry sample_flow (Granted g'),
          World (tsc sample_world) 1 [e] (lls_conf sample_world))
       /\ cap_expire_at g' = cap_expire_at sample_granted.
Proof.
  assert (H : u64 (tsc sample_world (ticks sample_world))
              < cap_expire_at sample_granted) by reflexivity.
  split; [reflexivity |]. split; [exact H |].
  destruct (X4_granted_renewal 333 1000 sample_status
              (FlowEntry sample_flow (Granted sample_granted))
              sample_granted sample_packet sample_world eq_refl H)
    as (ret & g' & e & Hrun & Hcap & _).
  exists ret, g', e. split; [exact Hrun | exact Hcap].
Defined.

Lemma X5_witness :
  table_inv (set_mb sample_instance [GGU_POLICY_ADD sample_policy])
  /\ table_inv
       (gk_proc_iterations 333 1000 1 sample_status sample_headers
          sample_hf never_enabled 0 128 sample_net
          [([sample_mbuf], 32%nat); ([], 32%nat)]
          (set_mb sample_instance [GGU_POLICY_ADD sample_policy])
          sample_world).1.
Proof.
  split; [exact sample_instance_table_inv |].
  exact (proj1 (X5_flow_table_kept 333 1000 1 sample_status sample_headers
                  sample_hf never_enabled 0 128 sample_net
                  [([sample_mbuf], 32%nat); ([], 32%nat)]
                  (set_mb sample_instance [GGU_POLICY_ADD sample_policy])
                  sample_world sample_instance_table_inv)).
Defined.


Lemma X6_witness :
  let known :=
    add_ggu_policy 1000 1 sample_hf sample_policy sample_instance
      sample_world in
  table_inv known.1
  /\ h_keys (ip_flow_hash_table known.1) !! sample_flow = Some 0%nat
  /\ other_flow <> sample_flow
  /\ ip_flow_entry_table
       (add_ggu_policy 1000 1 sample_hf
          (GguPolicy other_flow (Decision_declined 9)) known.1 known.2).1
       !! 0%nat
     = ip_flow_entry_table known.1 !! 0%nat.
Proof.
  cbv zeta.
  assert (Hinv : table_inv
                   (add_ggu_policy 1000 1 sample_hf sample_policy
                      sample_instance sample_world).1).
  { exact (proj1 (add_ggu_policy_table 1000 1 sample_hf sample_policy
                    sample_instance sample_world
                    sample_instance_table_inv)). }
  assert (Hne : other_flow <> sample_flow) by discriminate.
  split; [exact Hinv |]. split; [reflexivity |]. split; [exact Hne |].
  exact (proj1 (X6_other_flows_untouched 333 1000 1 sample_status
                  sample_headers sample_hf never_enabled 0 128 _
                  (add_ggu_policy 1000 1 sample_hf sample_policy
                     sample_instance sample_world).2 Hinv)
           (GguPolicy other_flow (Decision_declined 9)) sample_flow 0%nat
           eq_refl Hne).
Defined.

Lemma X8_witness :
  let known :=
    add_ggu_policy 1000 1 sample_hf
      (GguPolicy sample_flow (Decision_declined 5)) sample_instance
      sample_world in
  sample_headers sample_mbuf = Some (sample_flow, 100, 6)
  /\ pkt_is_nd 0 (Ipacket sample_flow 100 6 sample_mbuf) (front sample_net)
     = false
  /\ h_keys (ip_flow_hash_table known.1) !! sample_flow = Some 0%nat
  /\ ip_flow_entry_table known.1 !! 0%nat
     = Some (FlowEntry sample_flow (Declined (DeclinedT 6000)))
  /\ u64 (tsc known.2 (ticks known.2)) < expire_at (DeclinedT 6000)
  /\ (0 < 1)%nat
  /\ trace
       (gk_forward_burst 333 1000 sample_status sample_headers
          never_enabled 0 128 sample_net [sample_mbuf] 1 known.1
          known.2).2
     = trace known.2 ++ [Pktmbuf_free sample_mbuf; Tx_burst [sample_mbuf]].
Proof.
  cbv zeta.
  assert (Hnow : u64 (tsc (add_ggu_policy 1000 1 sample_hf
                             (GguPolicy sample_flow (Decision_declined 5))
                             sample_instance sample_world).2
                        (ticks (add_ggu_policy 1000 1 sample_hf
                                  (GguPolicy sample_flow
                                     (Decision_declined 5))
                                  sample_instance
                                  sample_world).2))
                 < expire_at (DeclinedT 6000)) by reflexivity.
  assert (Hroom : (0 < 1)%nat) by lia.
  split; [reflexivity |]. split; [reflexivity |]. split; [reflexivity |].
  split; [reflexivity |]. split; [exact Hnow |]. split; [exact Hroom |].
  exact (proj2 (X8_dropped_buffer_is_queued 333 1000 sample_status
                  sample_headers never_enabled 0 128 sample_net
                  (add_ggu_policy 1000 1 sample_hf
                     (GguPolicy sample_flow (Decision_declined 5))
                     sample_instance sample_world).1
                  sample_mbuf sample_flow 100 6 0%nat
                  (FlowEntry sample_flow (Declined (DeclinedT 6000))) 1%nat
                  (add_ggu_policy 1000 1 sample_hf
                     (GguPolicy sample_flow (Decision_declined 5))
                     sample_instance sample_world).2
                  eq_refl eq_refl eq_refl eq_refl
                  (or_introl
                     (ex_intro _ (DeclinedT 6000) (conj eq_refl Hnow)))
                  Hroom)).
Defined.

Lemma X9_witness :
  no_headers sample_mbuf = None
  /\ gk_process_rx 333 1000 sample_status no_headers never_enabled 0 128
       sample_net sample_instance sample_mbuf sample_world
     = (sample_instance, None,
        World (tsc sample_world) 0 [Pktmbuf_free sample_mbuf]
          (lls_conf sample_world)).
Proof.
  split; [reflexivity |].
  exact (proj1 (X9_buffer_not_classified 333 1000 sample_status no_headers
                  never_enabled 0 128 sample_net sample_instance
                  sample_mbuf sample_world) eq_refl).
Defined.

Lemma X10_witness :
  instance_wf sample_instance
  /\ sample_headers sample_mbuf = Some (sample_flow, 100, 6)
  /\ pkt_is_nd 0 (Ipacket sample_flow 100 6 sample_mbuf) (front sample_net)
     = false
  /\ h_keys (ip_flow_hash_table sample_instance) !! sample_flow = None
  /\ free_slot (ip_flow_hash_table sample_instance) = Some 0%nat
  /\ reading sample_world 0 <= reading sample_world 1
  /\ 0 <= 333
  /\ (reading sample_world 1 - reading sample_world 0) * 333 < 2 ^ 38
  /\ exists inst',
       gk_process_rx 333 1000 sample_status sample_headers never_enabled 0
         128 sample_net sample_instance sample_mbuf sample_world
       = (inst', Some sample_mbuf,
          World (tsc sample_world) 2 [Encapsulate sample_mbuf 41]
            (lls_conf sample_world))
       /\ ip_flow_entry_table inst' !! 0%nat
          = Some (FlowEntry sample_flow (Request (RequestT 2000 38 6 0))).
Proof.
  assert (Hkey : h_keys (ip_flow_hash_table sample_instance) !! sample_flow
                 = None) by apply lookup_empty.
  assert (Hslot : free_slot (ip_flow_hash_table sample_instance)
                  = Some 0%nat) by (vm_compute; reflexivity).
  assert (Hle : reading sample_world 0 <= reading sample_world 1)
    by (vm_compute; congruence).
  assert (Hps : 0 <= 333) by lia.
  assert (Hd : (reading sample_world 1 - reading sample_world 0) * 333
               < 2 ^ 38) by (vm_compute; reflexivity).
  split; [exact sample_instance_wf |]. split; [reflexivity |].
  split; [reflexivity |]. split; [exact Hkey |]. split; [exact Hslot |].
  split; [exact Hle |]. split; [exact Hps |]. split; [exact Hd |].
  destruct (X10_first_packet_of_new_flow 333 1000 sample_status
              sample_headers never_enabled 0 128 sample_net sample_instance
              sample_mbuf sample_flow 100 6 0%nat sample_world
              sample_instance_wf eq_refl eq_refl Hkey Hslot Hle Hps Hd)
    as (inst' & Hrun & _ & Hent).
  exists inst'. split; [exact Hrun | exact Hent].
Defined.


Lemma X11_witness :
  instance_wf sample_instance
  /\ h_keys (ip_flow_hash_table sample_instance) !! sample_flow = None
  /\ free_slot (ip_flow_hash_table sample_instance) = Some 0%nat
  /\ ip_flow_entry_table
       (add_ggu_policy 1000 1 sample_hf
          (GguPolicy sample_flow (Decision_other 99)) sample_instance
          sample_world).1 !! 0%nat
     = Some (FlowEntry sample_flow (Request (RequestT 2000 38 7 0))).
Proof.
  assert (Hkey : h_keys (ip_flow_hash_table sample_instance) !! sample_flow
                 = None) by apply lookup_empty.
  assert (Hslot : free_slot (ip_flow_hash_table sample_instance)
                  = Some 0%nat) by (vm_compute; reflexivity).
  split; [exact sample_instance_wf |]. split; [exact Hkey |].
  split; [exact Hslot |].
  exact (proj1 (proj2 (proj2 (proj2 (X11_policy_edge_cases 1000 1 sample_hf
                                       sample_flow sample_instance
                                       sample_world))
                         99 0%nat sample_instance_wf Hkey Hslot))).
Defined.

Lemma X12_witness :
  reta_size (RssConfig 128 (fun _ _ => 0)) = 128
  /\ (exists inst, inst ∈ [sample_instance] /\ rx_queue_front inst = 0)
  /\ exists i inst,
       get_responsible_gk_mailbox sample_hf sample_flow
         (GkConfig [sample_instance] (RssConfig 128 (fun _ _ => 0)))
         sample_world
       = (Some (Instance_mailbox (Z.of_nat i)), sample_world)
       /\ [sample_instance] !! i = Some inst.
Proof.
  assert (Hex : exists inst,
                  inst ∈ [sample_instance] /\ rx_queue_front inst = 0).
  { exists sample_instance. split; [apply list_elem_of_here | reflexivity]. }
  split; [reflexivity |]. split; [exact Hex |].
  destruct (proj2 (X12_responsible_block_found sample_hf sample_flow
                     (GkConfig [sample_instance]
                        (RssConfig 128 (fun _ _ => 0)))
                     sample_world) eq_refl Hex)
    as (i & inst & Hrun & Hi & _).
  exists i, inst. split; [exact Hrun | exact Hi].
Defined.

Lemma X13_witness :
  let res :=
    add_ggu_policy 1000 1 sample_hf
      (GguPolicy sample_flow (Decision_declined 5)) sample_instance
      sample_world in
  instance_wf sample_instance
  /\ sample_headers sample_mbuf = Some (sample_flow, 100, 6)
  /\ pkt_is_nd 0 (Ipacket sample_flow 100 6 sample_mbuf) (front sample_net)
     = false
  /\ h_keys (ip_flow_hash_table res.1) !! sample_flow = Some 0%nat
  /\ 0 <= 5 * 1000
  /\ reading sample_world 0 + 5 * 1000 < 2 ^ 64
  /\ reading res.2 0 < reading sample_world 0 + 5 * 1000
  /\ gk_process_rx 333 1000 sample_status sample_headers never_enabled 0
       128 sample_net res.1 sample_mbuf res.2
     = (res.1, Some sample_mbuf,
        World (tsc res.2) (S (ticks res.2))
          (trace res.2 ++ [Pktmbuf_free sample_mbuf]) (lls_conf res.2)).
Proof.
  cbv zeta.
  assert (H0 : 0 <= 5 * 1000) by lia.
  assert (H1 : reading sample_world 0 + 5 * 1000 < 2 ^ 64)
    by (vm_compute; reflexivity).
  assert (H2 : reading
                 (add_ggu_policy 1000 1 sample_hf
                    (GguPolicy sample_flow (Decision_declined 5))
                    sample_instance sample_world).2 0
               < reading sample_world 0 + 5 * 1000)
    by (vm_compute; reflexivity).
  split; [exact sample_instance_wf |]. split; [reflexivity |].
  split; [reflexivity |]. split; [reflexivity |]. split; [exact H0 |].
  split; [exact H1 |]. split; [exact H2 |].
  exact (proj1 (X13_declined_until_expiry 333 1000 1 sample_status
                  sample_headers sample_hf never_enabled 0 128 sample_net
                  sample_instance sample_mbuf sample_flow 100 6 5 0%nat
                  sample_world sample_instance_wf eq_refl eq_refl eq_refl
                  H0 H1) H2).
Defined.

Lemma X14_witness :
  let res :=
    add_ggu_policy 1000 1 sample_hf
      (GguPolicy sample_flow (Decision_granted 10 60 500 500))
      sample_instance sample_world in
  instance_wf sample_instance
  /\ sample_headers sample_mbuf = Some (sample_flow, 100, 6)
  /\ pkt_is_nd 0 (Ipacket sample_flow 100 6 sample_mbuf) (front sample_net)
     = false
  /\ h_keys (ip_flow_hash_table res.1) !! sample_flow = Some 0%nat
  /\ s32 10 * 1024 <= INT_MAX
  /\ 0 <= 60 * 1000
  /\ reading sample_world 0 + 60 * 1000 < 2 ^ 64
  /\ reading res.2 0 < reading sample_world 0 + 60 * 1000
  /\ 0 <= data_len sample_mbuf <= s32 10 * 1024
  /\ exists inst' sent w' fl' g',
       gk_process_rx 333 1000 sample_status sample_headers never_enabled 0
         128 sample_net res.1 sample_mbuf res.2
       = (inst', sent, w')
       /\ ip_flow_entry_table inst' !! 0%nat
          = Some (FlowEntry fl' (Granted g'))
       /\ budget_byte g' = s32 10 * 1024 - data_len sample_mbuf.
Proof.
  cbv zeta.
  assert (H0 : s32 10 * 1024 <= INT_MAX) by (vm_compute; congruence).
  assert (H1 : 0 <= 60 * 1000) by lia.
  assert (H2 : reading sample_world 0 + 60 * 1000 < 2 ^ 64)
    by (vm_compute; reflexivity).
  assert (H3 : reading
                 (add_ggu_policy 1000 1 sample_hf
                    (GguPolicy sample_flow (Decision_granted 10 60 500 500))
                    sample_instance sample_world).2 0
               < reading sample_world 0 + 60 * 1000)
    by (vm_compute; reflexivity).
  assert (H4 : 0 <= data_len sample_mbuf <= s32 10 * 1024)
    by (vm_compute; split; congruence).
  split; [exact sample_instance_wf |]. split; [reflexivity |].
  split; [reflexivity |]. split; [reflexivity |]. split; [exact H0 |].
  split; [exact H1 |]. split; [exact H2 |]. split; [exact H3 |].
  split; [exact H4 |].
  destruct (X14_granted_first_packet 333 1000 1 sample_status
              sample_headers sample_hf never_enabled 0 128 sample_net
              sample_instance sample_mbuf sample_flow 100 6 10 60 500 500
              0%nat sample_world sample_instance_wf eq_refl eq_refl eq_refl
              H0 H1 H2 H3 H4)
    as (inst' & sent & w' & fl' & g' & dscp & Hrun & Hent & Hb & _).
  exists inst', sent, w', fl', g'.
  split; [exact Hrun |]. split; [exact Hent | exact Hb].
Defined.

Lemma X15_witness :
  get_block_idx sample_lcores 5 = Some 1
  /\ exists n,
       1 = Z.of_nat n /\ (n < length sample_lcores)%nat
       /\ sample_lcores !! n = Some 5.
Proof.
  split; [reflexivity |].
  destruct (proj2 (X15_get_block_idx sample_lcores 5) 1 eq_refl)
    as (n & Hn & Hlt & Hl & _).
  exists n. split; [exact Hn |]. split; [exact Hlt | exact Hl].
Defined.

Lemma X16_witness :
  setup_gk_instance sample_lcores 5 4 true true 0
    (replicate 2 (GkInstanceMem None None None))
  = Some (0,
          [GkInstanceMem None None None;
           GkInstanceMem (Some (RteHash 4 ∅))
             (Some (replicate 4 zero_flow_entry)) (Some [])],
          [Rte_hash_create 1 4 true; Rte_calloc (Entry_table 1) 4 true;
           Init_mailbox 1 0])
  /\ exists block m',
       sample_lcores !! block = Some 5
       /\ [GkInstanceMem None None None;
           GkInstanceMem (Some (RteHash 4 ∅))
             (Some (replicate 4 zero_flow_entry)) (Some [])] !! block
          = Some m'
       /\ hash_table_ptr m' = Some (RteHash 4 ∅).
Proof.
  split; [reflexivity |].
  destruct (X16_setup_gk_instance sample_lcores 5 4 true true 0
              (replicate 2 (GkInstanceMem None None None)) _ 0 _ eq_refl)
    as (block & m' & Hl & _ & Hm & _ & Hok & _).
  exists block, m'. split; [exact Hl |]. split; [exact Hm |].
  destruct (Hok eq_refl) as (_ & t & Hh & _). exact Hh.
Defined.

Lemma X17_witness :
  (run_gk (Some sample_net) (Some sample_lcores) 0 0
     (fun lcore => if lcore =? 5 then -3 else 0)).1 < 0
  /\ (1 <= 3 <= 3)%nat
  /\ registered 3
       (run_gk (Some sample_net) (Some sample_lcores) 0 0
          (fun lcore => if lcore =? 5 then -3 else 0)).2 = 0.
Proof.
  assert (Hneg : (run_gk (Some sample_net) (Some sample_lcores) 0 0
                    (fun lcore => if lcore =? 5 then -3 else 0)).1 < 0)
    by reflexivity.
  assert (Hst : (1 <= 3 <= 3)%nat) by lia.
  split; [exact Hneg |]. split; [exact Hst |].
  exact (proj1 (proj2 (X17_run_gk_unwinds (Some sample_net)
                         (Some sample_lcores) 0 0
                         (fun lcore => if lcore =? 5 then -3 else 0)))
           Hneg 3%nat Hst).
Defined.

Lemma X18_witness :
  (0 < 2)%nat /\ Z.of_nat 2 < 2 ^ 31
  /\ gk_conf_puts 2 (Z.of_nat 2) (replicate 2 (GkInstanceMem None None None))
     = (0, cleanup_gk (replicate 2 (GkInstanceMem None None None))).
Proof.
  assert (H0 : (0 < 2)%nat) by lia.
  assert (H1 : Z.of_nat 2 < 2 ^ 31) by (vm_compute; reflexivity).
  split; [exact H0 |]. split; [exact H1 |].
  exact (proj1 (X18_last_put_cleans_up 2
                  (replicate 2 (GkInstanceMem None None None)) H0 H1)).
Defined.


Lemma X20_witness :
  (forall i q b, frees_nothing (sample_process_arp i q b))
  /\ (forall i b, frees_nothing (sample_process_nd i b))
  /\ exists ext,
       trace
         (process_pkts no_headers 0 sample_d_addr sample_ether_type
            (fun _ => 1) (fun _ => 1) (fun _ => 1) sample_process_arp
            sample_process_nd (LlsConfig sample_net []) Front 0
            [Mbuf 0 100 0 0; Mbuf 1 100 0 0] sample_world).2
       = trace sample_world ++ ext
       /\ freed ext = [Mbuf 1 100 0 0].
Proof.
  assert (Harp : forall i q b, frees_nothing (sample_process_arp i q b)).
  { intros i q b w. exists [Tx_burst [b]]. split; reflexivity. }
  assert (Hnd : forall i b, frees_nothing (sample_process_nd i b)).
  { intros i b w. exists []. cbn. rewrite app_nil_r. split; reflexivity. }
  split; [exact Harp |]. split; [exact Hnd |].
  destruct (X20_lls_received_buffers no_headers 0 sample_d_addr
              sample_ether_type (fun _ => 1) (fun _ => 1) (fun _ => 1)
              sample_process_arp sample_process_nd
              (LlsConfig sample_net []) Front 0
              [Mbuf 0 100 0 0; Mbuf 1 100 0 0] Harp Hnd sample_world)
    as (_ & (ext & Htr & Hfr) & _).
  exists ext. split; [exact Htr | exact Hfr].
Defined.

Lemma X21_witness :
  (forall p,
     p ∈ [(Front, QUEUE_TYPE_RX); (Front, QUEUE_TYPE_TX)]
         ++ [(Back, QUEUE_TYPE_RX); (Back, QUEUE_TYPE_TX)] ->
     0 <= sample_queue_id p.1 p.2 4)
  /\ (assign_lls_queue_ids sample_queue_id true 4 (LlsQueues 0 0 0 0)).1.1
     = 0
  /\ (assign_lls_queue_ids sample_queue_id true 4 (LlsQueues 0 0 0 0)).2
     = [].
Proof.
  assert (Hall : forall p : iface_ref * queue_type,
            p ∈ [(Front, QUEUE_TYPE_RX); (Front, QUEUE_TYPE_TX)]
                ++ [(Back, QUEUE_TYPE_RX); (Back, QUEUE_TYPE_TX)] ->
            0 <= sample_queue_id p.1 p.2 4).
  { intros p _. unfold sample_queue_id. lia. }
  split; [exact Hall |].
  pose proof (proj2 (proj1 (X21_assign_lls_queue_ids sample_queue_id true 4
                              (LlsQueues 0 0 0 0))) Hall) as Hzero.
  destruct (proj1 (proj2 (X21_assign_lls_queue_ids sample_queue_id true 4
                            (LlsQueues 0 0 0 0))) Hzero) as (Hlogs & _).
  split; [exact Hzero | exact Hlogs].
Defined.

Lemma X22_witness :
  let res :=
    run_lls never_enabled never_enabled (fun _ => 0) (fun _ => 0)
      (Some sample_net) true 0 0 0 (-7) 0 (fun _ => 0) in
  res.1 < 0
  /\ lls_held (Held_stage 3) res.2 = 0
  /\ lls_held Held_timer res.2 = 0.
Proof.
  cbv zeta.
  assert (Hneg : (run_lls never_enabled never_enabled (fun _ => 0)
                    (fun _ => 0) (Some sample_net) true 0 0 0 (-7) 0
                    (fun _ => 0)).1 < 0) by reflexivity.
  split; [exact Hneg |].
  pose proof (proj1 (proj2 (X22_run_lls_unwinds never_enabled never_enabled
                              (fun _ => 0) (fun _ => 0) (Some sample_net)
                              true 0 0 0 (-7) 0 (fun _ => 0))) Hneg)
    as Hheld.
  split; [exact (Hheld (Held_stage 3)) | exact (Hheld Held_timer)].
Defined.

Lemma X23_witness :
  exists r,
    gk_stage1 sample_queue_id sample_lcores 4 true (fun _ => true)
      (fun i => negb (i =? 1)%nat) (fun _ => 0) 0 = Some r
    /\ s1_ret r = -1
    /\ s1_ref_cnt r = -1
    /\ exists k lcore,
         sample_lcores !! k = Some lcore /\ length (s1_logs r) = 1%nat.
Proof.
  destruct (X23_gk_stage1 sample_queue_id sample_lcores 4 true
              (fun _ => true) (fun i => negb (i =? 1)%nat) (fun _ => 0) 0)
    as (r & Hrun & _ & _ & _ & _ & Hfail).
  exists r. split; [exact Hrun |].
  assert (Hr : s1_ret r = -1 /\ s1_ref_cnt r = -1).
  { pose proof Hrun as Hc. vm_compute in Hc. injection Hc as <-.
    split; reflexivity. }
  destruct Hr as [Hret Href]. split; [exact Hret |]. split; [exact Href |].
  destruct (Hfail Hret eq_refl) as (k & lcore & Hk & _ & Hlogs & _).
  exists k, lcore. split; [exact Hk | exact Hlogs].
Defined.
